(** * wlutil: a shallow embedding of [wlutil/wlutil.py]

    The module shells out to external programs, mounts disk images and
    copies files in and out of them.  Its functions are modelled here as
    programs of a small state-and-exception monad: the state holds the
    process-wide [runName] and the chronological trace of every call the
    module makes to the outside (subprocesses, signals, files, the clock,
    the random generator, the logger); the answers of the outside come
    from a [World] of oracles which see the whole history so far. *)

From Stdlib Require Import Ascii ZArith.
From stdpp Require Import base list strings gmap.

Local Open Scope Z_scope.

(** ** Python strings *)

Module Py.

(** [sep.join(l)] *)
Fixpoint join (sep : string) (l : list string) : string :=
  match l with
  | [] => ""
  | [x] => x
  | x :: xs => x +:+ sep +:+ join sep xs
  end.

(** [s.split(sep)] for a one-character separator: never the empty list. *)
Fixpoint split (sep : ascii) (s : string) : list string :=
  match s with
  | EmptyString => [""]
  | String c s' =>
      if Ascii.eqb c sep then "" :: split sep s'
      else match split sep s' with
           | [] => [String c ""]
           | x :: xs => String c x :: xs
           end
  end.

(** [s.startswith(p)] *)
Fixpoint startswith (p s : string) : bool :=
  match p, s with
  | EmptyString, _ => true
  | String a p', String b s' => Ascii.eqb a b && startswith p' s'
  | String _ _, EmptyString => false
  end.

(** [s.rfind(c)] for a character: the last index of [c], or [-1]. *)
Fixpoint rfind_from (c : ascii) (s : string) (i best : Z) : Z :=
  match s with
  | EmptyString => best
  | String a s' => rfind_from c s' (i + 1) (if Ascii.eqb a c then i else best)
  end.

Definition rfind (c : ascii) (s : string) : Z := rfind_from c s 0 (-1).

(** [s[i:j]] and [s[i:]] for indices that are not negative. *)
Definition slice (s : string) (i j : Z) : string :=
  String.substring (Z.to_nat i) (Z.to_nat (j - i)) s.

Definition slice_from (s : string) (i : Z) : string :=
  String.substring (Z.to_nat i) (String.length s - Z.to_nat i) s.

(** [s.endswith(c)] for a character. *)
Fixpoint endswith_char (c : ascii) (s : string) : bool :=
  match s with
  | EmptyString => false
  | String a EmptyString => Ascii.eqb a c
  | String _ s' => endswith_char c s'
  end.

(** The characters [str.strip()] removes, in the ASCII range. *)
Definition isspace (c : ascii) : bool :=
  let n := nat_of_ascii c in
  ((9 <=? n) && (n <=? 13) || (28 <=? n) && (n <=? 32))%nat.

Fixpoint lstrip (s : string) : string :=
  match s with
  | EmptyString => ""
  | String c s' => if isspace c then lstrip s' else s
  end.

Fixpoint rstrip (s : string) : string :=
  match s with
  | EmptyString => ""
  | String c s' =>
      match rstrip s' with
      | EmptyString => if isspace c then "" else String c ""
      | r => String c r
      end
  end.

(** [s.strip()] *)
Definition strip (s : string) : string := rstrip (lstrip s).

(** [int(s)] for a decimal literal: surrounding white space and one sign
    are accepted; [None] stands for the [ValueError].  (Underscores
    between digits, which Python also accepts, are not.) *)
Definition digit_val (c : ascii) : option Z :=
  let n := nat_of_ascii c in
  if ((48 <=? n) && (n <=? 57))%nat then Some (Z.of_nat (n - 48)) else None.

Fixpoint digits_val (s : string) (acc : Z) : option Z :=
  match s with
  | EmptyString => Some acc
  | String c s' =>
      match digit_val c with
      | Some d => digits_val s' (10 * acc + d)
      | None => None
      end
  end.

Definition unsigned_int (s : string) : option Z :=
  match s with
  | EmptyString => None
  | _ => digits_val s 0
  end.

Definition int (s : string) : option Z :=
  match strip s with
  | String "-" r => Z.opp <$> unsigned_int r
  | String "+" r => unsigned_int r
  | r => unsigned_int r
  end.

(** Decimal digits of a natural number, [str(n)]. *)
Definition digit (n : nat) : ascii := ascii_of_nat (48 + n mod 10).

Fixpoint str_nat_aux (fuel n : nat) (acc : string) : string :=
  match fuel with
  | O => acc
  | S fuel' =>
      let acc' := String (digit n) acc in
      if (n <? 10)%nat then acc' else str_nat_aux fuel' (n / 10) acc'
  end.

Definition str_nat (n : nat) : string := str_nat_aux (S n) n "".

(** A field of [strftime] zero-padded to two digits ([%m], [%d], [%H],
    [%M], [%S]). *)
Definition pad2 (n : nat) : string :=
  String (digit (n / 10)) (String (digit n) "").

End Py.

(** ** [os.path] (posixpath), as far as the module uses it *)

Module OsPath.

Definition sep : ascii := "/"%char.

(** [os.path.join(a, b)] for two arguments. *)
Definition join (a b : string) : string :=
  if Py.startswith "/" b then b
  else if String.eqb a "" || Py.endswith_char sep a then a +:+ b
  else a +:+ "/" +:+ b.

(** [os.path.basename(p)]: [i = p.rfind('/') + 1; return p[i:]]. *)
Definition basename (p : string) : string :=
  Py.slice_from p (Py.rfind sep p + 1).

(** One round of the component loop of [normpath]. *)
Definition normpath_step (initial_slashes : nat)
    (new_comps : list string) (comp : string) : list string :=
  if String.eqb comp "" || String.eqb comp "." then new_comps
  else if negb (String.eqb comp "..")
          || (Nat.eqb initial_slashes 0 && bool_decide (new_comps = []))
          || (negb (bool_decide (new_comps = []))
              && String.eqb (default "" (last new_comps)) "..")
       then new_comps ++ [comp]
  else if negb (bool_decide (new_comps = [])) then removelast new_comps
  else new_comps.

(** [os.path.normpath(path)] *)
Definition normpath (path : string) : string :=
  if String.eqb path "" then "."
  else
    let initial_slashes : nat :=
      if Py.startswith "/" path then
        if Py.startswith "//" path && negb (Py.startswith "///" path)
        then 2%nat else 1%nat
      else 0%nat in
    let comps := fold_left (normpath_step initial_slashes)
                           (Py.split sep path) [] in
    let path' := Py.join "/" comps in
    let path'' :=
      match initial_slashes with
      | O => path'
      | 1%nat => "/" +:+ path'
      | _ => "//" +:+ path'
      end in
    if String.eqb path'' "" then "." else path''.

(** [os.path.splitext(p)[0]]: the extension starts at the last dot
    after the last slash, unless only dots precede it in the file
    name. *)
Fixpoint all_dots (s : string) : bool :=
  match s with
  | EmptyString => true
  | String c s' => Ascii.eqb c "."%char && all_dots s'
  end.

Definition splitext_root (p : string) : string :=
  let sepIndex := Py.rfind sep p in
  let dotIndex := Py.rfind "."%char p in
  if sepIndex <? dotIndex then
    if all_dots (Py.slice p (sepIndex + 1) dotIndex) then p
    else Py.slice p 0 dotIndex
  else p.

End OsPath.


(** ** Exceptions, events and the outside world *)

(** The exceptions the module raises or lets through. *)
Inductive exn : Type :=
| CalledProcessError (returncode : Z) (cmd : string)
| ValueError (msg : string)
| OSError (errno : Z)
| KeyError (key : string)
| GitError.

(** [errno.ESRCH]: no such process. *)
Definition ESRCH : Z := 3.

(** [logging] levels. *)
Inductive level : Type := DEBUG | INFO | WARNING | ERROR.

(** The first positional argument of [run]: a shell string or an
    argument vector. *)
Inductive command : Type :=
| Shell (s : string)
| Argv (args : list string).

(** The keyword arguments [run] hands on to [Popen]. *)
Record run_kwargs : Type := { kw_shell : bool; kw_cwd : option string }.

Definition no_kwargs : run_kwargs := {| kw_shell := false; kw_cwd := None |}.
Definition shell_kwargs : run_kwargs := {| kw_shell := true; kw_cwd := None |}.

(** Every call the module makes to the outside, in the order made. *)
Inductive event : Type :=
| EvLog (lvl : level) (msg : string)
| EvLogList (lvl : level) (items : list string)
| EvGetcwd
| EvPopen (cmd : command) (kw : run_kwargs)
| EvCall (cmd : string)
| EvKill (pid sig : Z)
| EvSleep (millis : Z)
| EvReadline (path : string)
| EvRemove (path : string)
| EvExists (path : string)
| EvMkdir (path : string)
| EvCopy (src dst : string)
| EvGlob (dir pattern : string)
| EvGitRepo (path : string)
| EvIsDirty
| EvGetuid
| EvGmtime
| EvRandBelow (n : nat).

(** What [Popen] and the wait for the child give: the spawn fails with an
    [OSError], or the child prints its lines and exits. *)
Inductive spawned : Type :=
| SpawnError (errno : Z)
| Exited (output : list string) (returncode : Z).

(** What [os.kill(pid, 0)] gives. *)
Inductive probe : Type :=
| KillOk
| KillError (errno : Z).

(** A file-system call succeeds or fails with an [OSError]. *)
Inductive os_result (A : Type) : Type :=
| OsOk (a : A)
| OsErr (errno : Z).
Arguments OsOk {A} a.
Arguments OsErr {A} errno.

(** [time.gmtime()] *)
Record struct_time : Type := {
  tm_year : nat; tm_mon : nat; tm_mday : nat;
  tm_hour : nat; tm_min : nat; tm_sec : nat
}.

(** The outside world: each oracle answers one kind of call, given the
    history of all calls made before it. *)
Record World : Type := {
  w_getcwd : list event -> string;
  w_popen : list event -> command -> run_kwargs -> spawned;
  w_call : list event -> string -> os_result Z;
  w_kill : list event -> Z -> Z -> probe;
  w_readline : list event -> string -> os_result string;
  w_remove : list event -> string -> os_result unit;
  w_exists : list event -> string -> bool;
  w_mkdir : list event -> string -> os_result unit;
  w_copy : list event -> string -> string -> os_result unit;
  w_glob : list event -> string -> string -> list string;
  w_git_repo : list event -> string -> bool;
  w_is_dirty : list event -> option bool;
  w_getuid : list event -> Z;
  w_gmtime : list event -> struct_time;
  w_randbelow : list event -> nat -> nat
}.

(** The paths the module fixes when it is imported: the directory of the
    library, the working directory at import, and ["-j" + str(cpu_count)]. *)
Record Globals : Type := {
  wlutil_dir : string;
  root_dir : string;
  jlevel : string
}.

Definition board_dir (g : Globals) : string :=
  OsPath.join (OsPath.join (root_dir g) "boards") "firechip".
Definition image_dir (g : Globals) : string := OsPath.join (root_dir g) "images".
Definition linux_dir (g : Globals) : string := OsPath.join (root_dir g) "riscv-linux".
Definition busybox_dir (g : Globals) : string := OsPath.join (wlutil_dir g) "busybox".
Definition initramfs_root (g : Globals) : string :=
  OsPath.join (wlutil_dir g) "initramfsRoot".
Definition log_dir (g : Globals) : string := OsPath.join (root_dir g) "logs".
Definition mnt (g : Globals) : string := OsPath.join (root_dir g) "disk-mount".

(** [FileSpec = namedtuple('FileSpec', ['src', 'dst'])] *)
Record FileSpec : Type := { src : string; dst : string }.

(** ** The monad *)

(** The process state the module changes: the global [runName], and the
    trace of calls made so far. *)
Record State : Type := { runName : string; trace : list event }.

(** A program returns, raises, or is still running when the fuel of a
    [while] loop is spent; the state reached is kept in all three cases. *)
Inductive outcome (A : Type) : Type :=
| Ret (a : A)
| Raise (e : exn)
| Diverge.
Arguments Ret {A} a.
Arguments Raise {A} e.
Arguments Diverge {A}.

Definition M (A : Type) : Type := State -> outcome A * State.

#[global] Instance M_ret : MRet M := fun A a st => (Ret a, st).

#[global] Instance M_bind : MBind M := fun A B f m st =>
  match m st with
  | (Ret a, st') => f a st'
  | (Raise e, st') => (Raise e, st')
  | (Diverge, st') => (Diverge, st')
  end.

Definition raise {A : Type} (e : exn) : M A := fun st => (Raise e, st).

Definition diverge {A : Type} : M A := fun st => (Diverge, st).

(** [try: body finally: fin]: [fin] runs when [body] returns or raises;
    an exception of [fin] replaces the outcome of [body]. *)
Definition try_finally {A : Type} (body : M A) (fin : M unit) : M A := fun st =>
  match body st with
  | (Diverge, st') => (Diverge, st')
  | (r, st') =>
      match fin st' with
      | (Ret _, st'') => (r, st'')
      | (Raise e, st'') => (Raise e, st'')
      | (Diverge, st'') => (Diverge, st'')
      end
  end.

(** [try: body except: handler] *)
Definition try_except {A : Type} (body : M A) (handler : exn -> M A) : M A :=
  fun st =>
  match body st with
  | (Raise e, st') => handler e st'
  | r => r
  end.

(** [for x in l: body] *)
Fixpoint for_each {A : Type} (l : list A) (body : A -> M unit) : M unit :=
  match l with
  | [] => mret tt
  | x :: xs => body x;; for_each xs body
  end.

Definition emit (e : event) : M unit := fun st =>
  (Ret tt, {| runName := runName st; trace := trace st ++ [e] |}).

(** One call to the outside: the oracle sees the history before the call. *)
Definition ask {A : Type} (e : event) (oracle : list event -> A) : M A := fun st =>
  (Ret (oracle (trace st)), {| runName := runName st; trace := trace st ++ [e] |}).

Definition from_os {A : Type} (r : os_result A) : M A :=
  match r with
  | OsOk a => mret a
  | OsErr errno => raise (OSError errno)
  end.

Definition dquote : string := String "034"%char "".

Definition direction_error : exn :=
  ValueError "direction option must be either 'in' or 'out'".

Definition alphabet : string := "ABCDEFGHIJKLMNOPQRSTUVWXYZ0123456789".

(** [seq[i]] for the index [i] the generator gives, brought into range. *)
Definition choice_of (seq : string) (i : nat) : ascii :=
  default "000"%char (String.get (i mod String.length seq) seq).

(** [configName] in [setRunName]: [if configPath: ... else: ''] *)
Definition config_name (configPath : option string) : string :=
  match configPath with
  | None | Some EmptyString => ""
  | Some p => OsPath.splitext_root (OsPath.basename p)
  end.

(** [time.strftime("%Y-%m-%d--%H-%M-%S", t)] *)
Definition strftime_run (t : struct_time) : string :=
  Py.str_nat (tm_year t) +:+ "-" +:+ Py.pad2 (tm_mon t) +:+ "-" +:+
  Py.pad2 (tm_mday t) +:+ "--" +:+ Py.pad2 (tm_hour t) +:+ "-" +:+
  Py.pad2 (tm_min t) +:+ "-" +:+ Py.pad2 (tm_sec t).

(** [args[0]] as [run] shows it in the log and in its exception. *)
Definition prettyCmd (cmd : command) : string :=
  match cmd with
  | Shell s => s
  | Argv args => Py.join " " args
  end.

(** The line [run] logs before it starts the command. *)
Definition running_msg (cmd : command) (cwd : string) : string :=
  "Running: " +:+ dquote +:+ prettyCmd cmd +:+ dquote +:+ " in " +:+ cwd.

Definition mount_cmd (imgPath mntPath : string) : command :=
  Argv ["guestmount"; "--pid-file"; "guestmount.pid"; "-a"; imgPath;
        "-m"; "/dev/sda"; mntPath].

Definition unmount_cmd (mntPath : string) : command :=
  Argv ["guestunmount"; mntPath].

Definition initramfs_dirs : list string :=
  ["bin"; "dev"; "etc"; "proc"; "root"; "sbin"; "sys"; "usr/bin"; "usr/sbin";
   "mnt/root"].

(** ** The functions of the module *)

Section Wlutil.

Variable g : Globals.
Variable w : World.

(** *** Calls to the outside *)

Definition log (lvl : level) (msg : string) : M unit := emit (EvLog lvl msg).

Definition log_list (lvl : level) (items : list string) : M unit :=
  emit (EvLogList lvl items).

Definition os_getcwd : M string := ask EvGetcwd (w_getcwd w).

Definition os_getuid : M Z := ask EvGetuid (w_getuid w).

(** [sp.Popen(...)], the reading of its output and [p.wait()]. *)
Definition sp_Popen (cmd : command) (kw : run_kwargs) : M (list string * Z) :=
  r ← ask (EvPopen cmd kw) (fun h => w_popen w h cmd kw);
  match r with
  | SpawnError errno => raise (OSError errno)
  | Exited output returncode => mret (output, returncode)
  end.

(** [sp.call(cmd, shell=True)] *)
Definition sp_call (cmd : string) : M Z :=
  r ← ask (EvCall cmd) (fun h => w_call w h cmd);
  from_os r.

Definition os_kill (pid sig : Z) : M unit :=
  r ← ask (EvKill pid sig) (fun h => w_kill w h pid sig);
  match r with
  | KillOk => mret tt
  | KillError errno => raise (OSError errno)
  end.

(** [time.sleep(0.25)] is [time_sleep 250]. *)
Definition time_sleep (millis : Z) : M unit := emit (EvSleep millis).

(** [with open(path, 'r') as f: int(f.readline())] *)
Definition read_int_line (path : string) : M Z :=
  r ← ask (EvReadline path) (fun h => w_readline w h path);
  line ← from_os r;
  match Py.int line with
  | Some n => mret n
  | None => raise (ValueError ("invalid literal for int() with base 10: " +:+ line))
  end.

Definition os_remove (path : string) : M unit :=
  r ← ask (EvRemove path) (fun h => w_remove w h path);
  from_os r.

Definition os_path_exists (path : string) : M bool :=
  ask (EvExists path) (fun h => w_exists w h path).

Definition path_mkdir (path : string) : M unit :=
  r ← ask (EvMkdir path) (fun h => w_mkdir w h path);
  from_os r.

Definition shutil_copy (from to : string) : M unit :=
  r ← ask (EvCopy from to) (fun h => w_copy w h from to);
  from_os r.

Definition path_glob (dir pattern : string) : M (list string) :=
  ask (EvGlob dir pattern) (fun h => w_glob w h dir pattern).

Definition git_Repo (path : string) : M unit :=
  ok ← ask (EvGitRepo path) (fun h => w_git_repo w h path);
  if ok : bool then mret tt else raise GitError.

Definition repo_is_dirty : M bool :=
  r ← ask EvIsDirty (w_is_dirty w);
  match r with
  | Some b => mret b
  | None => raise GitError
  end.

Definition time_gmtime : M struct_time := ask EvGmtime (w_gmtime w).

(** [random.choice(seq)] for a string that is not empty. *)
Definition random_choice (seq : string) : M ascii :=
  let n := String.length seq in
  i ← ask (EvRandBelow n) (fun h => w_randbelow w h n);
  mret (choice_of seq i).

Definition dict_get (d : gmap string string) (key : string) : M string :=
  match d !! key with
  | Some v => mret v
  | None => raise (KeyError key)
  end.

(** *** setRunName, getRunName *)

(** [''.join(random.choice(...) for _ in range(n))] *)
Fixpoint random_name (n : nat) : M string :=
  match n with
  | O => mret ""
  | S n' =>
      c ← random_choice alphabet;
      rest ← random_name n';
      mret (String c rest)
  end.

Definition set_runName (name : string) : M unit := fun st =>
  (Ret tt, {| runName := name; trace := trace st |}).

Definition setRunName (configPath : option string) (operation : string) : M unit :=
  t ← time_gmtime;
  let timeline := strftime_run t in
  randname ← random_name 16;
  let configName := config_name configPath in
  set_runName (configName +:+ "-" +:+ operation +:+ "-" +:+ timeline +:+ "-" +:+ randname).

Definition getRunName : M string := fun st => (Ret (runName st), st).

(** *** run *)

Definition run (cmd : command) (lvl : level) (check : bool) (kw : run_kwargs) : M unit :=
  let pretty := prettyCmd cmd in
  cwd ← match kw_cwd kw with
        | Some d => mret d
        | None => os_getcwd
        end;
  log lvl (running_msg cmd cwd);;
  p ← sp_Popen cmd kw;
  for_each (fst p) (fun line => log lvl (Py.strip line));;
  if check && negb (snd p =? 0) then raise (CalledProcessError (snd p) pretty)
  else mret tt.

(** *** waitpid *)

(** One round of the [while] loop per unit of fuel. *)
Fixpoint waitpid (fuel : nat) (pid : Z) : M unit :=
  match fuel with
  | O => diverge
  | S fuel' =>
      done ← try_except (os_kill pid 0;; mret false)
                (fun err =>
                   match err with
                   | OSError errno =>
                       if errno =? ESRCH then mret true else mret false
                   | _ => raise err
                   end);
      if done : bool then mret tt
      else time_sleep 250;; waitpid fuel' pid
  end.

(** *** mountImg *)

(** The [try] block of [mountImg], with the body of the [with] statement
    in the place of [yield]. *)
Definition mount_scope {A : Type} (mntPath : string) (body : string -> M A) : M (Z * A) :=
  mntPid ← read_int_line "./guestmount.pid";
  a ← body mntPath;
  mret (mntPid, a).

(** The [finally] block of [mountImg]. *)
Definition mount_cleanup (mntPath : string) : M unit :=
  run (unmount_cmd mntPath) DEBUG true no_kwargs;;
  os_remove "./guestmount.pid".

(** The context manager, applied to the body of its [with] statement:
    [waitpid] comes after the [try ... finally] statement. *)
Definition mountImg {A : Type} (fuel : nat) (imgPath mntPath : string)
    (body : string -> M A) : M A :=
  run (mount_cmd imgPath mntPath) DEBUG true no_kwargs;;
  r ← try_finally (mount_scope mntPath body) (mount_cleanup mntPath);
  waitpid fuel (fst r);;
  mret (snd r).

(** *** toCpio *)

(** The [with] statement of [toCpio]. *)
Definition toCpio_archive (fuel : nat) (from to : string) : M unit :=
  mountImg fuel from (mnt g) (fun _ =>
    run (Shell ("find -print0 | cpio --owner root:root --null -ov --format=newc > " +:+ to))
        DEBUG true {| kw_shell := true; kw_cwd := Some (mnt g) |}).

(** The shell command that appends the overlay archive [name] to [to]. *)
Definition append_cmd (name to : string) : string :=
  "cat " +:+ OsPath.join (wlutil_dir g) name +:+ " >> " +:+ to.

Definition toCpio (fuel : nat) (config : gmap string string) (from to : string) : M unit :=
  toCpio_archive fuel from to;;
  distro ← dict_get config "distro";
  if String.eqb distro "fedora" then
    sp_call (append_cmd "fedora-initramfs-append.cpio" to);; mret tt
  else if String.eqb distro "br" then
    sp_call (append_cmd "br-initramfs-append.cpio" to);; mret tt
  else mret tt.

(** *** copyImgFiles, applyOverlay *)

(** The path of [p] inside the mounted image: [os.path.normpath(mnt + p)]. *)
Definition mount_path (mntPath p : string) : string :=
  OsPath.normpath (mntPath +:+ p).

(** The body of the loop of [copyImgFiles]. *)
Definition copy_one (direction : string) (f : FileSpec) : M unit :=
  if String.eqb direction "in" then
    run (Shell ("cp -a " +:+ src f +:+ " " +:+ mount_path (mnt g) (dst f)))
        DEBUG true shell_kwargs
  else if String.eqb direction "out" then
    os_getuid;;
    run (Shell ("cp -a " +:+ mount_path (mnt g) (src f) +:+ " " +:+ dst f))
        DEBUG true shell_kwargs
  else raise direction_error.

(** [if not os.path.exists(mnt): run(['mkdir', mnt])] *)
Definition ensure_mnt : M unit :=
  there ← os_path_exists (mnt g);
  if there : bool then mret tt
  else run (Argv ["mkdir"; mnt g]) DEBUG true no_kwargs.

Definition copyImgFiles (fuel : nat) (img : string) (files : list FileSpec)
    (direction : string) : M unit :=
  ensure_mnt;;
  mountImg fuel img (mnt g) (fun _ => for_each files (copy_one direction)).

Definition applyOverlay (fuel : nat) (img overlay : string) : M unit :=
  copyImgFiles fuel img [{| src := OsPath.join overlay "*"; dst := "/" |}] "in".

(** *** oneTimeInit *)

Definition apply_patch (patch : string) : M unit :=
  log INFO ("Applying: " +:+ patch);;
  run (Argv ["git"; "apply"; patch]) DEBUG true
      {| kw_shell := false; kw_cwd := Some (linux_dir g) |}.

Definition dirty_warning : string :=
  "Linux source dirty, skipping patches. You should manually check that the following patches have been applied (or are not needed):".

Definition applying_msg : string :=
  "Applying linux patches to default linux source".

Definition patch_error : string :=
  "Failed to apply patches. If you've changed the default linux, you should re-evaluate the patches.".

(** The first part of [oneTimeInit], up to [linuxRepo = git.Repo(linux_dir)]:
    it gives the list of patch files. *)
Definition init_build : M (list string) :=
  for_each initramfs_dirs (fun d =>
    there ← os_path_exists (OsPath.join (initramfs_root g) d);
    if there : bool then mret tt
    else path_mkdir (OsPath.join (initramfs_root g) d));;
  log INFO "Building busybox (used in initramfs)";;
  shutil_copy (OsPath.join (wlutil_dir g) "busybox-config")
              (OsPath.join (busybox_dir g) ".config");;
  run (Argv ["make"; jlevel g]) DEBUG true
      {| kw_shell := false; kw_cwd := Some (busybox_dir g) |};;
  shutil_copy (OsPath.join (busybox_dir g) "busybox")
              (OsPath.join (initramfs_root g) "bin/");;
  patches ← path_glob (board_dir g) "*.patch";
  git_Repo (linux_dir g);;
  mret patches.

(** The last part of [oneTimeInit]: [if linuxRepo.is_dirty(): ... else: ...]. *)
Definition apply_patches (patches : list string) : M unit :=
  dirty ← repo_is_dirty;
  if dirty : bool then
    log WARNING dirty_warning;;
    log_list WARNING patches
  else
    log INFO applying_msg;;
    try_except (for_each patches apply_patch) (fun _ => log ERROR patch_error).

Definition oneTimeInit : M unit :=
  patches ← init_build;
  apply_patches patches.

End Wlutil.

(** ** Reading traces *)

Definition is_kill (e : event) : bool :=
  match e with EvKill _ _ => true | _ => false end.

Definition is_sleep (e : event) : bool :=
  match e with EvSleep _ => true | _ => false end.

(** A subprocess started by [run] (its [Popen]). *)
Definition is_popen (e : event) : bool :=
  match e with EvPopen _ _ => true | _ => false end.

(** A subprocess started without [run]. *)
Definition is_direct_spawn (e : event) : bool :=
  match e with EvCall _ => true | _ => false end.



Definition is_remove (e : event) : bool :=
  match e with EvRemove _ => true | _ => false end.

Definition is_git_apply (e : event) : bool :=
  match e with
  | EvPopen (Argv ("git" :: "apply" :: _)) _ => true
  | _ => false
  end.

Definition count (p : event -> bool) (t : list event) : nat :=
  length (filter (fun e => p e = true) t).

(** The state a fresh process starts in. *)
Definition init : State := {| runName := ""; trace := [] |}.

(** The events a program adds, started in the fresh state. *)
Definition events_of {A : Type} (m : M A) : list event := trace (snd (m init)).

Definition result_of {A : Type} (m : M A) : outcome A := fst (m init).

Definition with_trace (st : State) (t : list event) : State :=
  {| runName := runName st; trace := t |}.

(** The history at which [run], started after [h], spawns its process. *)
Definition run_spawn_history (w : World) (cmd : command) (lvl : level)
    (kw : run_kwargs) (h : list event) : list event :=
  match kw_cwd kw with
  | Some d => h ++ [EvLog lvl (running_msg cmd d)]
  | None => h ++ [EvGetcwd; EvLog lvl (running_msg cmd (w_getcwd w h))]
  end.

(** The history at which [waitpid], started after [h], makes probe number
    [k] (counted from 0): [k] rounds of probe and sleep have gone by. *)
Fixpoint probe_history (pid : Z) (h : list event) (k : nat) : list event :=
  match k with
  | O => h
  | S k' => probe_history pid (h ++ [EvKill pid 0; EvSleep 250]) k'
  end.

(** The probe [os.kill(pid, 0)] made after the history [h] finds the
    process gone: it fails with [ESRCH]. *)
Definition gone (w : World) (pid : Z) (h : list event) : bool :=
  match w_kill w h pid 0 with
  | KillOk => false
  | KillError errno => errno =? ESRCH
  end.

(** [emits P m]: whatever happens, [m] only appends events, all in [P],
    to the trace. *)
Definition emits {A : Type} (P : event -> Prop) (m : M A) : Prop :=
  forall st, exists new, trace (snd (m st)) = trace st ++ new /\ Forall P new.

(** [total m]: [m] never runs out of fuel. *)
Definition total {A : Type} (m : M A) : Prop :=
  forall st, fst (m st) <> Diverge.

(** [raises_only Q m]: every exception that comes out of [m] is in [Q]. *)
Definition raises_only {A : Type} (Q : exn -> Prop) (m : M A) : Prop :=
  forall st e, fst (m st) = Raise e -> Q e.

(** An event that is not a subprocess started outside [run]. *)
Definition via_run (e : event) : Prop := is_direct_spawn e = false.


Definition is_draw (e : event) : bool :=
  match e with EvRandBelow _ => true | _ => false end.

(** The name [random_name n] draws when it starts after the history [h]. *)
Fixpoint drawn_name (w : World) (h : list event) (n : nat) : string :=
  match n with
  | O => ""
  | S n' =>
      String (choice_of alphabet (w_randbelow w h (String.length alphabet)))
             (drawn_name w (h ++ [EvRandBelow (String.length alphabet)]) n')
  end.

(** The events of one [setRunName]: the clock, then sixteen draws. *)
Definition setRunName_events : list event :=
  EvGmtime :: replicate 16 (EvRandBelow (String.length alphabet)).

(** The run name [setRunName] sets when it starts after the history [h]. *)
Definition run_name_at (w : World) (h : list event) (configPath : option string)
    (operation : string) : string :=
  config_name configPath +:+ "-" +:+ operation +:+ "-" +:+
  strftime_run (w_gmtime w h) +:+ "-" +:+ drawn_name w (h ++ [EvGmtime]) 16.

(** Two calls of [setRunName] in a row, and the two run names they set. *)
Definition two_run_names (w : World) (configPath : option string)
    (operation : string) : M (string * string) :=
  setRunName w configPath operation;;
  a ← getRunName;
  setRunName w configPath operation;;
  b ← getRunName;
  mret (a, b).

(** The characters of a string. *)
Fixpoint chars (s : string) : list ascii :=
  match s with
  | EmptyString => []
  | String c s' => c :: chars s'
  end.

(** A proper path component: not empty, not [.] or [..], without a slash. *)
Definition no_slash (c : string) : bool :=
  forallb (fun a => negb (Ascii.eqb a "/"%char)) (chars c).

Definition is_name (c : string) : bool :=
  negb (String.eqb c "") && negb (String.eqb c ".") && negb (String.eqb c "..")
  && no_slash c.

(** The absolute path with the components [cs]: ["/" + "/".join(cs)]. *)
Definition abs_path (cs : list string) : string := "/" +:+ Py.join "/" cs.

(** The components [cs], each one after a slash. *)
Fixpoint slashed (cs : list string) : string :=
  match cs with
  | [] => ""
  | c :: cs' => "/" +:+ c +:+ slashed cs'
  end.

(** [glue c l]: [c] stuck in front of the first string of [l]. *)
Definition glue (c : string) (l : list string) : list string :=
  match l with
  | [] => [c]
  | x :: xs => (c +:+ x) :: xs
  end.



(** ** Sample worlds, for concrete runs *)

(** Commands exit with [exit_code]; the [n]-th probe of a process (counted
    from 0) answers [probes n]; the pid file holds [pidline]. *)
Definition sample_world (exit_code : command -> Z) (probes : nat -> probe)
    (pidline : string) (mnt_exists dirty : bool) (patches : list string)
    (draw : list event -> nat) : World := {|
  w_getcwd := fun _ => "/work";
  w_popen := fun _ cmd _ => Exited ["ok" +:+ String "010" ""] (exit_code cmd);
  w_call := fun _ _ => OsOk 0;
  w_kill := fun h _ _ => probes (count is_kill h);
  w_readline := fun _ _ => OsOk pidline;
  w_remove := fun _ _ => OsOk tt;
  w_exists := fun _ _ => mnt_exists;
  w_mkdir := fun _ _ => OsOk tt;
  w_copy := fun _ _ _ => OsOk tt;
  w_glob := fun _ _ _ => patches;
  w_git_repo := fun _ _ => true;
  w_is_dirty := fun _ => Some dirty;
  w_getuid := fun _ => 1000;
  w_gmtime := fun _ =>
    {| tm_year := 2020; tm_mon := 3; tm_mday := 7;
       tm_hour := 9; tm_min := 5; tm_sec := 42 |};
  w_randbelow := fun h _ => draw h
|}.

Definition all_succeed (cmd : command) : Z := 0.

(** The process is gone at the third probe: alive, no permission, gone. *)
Definition dies_third (n : nat) : probe :=
  match n with
  | O => KillOk
  | 1%nat => KillError 1
  | _ => KillError ESRCH
  end.

Definition already_gone (n : nat) : probe := KillError ESRCH.

Definition calm : World :=
  sample_world all_succeed dies_third ("4242" +:+ String "010" "") true false
    ["/work/boards/firechip/a.patch"; "/work/boards/firechip/b.patch"]
    (fun h => length h).

Definition here : Globals :=
  {| wlutil_dir := "/work/wlutil"; root_dir := "/mnt"; jlevel := "-j8" |}.

(** A command that exits with code 3. *)
Definition exit3 (cmd : command) : Z := 3.

Definition failing : World :=
  sample_world exit3 already_gone "1" true false [] (fun _ => 0%nat).


(** [git apply b.patch] exits with code 1; every other command succeeds. *)
Definition b_patch_fails (cmd : command) : Z :=
  match cmd with
  | Argv [_; _; p] => if String.eqb p "b.patch" then 1 else 0
  | _ => 0
  end.

(** A clean tree with three patches, of which the second does not apply. *)
Definition clean_tree : World :=
  sample_world b_patch_fails already_gone "1" true false
    ["a.patch"; "b.patch"; "c.patch"] (fun _ => 0%nat).

(** A dirty tree with the same patches. *)
Definition dirty_tree : World :=
  sample_world all_succeed already_gone "1" true true
    ["a.patch"; "b.patch"; "c.patch"] (fun _ => 0%nat).

(** The clock stands still within the second and the generator gives the
    same sixteen draws again. *)
Definition repeating : World :=
  sample_world all_succeed already_gone "1" true false []
    (fun h => (3 + 7 * (count is_draw h mod 16))%nat).

(** ** The files the module writes: convertInitramfsConfig, genRunScript *)

(** A disk: the text of each file, and the paths that cannot be opened
    for writing ([open] raises [OSError] for them). *)
Record Disk : Type := { files : gmap string string; locked : gset string }.

(** [errno.EACCES] *)
Definition EACCES : Z := 13.

Definition newline : string := String "010" "".

(** [open(path, 'w')]: the file is created or emptied. *)
Definition open_w (path : string) (d : Disk) : os_result Disk :=
  if bool_decide (path ∈ locked d) then OsErr EACCES
  else OsOk {| files := <[path := ""]> (files d); locked := locked d |}.

(** [open(path, 'at')]: the file is created if it is not there. *)
Definition open_at (path : string) (d : Disk) : os_result Disk :=
  if bool_decide (path ∈ locked d) then OsErr EACCES
  else OsOk {| files := <[path := default "" (files d !! path)]> (files d);
               locked := locked d |}.

(** [f.write(text)] on the open file [path]. *)
Definition file_write (path text : string) (d : Disk) : Disk :=
  {| files := <[path := default "" (files d !! path) +:+ text]> (files d);
     locked := locked d |}.

Definition convertInitramfsConfig (cfgPath cpioPath : string) (d : Disk)
    : outcome unit * Disk :=
  match open_at cfgPath d with
  | OsErr errno => (Raise (OSError errno), d)
  | OsOk d0 =>
      let d1 := file_write cfgPath ("CONFIG_BLK_DEV_INITRD=y" +:+ newline) d0 in
      let d2 := file_write cfgPath
                  ("CONFIG_INITRAMFS_SOURCE=" +:+ dquote +:+ cpioPath +:+ dquote
                   +:+ newline) d1 in
      (Ret tt, d2)
  end.

(** [commandScript = os.path.join(wlutil_dir, "_command.sh")] *)
Definition commandScript (g : Globals) : string :=
  OsPath.join (wlutil_dir g) "_command.sh".

Definition genRunScript (g : Globals) (command : string) (d : Disk)
    : outcome string * Disk :=
  match open_w (commandScript g) d with
  | OsErr errno => (Raise (OSError errno), d)
  | OsOk d0 =>
      let d1 := file_write (commandScript g) ("#!/bin/bash" +:+ newline) d0 in
      let d2 := file_write (commandScript g) (command +:+ newline) d1 in
      let d3 := file_write (commandScript g) ("poweroff" +:+ newline) d2 in
      (Ret (commandScript g), d3)
  end.

(** The two lines [convertInitramfsConfig] adds. *)
Definition initramfs_lines (cpioPath : string) : string :=
  "CONFIG_BLK_DEV_INITRD=y" +:+ newline +:+
  "CONFIG_INITRAMFS_SOURCE=" +:+ dquote +:+ cpioPath +:+ dquote +:+ newline.

(** The text of the run script for [command]. *)
Definition run_script (command : string) : string :=
  "#!/bin/bash" +:+ newline +:+ command +:+ newline +:+ "poweroff" +:+ newline.

(** ** initLogging *)

(** Where a log handler writes. *)
Inductive sink : Type :=
| ToFile (path : string)
| ToStdout.

(** A handler object: [h_id] stands for its identity, [h_level = None]
    for [logging.NOTSET]. *)
Record Handler : Type := {
  h_id : nat;
  h_sink : sink;
  h_level : option level;
  h_format : option string
}.

(** The root logger and the two globals of the module; [next_id] is the
    identity of the next object created. *)
Record Logging : Type := {
  root_level : option level;
  root_handlers : list Handler;
  fileHandler : option Handler;
  consoleHandler : option Handler;
  next_id : nat
}.

Definition log_format : string :=
  "%(asctime)s [%(funcName)-12.12s] [%(levelname)-5.5s]  %(message)s".

(** [rootLogger.removeHandler(h)]: nothing happens when [h] is not there. *)
Definition removeHandler (h : Handler) (hs : list Handler) : list Handler :=
  filter (fun x => h_id x <> h_id h) hs.

(** [rootLogger.addHandler(h)]: appended unless already there. *)
Definition addHandler (h : Handler) (hs : list Handler) : list Handler :=
  if bool_decide (Exists (fun x => h_id x = h_id h) hs) then hs else hs ++ [h].

Definition remove_opt (h : option Handler) (hs : list Handler) : list Handler :=
  match h with
  | Some x => removeHandler x hs
  | None => hs
  end.

(** [initLogging(verbose)], for the current run name; [open_log] tells
    whether [logging.FileHandler] can open its file. *)
Definition initLogging (g : Globals) (open_log : string -> os_result unit)
    (verbose : bool) (name : string) (l : Logging) : outcome unit * Logging :=
  let logPath := OsPath.join (log_dir g) (name +:+ ".log") in
  let hs1 := remove_opt (fileHandler l) (root_handlers l) in
  match open_log logPath with
  | OsOk _ =>
    let fh := {| h_id := next_id l; h_sink := ToFile logPath;
                 h_level := None; h_format := Some log_format |} in
    let hs2 := addHandler fh hs1 in
    let hs3 := remove_opt (consoleHandler l) hs2 in
    let ch := {| h_id := S (next_id l); h_sink := ToStdout;
                 h_level := if verbose then None else Some INFO;
                 h_format := None |} in
    (Ret tt,
     {| root_level := None; root_handlers := addHandler ch hs3;
        fileHandler := Some fh; consoleHandler := Some ch;
        next_id := S (S (next_id l)) |})
  | OsErr errno =>
    (Raise (OSError errno),
     {| root_level := None; root_handlers := hs1;
        fileHandler := fileHandler l; consoleHandler := consoleHandler l;
        next_id := next_id l |})
  end.

(** Every log file can be opened; none can. *)
Definition logs_open (path : string) : os_result unit := OsOk tt.
Definition logs_closed (path : string) : os_result unit := OsErr 2.

(** Before the first call: no handler, both globals [None]. *)
Definition no_logging : Logging :=
  {| root_level := Some WARNING; root_handlers := [];
     fileHandler := None; consoleHandler := None; next_id := 0 |}.

(** The identities in use are below [next_id]. *)
Definition ids_below (l : Logging) : Prop :=
  Forall (fun h => (h_id h < next_id l)%nat) (root_handlers l) /\
  (forall h, fileHandler l = Some h -> (h_id h < next_id l)%nat) /\
  (forall h, consoleHandler l = Some h -> (h_id h < next_id l)%nat).

(** The handlers of the root logger that are not the module's own. *)
Definition foreign (l : Logging) : list Handler :=
  remove_opt (consoleHandler l) (remove_opt (fileHandler l) (root_handlers l)).

(** ** Reading traces, continued *)

(** The commands started through [run], in order. *)
Definition popen_cmds (t : list event) : list command :=
  omap (fun e => match e with EvPopen cmd _ => Some cmd | _ => None end) t.

Definition is_mkdir (e : event) : bool :=
  match e with EvMkdir _ => true | _ => false end.

Definition is_readline (e : event) : bool :=
  match e with EvReadline _ => true | _ => false end.

(** The copy command of one FileSpec, by direction. *)
Definition cp_in (g : Globals) (f : FileSpec) : command :=
  Shell ("cp -a " +:+ src f +:+ " " +:+ mount_path (mnt g) (dst f)).

Definition cp_out (g : Globals) (f : FileSpec) : command :=
  Shell ("cp -a " +:+ mount_path (mnt g) (src f) +:+ " " +:+ dst f).

Definition git_apply (patch : string) : command := Argv ["git"; "apply"; patch].

(** What [waitpid pid] may do: probe [pid] with signal 0, sleep 250 ms. *)
Definition waitpid_event (pid : Z) (e : event) : Prop :=
  e = EvKill pid 0 \/ e = EvSleep 250.

(** ** More sample worlds *)

(** The program a command starts. *)
Definition program (cmd : command) : string :=
  match cmd with
  | Argv (p :: _) => p
  | Argv [] => ""
  | Shell s => s
  end.

(** The program [name] exits with code 1, every other command with 0. *)
Definition fails_on (name : string) (cmd : command) : Z :=
  if String.eqb (program cmd) name then 1 else 0.

Definition mount_fails : World :=
  sample_world (fails_on "guestmount") already_gone "77" true false [] (fun _ => 0%nat).

Definition unmount_fails : World :=
  sample_world (fails_on "guestunmount") already_gone "77" true false [] (fun _ => 0%nat).

Definition make_fails : World :=
  sample_world (fails_on "make") already_gone "77" true false ["a.patch"] (fun _ => 0%nat).

(** The mount point is missing and [mkdir] fails. *)
Definition mkdir_fails : World :=
  sample_world (fails_on "mkdir") already_gone "77" false false [] (fun _ => 0%nat).

(** The pid file holds no number. *)
Definition bad_pid_file : World :=
  sample_world all_succeed already_gone "no pid here" true false [] (fun _ => 0%nat).

(** The copy of [b] fails. *)
Definition copy_b_fails : World :=
  sample_world (fails_on "cp -a b /mnt/disk-mount/b") already_gone "77" true false []
    (fun _ => 0%nat).

(** A disk with one kernel configuration file. *)
Definition some_disk : Disk :=
  {| files := {[ "linux.cfg" := "CONFIG_SMP=y" +:+ newline ]};
     locked := {[ "/ro/linux.cfg" ]} |}.

(** Nothing works: no process starts, no file is there. *)
Definition no_shell : World :=
  {| w_getcwd := fun _ => "/work";
     w_popen := fun _ _ _ => SpawnError 2;
     w_call := fun _ _ => OsErr 2;
     w_kill := fun _ _ _ => KillError ESRCH;
     w_readline := fun _ _ => OsErr 2;
     w_remove := fun _ _ => OsErr 2;
     w_exists := fun _ _ => false;
     w_mkdir := fun _ _ => OsErr 2;
     w_copy := fun _ _ _ => OsErr 2;
     w_glob := fun _ _ _ => [];
     w_git_repo := fun _ _ => false;
     w_is_dirty := fun _ => None;
     w_getuid := fun _ => 0;
     w_gmtime := fun _ =>
       {| tm_year := 1970; tm_mon := 1; tm_mday := 1;
          tm_hour := 0; tm_min := 0; tm_sec := 0 |};
     w_randbelow := fun _ _ => 0%nat |}.

(** The world [w] with other answers to [subprocess.call]. *)
Definition with_call (w : World) (call : list event -> string -> os_result Z) : World :=
  {| w_getcwd := w_getcwd w; w_popen := w_popen w; w_call := call;
     w_kill := w_kill w; w_readline := w_readline w; w_remove := w_remove w;
     w_exists := w_exists w; w_mkdir := w_mkdir w; w_copy := w_copy w;
     w_glob := w_glob w; w_git_repo := w_git_repo w; w_is_dirty := w_is_dirty w;
     w_getuid := w_getuid w; w_gmtime := w_gmtime w; w_randbelow := w_randbelow w |}.

(** The shell started by [subprocess.call] exits with code 1. *)
Definition append_fails : World := with_call calm (fun _ _ => OsOk 1).

(** The first loop of [oneTimeInit], over the directories [dirs]. *)
Definition make_dirs (g : Globals) (w : World) (dirs : list string) : M unit :=
  for_each dirs (fun d =>
    there ← os_path_exists w (OsPath.join (initramfs_root g) d);
    if there : bool then mret tt
    else path_mkdir w (OsPath.join (initramfs_root g) d)).

(** The directories created, in order. *)
Definition mkdir_paths (t : list event) : list string :=
  omap (fun e => match e with EvMkdir p => Some p | _ => None end) t.

Definition is_error_log (e : event) : bool :=
  match e with EvLog ERROR _ => true | _ => false end.

(** The history at which [oneTimeInit] starts [make], when it has come to
    it after [h]. *)
Definition make_history (g : Globals) (h : list event) : list event :=
  h ++ [EvLog INFO "Building busybox (used in initramfs)";
        EvCopy (OsPath.join (wlutil_dir g) "busybox-config")
               (OsPath.join (busybox_dir g) ".config");
        EvLog DEBUG (running_msg (Argv ["make"; jlevel g]) (busybox_dir g))].


(** The dirty check itself fails. *)
Definition no_git : World :=
  {| w_getcwd := w_getcwd calm; w_popen := w_popen calm; w_call := w_call calm;
     w_kill := w_kill calm; w_readline := w_readline calm; w_remove := w_remove calm;
     w_exists := w_exists calm; w_mkdir := w_mkdir calm; w_copy := w_copy calm;
     w_glob := w_glob calm; w_git_repo := w_git_repo calm;
     w_is_dirty := fun _ => None;
     w_getuid := w_getuid calm; w_gmtime := w_gmtime calm;
     w_randbelow := w_randbelow calm |}.

(** [s] holds no dot. *)
Definition no_dot (s : string) : bool :=
  forallb (fun a => negb (Ascii.eqb a "."%char)) (chars s).

(** [s] holds no character [c]. *)
Definition lacks (c : ascii) (s : string) : bool :=
  forallb (fun a => negb (Ascii.eqb a c)) (chars s).
Example join_example : Py.join " " ["git"; "apply"; "a.patch"] = "git apply a.patch".
Proof. reflexivity. Qed.

Example split_example : Py.split "/" "/mnt//x/" = [""; "mnt"; ""; "x"; ""].
Proof. reflexivity. Qed.

Example strip_example : Py.strip ("  ok done" +:+ String "010" "") = "ok done".
Proof. reflexivity. Qed.

(** The remark in [copyImgFiles]: [join('foo/bar', '/baz') == '/baz']. *)
Example os_path_join_overlay : OsPath.join "foo/bar" "/baz" = "/baz".
Proof. reflexivity. Qed.

Example basename_examples :
  OsPath.basename "/cfg/foo.yaml" = "foo.yaml" /\
  OsPath.basename "foo.yaml" = "foo.yaml" /\
  OsPath.basename "/cfg/" = "" /\
  OsPath.join "/root" "disk-mount" = "/root/disk-mount" /\
  OsPath.join "/root/" "disk-mount" = "/root/disk-mount" /\
  OsPath.join "" "disk-mount" = "disk-mount".
Proof. repeat split; reflexivity. Qed.

Example normpath_examples :
  OsPath.normpath "/mnt/x/etc" = "/mnt/x/etc" /\
  OsPath.normpath "/a/./b/../c//" = "/a/c" /\
  OsPath.normpath "//a" = "//a" /\
  OsPath.normpath "///a" = "/a" /\
  OsPath.normpath "../a/.." = ".." /\
  OsPath.normpath "" = ".".
Proof. repeat split; reflexivity. Qed.

Example splitext_examples :
  OsPath.splitext_root "foo.yaml" = "foo" /\
  OsPath.splitext_root "a.tar.gz" = "a.tar" /\
  OsPath.splitext_root "a..b" = "a." /\
  OsPath.splitext_root "d.x/.a.b" = "d.x/.a" /\
  OsPath.splitext_root "d.x/..b" = "d.x/..b" /\
  OsPath.splitext_root "d.x/b" = "d.x/b" /\
  OsPath.splitext_root ".bashrc" = ".bashrc" /\
  OsPath.splitext_root "..x" = "..x" /\
  OsPath.splitext_root "plain" = "plain".
Proof. repeat split; reflexivity. Qed.

(** * Properties *)

(** Re-bracket appends to the right, one explicit instance at a time. *)
Ltac assoc_r :=
  repeat match goal with
         | |- context [(?a ++ ?b) ++ ?c] => rewrite <- (app_assoc a b c)
         end.

(** ** The monad: unfolding, and what a program adds to the trace *)

Lemma bind_unfold {A B : Type} (m : M A) (f : A -> M B) (st : State) :
  (m ≫= f) st =
  match m st with
  | (Ret a, st') => f a st'
  | (Raise e, st') => (Raise e, st')
  | (Diverge, st') => (Diverge, st')
  end.
Proof. reflexivity. Qed.

Lemma ret_unfold {A : Type} (a : A) (st : State) : (mret a : M A) st = (Ret a, st).
Proof. reflexivity. Qed.

Lemma bind_ret {A B : Type} (m : M A) (f : A -> M B) (st st' : State) (a : A) :
  m st = (Ret a, st') -> (m ≫= f) st = f a st'.
Proof. intros H. rewrite bind_unfold, H. reflexivity. Qed.

Lemma bind_raise {A B : Type} (m : M A) (f : A -> M B) (st st' : State) (e : exn) :
  m st = (Raise e, st') -> (m ≫= f) st = (Raise e, st').
Proof. intros H. rewrite bind_unfold, H. reflexivity. Qed.

Lemma bind_diverge {A B : Type} (m : M A) (f : A -> M B) (st st' : State) :
  m st = (Diverge, st') -> (m ≫= f) st = (Diverge, st').
Proof. intros H. rewrite bind_unfold, H. reflexivity. Qed.

Create HintDb emits.

Section Emits.

Context (P : event -> Prop).

Lemma emits_ret {A : Type} (a : A) : emits P (mret a : M A).
Proof. intros st. exists []. simpl. rewrite app_nil_r. auto. Qed.

Lemma emits_raise {A : Type} (e : exn) : emits P (raise e : M A).
Proof. intros st. exists []. simpl. rewrite app_nil_r. auto. Qed.

Lemma emits_diverge {A : Type} : emits P (diverge : M A).
Proof. intros st. exists []. simpl. rewrite app_nil_r. auto. Qed.

Lemma emits_emit (e : event) : P e -> emits P (emit e).
Proof. intros He st. exists [e]. simpl. auto. Qed.

Lemma emits_ask {A : Type} (e : event) (oracle : list event -> A) :
  P e -> emits P (ask e oracle).
Proof. intros He st. exists [e]. simpl. auto. Qed.

Lemma emits_bind {A B : Type} (m : M A) (f : A -> M B) :
  emits P m -> (forall a, emits P (f a)) -> emits P (m ≫= f).
Proof.
  intros Hm Hf st. rewrite bind_unfold.
  destruct (Hm st) as (n1 & E1 & F1).
  destruct (m st) as [[a|e|] st1]; simpl in *; eauto.
  destruct (Hf a st1) as (n2 & E2 & F2).
  exists (n1 ++ n2). rewrite E2, E1, app_assoc. split; [reflexivity|].
  apply Forall_app; auto.
Qed.

(** The same, knowing which values [m] returns. *)
Lemma emits_bind_ret {A B : Type} (m : M A) (f : A -> M B) :
  emits P m -> (forall st a st', m st = (Ret a, st') -> emits P (f a)) ->
  emits P (m ≫= f).
Proof.
  intros Hm Hf st. rewrite bind_unfold.
  destruct (Hm st) as (n1 & E1 & F1).
  destruct (m st) as [[a|e|] st1] eqn:Em; simpl in *; eauto.
  destruct (Hf st a st1 Em st1) as (n2 & E2 & F2).
  exists (n1 ++ n2). rewrite E2, E1, app_assoc. split; [reflexivity|].
  apply Forall_app; auto.
Qed.

Lemma emits_try_finally {A : Type} (body : M A) (fin : M unit) :
  emits P body -> emits P fin -> emits P (try_finally body fin).
Proof.
  intros Hb Hf st. unfold try_finally.
  destruct (Hb st) as (n1 & E1 & F1).
  destruct (body st) as [[a|e|] st1]; simpl in *; eauto;
    destruct (Hf st1) as (n2 & E2 & F2);
    exists (n1 ++ n2); (split; [|apply Forall_app; auto]);
    destruct (fin st1) as [[[]|e'|] st2]; simpl in *;
    rewrite E2, E1, app_assoc; reflexivity.
Qed.

Lemma emits_try_except {A : Type} (body : M A) (handler : exn -> M A) :
  emits P body -> (forall e, emits P (handler e)) ->
  emits P (try_except body handler).
Proof.
  intros Hb Hh st. unfold try_except.
  destruct (Hb st) as (n1 & E1 & F1).
  destruct (body st) as [[a|e|] st1]; simpl in *; eauto.
  destruct (Hh e st1) as (n2 & E2 & F2).
  exists (n1 ++ n2). rewrite E2, E1, app_assoc. split; [reflexivity|].
  apply Forall_app; auto.
Qed.

Lemma emits_for_each {A : Type} (l : list A) (body : A -> M unit) :
  (forall x, emits P (body x)) -> emits P (for_each l body).
Proof.
  intros Hb. induction l as [|x xs IH]; simpl.
  - apply emits_ret.
  - apply emits_bind; auto.
Qed.

Lemma emits_from_os {A : Type} (r : os_result A) : emits P (from_os r).
Proof. destruct r; [apply emits_ret | apply emits_raise]. Qed.

Lemma emits_set_runName (name : string) : emits P (set_runName name).
Proof. intros st. exists []. simpl. rewrite app_nil_r. auto. Qed.

Lemma emits_getRunName : emits P getRunName.
Proof. intros st. exists []. simpl. rewrite app_nil_r. auto. Qed.

End Emits.

Lemma emits_weaken {A : Type} (P Q : event -> Prop) (m : M A) :
  (forall e, P e -> Q e) -> emits P m -> emits Q m.
Proof.
  intros HPQ Hm st. destruct (Hm st) as (n & E & F).
  exists n. split; [assumption|]. eapply Forall_impl; eauto.
Qed.

#[local] Hint Resolve emits_ret emits_raise emits_diverge emits_emit emits_ask
  emits_bind emits_try_finally emits_try_except emits_for_each emits_from_os
  emits_set_runName emits_getRunName : emits.

Section Total.

Lemma total_ret {A : Type} (a : A) : total (mret a : M A).
Proof. intros st. discriminate. Qed.

Lemma total_raise {A : Type} (e : exn) : total (raise e : M A).
Proof. intros st. discriminate. Qed.

Lemma total_emit (e : event) : total (emit e).
Proof. intros st. discriminate. Qed.

Lemma total_ask {A : Type} (e : event) (oracle : list event -> A) :
  total (ask e oracle).
Proof. intros st. discriminate. Qed.

Lemma total_bind {A B : Type} (m : M A) (f : A -> M B) :
  total m -> (forall a, total (f a)) -> total (m ≫= f).
Proof.
  intros Hm Hf st. rewrite bind_unfold. specialize (Hm st).
  destruct (m st) as [[a|e|] st1]; simpl in *; [apply Hf | congruence..].
Qed.

Lemma total_try_finally {A : Type} (body : M A) (fin : M unit) :
  total body -> total fin -> total (try_finally body fin).
Proof.
  intros Hb Hf st. unfold try_finally. specialize (Hb st).
  destruct (body st) as [[a|e|] st1]; simpl in *; try congruence;
    specialize (Hf st1); destruct (fin st1) as [[[]|e'|] st2];
    simpl in *; congruence.
Qed.

Lemma total_try_except {A : Type} (body : M A) (handler : exn -> M A) :
  total body -> (forall e, total (handler e)) -> total (try_except body handler).
Proof.
  intros Hb Hh st. unfold try_except. specialize (Hb st).
  destruct (body st) as [[a|e|] st1]; simpl in *; [congruence | apply Hh | congruence].
Qed.

Lemma total_for_each {A : Type} (l : list A) (body : A -> M unit) :
  (forall x, total (body x)) -> total (for_each l body).
Proof.
  intros Hb. induction l as [|x xs IH]; simpl.
  - apply total_ret.
  - apply total_bind; auto.
Qed.

Lemma total_from_os {A : Type} (r : os_result A) : total (from_os r).
Proof. destruct r; [apply total_ret | apply total_raise]. Qed.

End Total.

#[local] Hint Resolve total_ret total_raise total_emit total_ask total_bind
  total_try_finally total_try_except total_for_each total_from_os : emits.

(** ** run *)

Lemma with_trace_trace (st : State) : with_trace st (trace st) = st.
Proof. destruct st; reflexivity. Qed.

Lemma log_lines (lvl : level) (f : string -> string) (lines : list string) (st : State) :
  for_each lines (fun line => emit (EvLog lvl (f line))) st =
  (Ret tt, with_trace st (trace st ++ map (fun line => EvLog lvl (f line)) lines)).
Proof.
  revert st. induction lines as [|l ls IH]; intros st; simpl.
  - rewrite app_nil_r, with_trace_trace. reflexivity.
  - rewrite bind_unfold. simpl. rewrite IH. simpl.
    unfold with_trace. simpl. rewrite <- app_assoc. reflexivity.
Qed.

(** What one call of [run] does, in full. *)
Lemma run_unfold (w : World) (cmd : command) (lvl : level) (check : bool)
    (kw : run_kwargs) (st : State) :
  run w cmd lvl check kw st =
  let h := run_spawn_history w cmd lvl kw (trace st) in
  match w_popen w h cmd kw with
  | SpawnError errno =>
      (Raise (OSError errno), with_trace st (h ++ [EvPopen cmd kw]))
  | Exited output rc =>
      (if check && negb (rc =? 0)
       then Raise (CalledProcessError rc (prettyCmd cmd)) else Ret tt,
       with_trace st (h ++ [EvPopen cmd kw]
                        ++ map (fun line => EvLog lvl (Py.strip line)) output))
  end.
Proof.
  unfold run, run_spawn_history, log, sp_Popen, os_getcwd.
  destruct kw as [sh [d|]]; simpl;
    repeat (rewrite bind_unfold; simpl);
    rewrite <- ?app_assoc; simpl;
    match goal with |- context [w_popen w ?h ?c ?k] =>
      destruct (w_popen w h c k) as [errno|output rc] end; simpl;
    try reflexivity;
    rewrite bind_unfold, log_lines; simpl;
    destruct (check && negb (rc =? 0)); unfold with_trace; simpl;
    rewrite <- ?app_assoc; reflexivity.
Qed.

Lemma emits_run (P : event -> Prop) (w : World) (cmd : command) (lvl : level)
    (check : bool) (kw : run_kwargs) :
  P EvGetcwd -> (forall msg, P (EvLog lvl msg)) -> P (EvPopen cmd kw) ->
  emits P (run w cmd lvl check kw).
Proof.
  intros Hc Hl Hp. unfold run, log, sp_Popen, os_getcwd.
  apply emits_bind; [destruct (kw_cwd kw); auto with emits|]. intros cwd.
  apply emits_bind; [auto with emits|]. intros _.
  apply emits_bind.
  - apply emits_bind; [auto with emits|]. intros [errno|output rc]; auto with emits.
  - intros p. apply emits_bind; [apply emits_for_each; auto with emits|].
    intros _. destruct (check && negb (snd p =? 0)); auto with emits.
Qed.

Lemma total_run (w : World) (cmd : command) (lvl : level) (check : bool)
    (kw : run_kwargs) : total (run w cmd lvl check kw).
Proof.
  intros st. rewrite run_unfold. simpl.
  destruct (w_popen w _ cmd kw); simpl; [discriminate|].
  destruct (check && negb (returncode =? 0)); discriminate.
Qed.

(** C2. With [check] true, [run] returns when the process it spawned exits
    with code 0 and raises [CalledProcessError] with that process's exit
    code and the pretty command string when the code is not 0; with
    [check] false it returns whatever the exit code, and no execution of
    it, not even one whose spawn fails, raises a [CalledProcessError]. *)
Theorem run_check_semantics (w : World) (cmd : command) (lvl : level)
    (kw : run_kwargs) (st : State) :
  (forall output rc,
     w_popen w (run_spawn_history w cmd lvl kw (trace st)) cmd kw = Exited output rc ->
     (rc <> 0 ->
      fst (run w cmd lvl true kw st) = Raise (CalledProcessError rc (prettyCmd cmd))) /\
     (rc = 0 -> fst (run w cmd lvl true kw st) = Ret tt) /\
     fst (run w cmd lvl false kw st) = Ret tt) /\
  (forall rc c, fst (run w cmd lvl false kw st) <> Raise (CalledProcessError rc c)).
Proof.
  split.
  - intros output rc Hw. rewrite !run_unfold. simpl. rewrite Hw. simpl.
    repeat split; [intros Hrc | intros ->; reflexivity].
    destruct (Z.eqb_spec rc 0); [contradiction | reflexivity].
  - intros rc c. rewrite run_unfold. simpl.
    destruct (w_popen w _ cmd kw); simpl; discriminate.
Qed.

Lemma run_check_semantics_witness :
  fst (run failing (Argv ["false"; "-x"]) DEBUG true no_kwargs init)
    = Raise (CalledProcessError 3 "false -x") /\
  fst (run failing (Argv ["false"; "-x"]) DEBUG false no_kwargs init) = Ret tt.
Proof.
  destruct (run_check_semantics failing (Argv ["false"; "-x"]) DEBUG no_kwargs init)
    as [H _].
  destruct (H ["ok" +:+ String "010" ""] 3 eq_refl) as (H1 & _ & H3).
  split; [apply H1; discriminate | exact H3].
Defined.

(** ** waitpid *)


(** One round of the loop. *)
Lemma waitpid_round (w : World) (fuel : nat) (pid : Z) (st : State) :
  waitpid w (S fuel) pid st =
  match w_kill w (trace st) pid 0 with
  | KillOk =>
      waitpid w fuel pid (with_trace st (trace st ++ [EvKill pid 0; EvSleep 250]))
  | KillError errno =>
      if errno =? ESRCH
      then (Ret tt, with_trace st (trace st ++ [EvKill pid 0]))
      else waitpid w fuel pid (with_trace st (trace st ++ [EvKill pid 0; EvSleep 250]))
  end.
Proof.
  simpl. rewrite bind_unfold. unfold try_except, os_kill, time_sleep.
  rewrite !bind_unfold. simpl.
  destruct (w_kill w (trace st) pid 0) as [|errno]; simpl.
  - rewrite bind_unfold. simpl. rewrite <- app_assoc. reflexivity.
  - destruct (errno =? ESRCH); simpl; [reflexivity|].
    rewrite bind_unfold. simpl. rewrite <- app_assoc. reflexivity.
Qed.

Lemma waitpid_round_gone (w : World) (fuel : nat) (pid : Z) (st : State) :
  gone w pid (trace st) = true ->
  waitpid w (S fuel) pid st = (Ret tt, with_trace st (trace st ++ [EvKill pid 0])).
Proof.
  intros H. rewrite waitpid_round. unfold gone in H.
  destruct (w_kill w (trace st) pid 0) as [|errno]; [discriminate|].
  rewrite H. reflexivity.
Qed.

Lemma waitpid_round_alive (w : World) (fuel : nat) (pid : Z) (st : State) :
  gone w pid (trace st) = false ->
  waitpid w (S fuel) pid st =
  waitpid w fuel pid (with_trace st (trace st ++ [EvKill pid 0; EvSleep 250])).
Proof.
  intros H. rewrite waitpid_round. unfold gone in H.
  destruct (w_kill w (trace st) pid 0) as [|errno]; [reflexivity|].
  rewrite H. reflexivity.
Qed.

(** The loop, whatever the world: it returns at the first probe that
    finds the process gone, having slept after each probe before it, and
    is still polling when the fuel is spent before such a probe. *)
Lemma waitpid_cases (w : World) (fuel : nat) (pid : Z) (st : State) :
  (exists n, (n < fuel)%nat /\
     (forall k, (k < n)%nat -> gone w pid (probe_history pid (trace st) k) = false) /\
     gone w pid (probe_history pid (trace st) n) = true /\
     waitpid w fuel pid st =
       (Ret tt, with_trace st (probe_history pid (trace st) n ++ [EvKill pid 0]))) \/
  ((forall k, (k < fuel)%nat -> gone w pid (probe_history pid (trace st) k) = false) /\
   waitpid w fuel pid st = (Diverge, with_trace st (probe_history pid (trace st) fuel))).
Proof.
  revert st. induction fuel as [|fuel IH]; intros st.
  - right. split; [lia|]. simpl. rewrite with_trace_trace. reflexivity.
  - destruct (gone w pid (trace st)) eqn:Hg.
    + left. exists 0%nat. repeat split; [lia | lia | exact Hg|].
      apply waitpid_round_gone, Hg.
    + rewrite (waitpid_round_alive w fuel pid st Hg).
      destruct (IH (with_trace st (trace st ++ [EvKill pid 0; EvSleep 250])))
        as [(n & Hn & Hbefore & Hat & Hrun)|(Hnone & Hrun)]; simpl in *.
      * left. exists (S n). repeat split; [lia | | exact Hat | exact Hrun].
        intros [|k] Hk; [exact Hg | apply Hbefore; lia].
      * right. split; [|exact Hrun].
        intros [|k] Hk; [exact Hg | apply Hnone; lia].
Qed.

(** C6. [waitpid] returns exactly when a probe reports the process gone:
    if probe number [n] is the first to do so, it returns right after that
    probe, having slept 250 ms after each of the [n] probes before it, so
    for a process already gone it makes one probe and never sleeps; as
    long as no probe reports the process gone it does not return. *)
Theorem waitpid_returns_when_gone (w : World) (pid : Z) (st : State) :
  (forall n fuel,
     (forall k, (k < n)%nat -> gone w pid (probe_history pid (trace st) k) = false) ->
     gone w pid (probe_history pid (trace st) n) = true ->
     (n < fuel)%nat ->
     waitpid w fuel pid st =
       (Ret tt, with_trace st (probe_history pid (trace st) n ++ [EvKill pid 0]))) /\
  (forall fuel,
     gone w pid (trace st) = true ->
     waitpid w (S fuel) pid st = (Ret tt, with_trace st (trace st ++ [EvKill pid 0]))) /\
  (forall fuel,
     (forall k, (k < fuel)%nat -> gone w pid (probe_history pid (trace st) k) = false) ->
     waitpid w fuel pid st =
       (Diverge, with_trace st (probe_history pid (trace st) fuel))).
Proof.
  split; [|split].
  - intros n fuel Hbefore Hat Hfuel.
    destruct (waitpid_cases w fuel pid st)
      as [(m & Hm & Hmb & Hma & Hrun)|(Hnone & _)].
    + assert (m = n) as ->; [|exact Hrun].
      destruct (Nat.lt_trichotomy m n) as [Hlt|[Heq|Hgt]]; [|exact Heq|].
      * rewrite (Hbefore m Hlt) in Hma. discriminate.
      * rewrite (Hmb n Hgt) in Hat. discriminate.
    + rewrite (Hnone n Hfuel) in Hat. discriminate.
  - intros fuel Hg. apply waitpid_round_gone, Hg.
  - intros fuel Hnone.
    destruct (waitpid_cases w fuel pid st)
      as [(m & Hm & _ & Hma & _)|(_ & Hrun)]; [|exact Hrun].
    rewrite (Hnone m Hm) in Hma. discriminate.
Qed.

Lemma waitpid_returns_when_gone_witness :
  waitpid calm 5 42 init =
    (Ret tt, with_trace init [EvKill 42 0; EvSleep 250; EvKill 42 0; EvSleep 250;
                              EvKill 42 0]) /\
  waitpid failing 1 42 init = (Ret tt, with_trace init [EvKill 42 0]) /\
  waitpid calm 2 42 init =
    (Diverge, with_trace init [EvKill 42 0; EvSleep 250; EvKill 42 0; EvSleep 250]).
Proof.
  destruct (waitpid_returns_when_gone calm 42 init) as (H1 & _ & H3).
  destruct (waitpid_returns_when_gone failing 42 init) as (_ & H2 & _).
  split; [|split].
  - apply (H1 2%nat 5%nat); [|reflexivity|lia].
    intros [|[|k]] Hk; [reflexivity | reflexivity | lia].
  - apply (H2 0%nat). reflexivity.
  - apply (H3 2%nat). intros [|[|k]] Hk; [reflexivity | reflexivity | lia].
Defined.



(** ** What the calls to the outside add to the trace *)

Section EmitsCalls.

Context (P : event -> Prop) (w : World).

Lemma emits_log (lvl : level) (msg : string) : P (EvLog lvl msg) -> emits P (log lvl msg).
Proof. apply emits_emit. Qed.

Lemma emits_log_list (lvl : level) (items : list string) :
  P (EvLogList lvl items) -> emits P (log_list lvl items).
Proof. apply emits_emit. Qed.

Lemma emits_os_getuid : P EvGetuid -> emits P (os_getuid w).
Proof. apply emits_ask. Qed.

Lemma emits_sp_call (cmd : string) : P (EvCall cmd) -> emits P (sp_call w cmd).
Proof. intros H. unfold sp_call. auto with emits. Qed.

Lemma emits_os_kill (pid sig : Z) : P (EvKill pid sig) -> emits P (os_kill w pid sig).
Proof.
  intros H. unfold os_kill. apply emits_bind; [auto with emits|].
  intros [|errno]; auto with emits.
Qed.

Lemma emits_time_sleep (millis : Z) : P (EvSleep millis) -> emits P (time_sleep millis).
Proof. apply emits_emit. Qed.

Lemma emits_read_int_line (path : string) :
  P (EvReadline path) -> emits P (read_int_line w path).
Proof.
  intros H. unfold read_int_line. apply emits_bind; [auto with emits|].
  intros r. apply emits_bind; [auto with emits|].
  intros line. destruct (Py.int line); auto with emits.
Qed.

Lemma emits_os_remove (path : string) : P (EvRemove path) -> emits P (os_remove w path).
Proof. intros H. unfold os_remove. auto with emits. Qed.

Lemma emits_os_path_exists (path : string) :
  P (EvExists path) -> emits P (os_path_exists w path).
Proof. apply emits_ask. Qed.

Lemma emits_path_mkdir (path : string) : P (EvMkdir path) -> emits P (path_mkdir w path).
Proof. intros H. unfold path_mkdir. auto with emits. Qed.

Lemma emits_shutil_copy (from to : string) :
  P (EvCopy from to) -> emits P (shutil_copy w from to).
Proof. intros H. unfold shutil_copy. auto with emits. Qed.

Lemma emits_path_glob (dir pattern : string) :
  P (EvGlob dir pattern) -> emits P (path_glob w dir pattern).
Proof. apply emits_ask. Qed.

Lemma emits_git_Repo (path : string) : P (EvGitRepo path) -> emits P (git_Repo w path).
Proof.
  intros H. unfold git_Repo. apply emits_bind; [auto with emits|].
  intros []; auto with emits.
Qed.

Lemma emits_repo_is_dirty : P EvIsDirty -> emits P (repo_is_dirty w).
Proof.
  intros H. unfold repo_is_dirty. apply emits_bind; [auto with emits|].
  intros [b|]; auto with emits.
Qed.

Lemma emits_dict_get (d : gmap string string) (key : string) : emits P (dict_get d key).
Proof. unfold dict_get. destruct (d !! key); auto with emits. Qed.

Lemma emits_waitpid (fuel : nat) (pid : Z) :
  P (EvKill pid 0) -> P (EvSleep 250) -> emits P (waitpid w fuel pid).
Proof.
  intros Hk Hs. induction fuel as [|fuel IH]; simpl; [auto with emits|].
  apply emits_bind.
  - apply emits_try_except.
    + apply emits_bind; [apply emits_os_kill, Hk | auto with emits].
    + intros [| |errno| |]; auto with emits.
      destruct (errno =? ESRCH); auto with emits.
  - intros []; [auto with emits|].
    apply emits_bind; [apply emits_time_sleep, Hs | auto].
Qed.

End EmitsCalls.

#[local] Hint Resolve emits_log emits_log_list emits_os_getuid emits_sp_call
  emits_os_kill emits_time_sleep emits_read_int_line emits_os_remove
  emits_os_path_exists emits_path_mkdir emits_shutil_copy emits_path_glob
  emits_git_Repo emits_repo_is_dirty emits_dict_get emits_waitpid emits_run : emits.

Section TotalCalls.

Context (w : World).

Lemma total_read_int_line (path : string) : total (read_int_line w path).
Proof.
  unfold read_int_line. apply total_bind; [auto with emits|].
  intros r. apply total_bind; [auto with emits|].
  intros line. destruct (Py.int line); auto with emits.
Qed.

Lemma total_os_remove (path : string) : total (os_remove w path).
Proof. unfold os_remove. auto with emits. Qed.

Lemma total_os_getuid : total (os_getuid w).
Proof. apply total_ask. Qed.

End TotalCalls.

#[local] Hint Resolve total_run total_read_int_line total_os_remove total_os_getuid : emits.

(** ** Counting events *)

Lemma count_app (p : event -> bool) (t1 t2 : list event) :
  count p (t1 ++ t2) = (count p t1 + count p t2)%nat.
Proof. unfold count. rewrite filter_app, length_app. reflexivity. Qed.

Lemma count_none (p : event -> bool) (t : list event) :
  Forall (fun e => p e = false) t -> count p t = 0%nat.
Proof.
  unfold count. induction 1 as [|e t He _ IH]; [reflexivity|].
  rewrite filter_cons_False; [exact IH | congruence].
Qed.

Lemma count_one (p : event -> bool) (e : event) :
  count p [e] = if p e then 1%nat else 0%nat.
Proof.
  unfold count. destruct (p e) eqn:E.
  - rewrite filter_cons_True by assumption. reflexivity.
  - rewrite filter_cons_False by congruence. reflexivity.
Qed.

(** ** State after a bind, after a try-finally *)



Lemma try_finally_result {A : Type} (body : M A) (fin : M unit) (st : State) :
  fst (body st) <> Diverge ->
  fst (try_finally body fin st) =
  match fst (fin (snd (body st))) with
  | Ret _ => fst (body st)
  | Raise e => Raise e
  | Diverge => Diverge
  end.
Proof.
  unfold try_finally. destruct (body st) as [[a|e|] st1]; simpl;
    [| |congruence]; intros _; destruct (fin st1) as [[[]|e'|] st2]; reflexivity.
Qed.

(** A try-finally whose body raises does not return. *)
Lemma try_finally_raise {A : Type} (body : M A) (fin : M unit) (st : State) (e : exn) :
  fst (body st) = Raise e ->
  forall a, fst (try_finally body fin st) <> Ret a.
Proof.
  unfold try_finally. destruct (body st) as [[a|e'|] st1]; simpl;
    [discriminate| |discriminate]; intros _ a;
    destruct (fin st1) as [[[]|e''|] st2]; discriminate.
Qed.

(** [run] starts exactly one process, between log lines. *)
Lemma run_shape (P : event -> Prop) (w : World) (cmd : command) (lvl : level)
    (check : bool) (kw : run_kwargs) (st : State) :
  P EvGetcwd -> (forall msg, P (EvLog lvl msg)) ->
  exists pre post,
    trace (snd (run w cmd lvl check kw st)) =
      trace st ++ pre ++ [EvPopen cmd kw] ++ post /\
    Forall P pre /\ Forall P post.
Proof.
  intros Hc Hl. rewrite run_unfold. unfold run_spawn_history. simpl.
  destruct (kw_cwd kw) as [d|];
    destruct (w_popen w _ cmd kw) as [errno|output rc]; simpl.
  - exists [EvLog lvl (running_msg cmd d)], []. rewrite <- app_assoc. auto.
  - exists [EvLog lvl (running_msg cmd d)],
      (map (fun line => EvLog lvl (Py.strip line)) output).
    rewrite <- app_assoc. repeat split; auto.
    apply Forall_forall. intros e He. apply list_elem_of_fmap in He as (l & -> & _). auto.
  - exists [EvGetcwd; EvLog lvl (running_msg cmd (w_getcwd w (trace st)))], [].
    rewrite <- app_assoc. auto.
  - exists [EvGetcwd; EvLog lvl (running_msg cmd (w_getcwd w (trace st)))],
      (map (fun line => EvLog lvl (Py.strip line)) output).
    rewrite <- app_assoc. repeat split; auto.
    apply Forall_forall. intros e He. apply list_elem_of_fmap in He as (l & -> & _). auto.
Qed.

(** ** mountImg *)

Section MountImg.

Context (w : World).

Lemma emits_mount_scope {A : Type} (P : event -> Prop) (mp : string)
    (body : string -> M A) :
  (forall p, P (EvReadline p)) -> emits P (body mp) -> emits P (mount_scope w mp body).
Proof.
  intros Hr Hb. unfold mount_scope. apply emits_bind; [auto with emits|].
  intros pid. apply emits_bind; [exact Hb | auto with emits].
Qed.


Lemma total_mount_cleanup (mp : string) : total (mount_cleanup w mp).
Proof. unfold mount_cleanup. auto with emits. Qed.



(** When the body of the [with] statement raises, [mountImg] never calls
    [waitpid]: it makes no probe at all, and does not return. *)
Lemma mountImg_raise_no_probe {A : Type} (fuel : nat) (img mp : string) (e : exn)
    (st : State) :
  count is_kill (trace (snd (mountImg w fuel img mp (fun _ => raise (A:=A) e) st)))
    = count is_kill (trace st) /\
  forall a, fst (mountImg w fuel img mp (fun _ => raise (A:=A) e) st) <> Ret a.
Proof.
  set (P := fun ev => is_kill ev = false).
  assert (Hrun : forall cmd, emits P (run w cmd DEBUG true no_kwargs)).
  { intros cmd. apply emits_run; reflexivity. }
  assert (Htf : emits P (try_finally (mount_scope w mp (fun _ => raise (A:=A) e))
                           (mount_cleanup w mp))).
  { apply emits_try_finally.
    - apply emits_mount_scope; [reflexivity | auto with emits].
    - unfold mount_cleanup. apply emits_bind; [apply Hrun|].
      intros _. apply emits_os_remove. reflexivity. }
  assert (Hnr : forall st1 r,
            fst (try_finally (mount_scope w mp (fun _ => raise (A:=A) e))
                   (mount_cleanup w mp) st1) <> Ret r).
  { intros st1 r.
    assert (exists e', fst (mount_scope w mp (fun _ => raise (A:=A) e) st1) = Raise e')
      as [e' He'].
    { unfold mount_scope. rewrite bind_unfold.
      pose proof (total_read_int_line w "./guestmount.pid" st1) as Hd.
      destruct (read_int_line w "./guestmount.pid" st1) as [[pid|e'|] st2];
        simpl in *; [|eauto|congruence].
      rewrite ?bind_unfold. simpl. eauto. }
    apply (try_finally_raise _ _ _ _ He'). }
  unfold mountImg. rewrite bind_unfold.
  destruct (Hrun (mount_cmd img mp) st) as (n1 & E1 & F1).
  destruct (run w (mount_cmd img mp) DEBUG true no_kwargs st) as [[[]|e1|] st1];
    simpl in E1.
  - rewrite bind_unfold.
    destruct (Htf st1) as (n2 & E2 & F2). specialize (Hnr st1).
    destruct (try_finally (mount_scope w mp (fun _ => raise (A:=A) e))
                (mount_cleanup w mp) st1) as [[r|e2|] st2]; simpl in *.
    + exfalso. exact (Hnr r eq_refl).
    + split; [|discriminate].
      rewrite E2, E1, !count_app, (count_none _ _ F1), (count_none _ _ F2). lia.
    + split; [|discriminate].
      rewrite E2, E1, !count_app, (count_none _ _ F1), (count_none _ _ F2). lia.
  - simpl. split; [|discriminate].
    rewrite E1, count_app, (count_none _ _ F1). lia.
  - simpl. split; [|discriminate].
    rewrite E1, count_app, (count_none _ _ F1). lia.
Qed.

(** When everything succeeds and the body returns, [waitpid] is called on
    the pid read from the pid file, after the unmount and the removal. *)
Lemma mountImg_normal_exit {A : Type} (fuel : nat) (img mp : string)
    (body : string -> M A) (st st1 st2 st3 st4 : State) (pid : Z) (a : A) :
  run w (mount_cmd img mp) DEBUG true no_kwargs st = (Ret tt, st1) ->
  read_int_line w "./guestmount.pid" st1 = (Ret pid, st2) ->
  body mp st2 = (Ret a, st3) ->
  mount_cleanup w mp st3 = (Ret tt, st4) ->
  mountImg w fuel img mp body st =
  match waitpid w fuel pid st4 with
  | (Ret _, st5) => (Ret a, st5)
  | (Raise e, st5) => (Raise e, st5)
  | (Diverge, st5) => (Diverge, st5)
  end.
Proof.
  intros H1 H2 H3 H4. unfold mountImg.
  rewrite (bind_ret _ _ _ _ _ H1).
  assert (Htf : try_finally (mount_scope w mp body) (mount_cleanup w mp) st1
                = (Ret (pid, a), st4)).
  { unfold try_finally, mount_scope.
    rewrite (bind_ret _ _ _ _ _ H2), (bind_ret _ _ _ _ _ H3). simpl.
    rewrite H4. reflexivity. }
  rewrite (bind_ret _ _ _ _ _ Htf). simpl. rewrite bind_unfold.
  destruct (waitpid w fuel pid st4) as [[[]|e|] st5]; reflexivity.
Qed.

(** When the body raises and the cleanup succeeds, the exception of the
    body comes out right after the cleanup. *)
Lemma mountImg_exceptional_exit {A : Type} (fuel : nat) (img mp : string)
    (body : string -> M A) (st st1 st2 st3 : State) (pid : Z) (e : exn) :
  run w (mount_cmd img mp) DEBUG true no_kwargs st = (Ret tt, st1) ->
  read_int_line w "./guestmount.pid" st1 = (Ret pid, st2) ->
  body mp st2 = (Raise e, st3) ->
  mountImg w fuel img mp body st =
  match mount_cleanup w mp st3 with
  | (Ret _, st4) => (Raise e, st4)
  | (Raise e', st4) => (Raise e', st4)
  | (Diverge, st4) => (Diverge, st4)
  end.
Proof.
  intros H1 H2 H3. unfold mountImg.
  rewrite (bind_ret _ _ _ _ _ H1). rewrite bind_unfold.
  unfold try_finally, mount_scope.
  rewrite (bind_ret _ _ _ _ _ H2), (bind_raise _ _ _ _ _ H3).
  destruct (mount_cleanup w mp st3) as [[[]|e'|] st4]; reflexivity.
Qed.

End MountImg.

(** C1 (the code departs from it). The body of the [with] statement raises
    [KeyError]: the unmount command runs and the pid file is removed, then
    the exception comes out, and no probe of the mount process is ever
    made; in general, a [mountImg] whose body raises never calls
    [waitpid].  When the body returns, [waitpid] is called on the pid
    read from the pid file. *)
Theorem mountImg_raising_body_skips_waitpid :
  mountImg calm 5 "img" "/mnt/x" (fun _ => raise (A:=unit) (KeyError "boom")) init =
    (Raise (KeyError "boom"),
     with_trace init
       [EvGetcwd;
        EvLog DEBUG (running_msg (mount_cmd "img" "/mnt/x") "/work");
        EvPopen (mount_cmd "img" "/mnt/x") no_kwargs;
        EvLog DEBUG "ok";
        EvReadline "./guestmount.pid";
        EvGetcwd;
        EvLog DEBUG (running_msg (unmount_cmd "/mnt/x") "/work");
        EvPopen (unmount_cmd "/mnt/x") no_kwargs;
        EvLog DEBUG "ok";
        EvRemove "./guestmount.pid"]) /\
  (forall (w : World) (fuel : nat) (img mp : string) (e : exn) (st : State),
     count is_kill (trace (snd (mountImg w fuel img mp (fun _ => raise (A:=unit) e) st)))
       = count is_kill (trace st)) /\
  trace (snd (mountImg calm 5 "img" "/mnt/x" (fun _ => mret tt) init)) =
    trace (snd (mountImg calm 5 "img" "/mnt/x"
                  (fun _ => raise (A:=unit) (KeyError "boom")) init))
    ++ [EvKill 4242 0; EvSleep 250; EvKill 4242 0; EvSleep 250; EvKill 4242 0].
Proof.
  split; [vm_compute; reflexivity|]. split; [|vm_compute; reflexivity].
  intros w fuel img mp e st. apply mountImg_raise_no_probe.
Qed.

(** ** copyImgFiles *)

Section CopyImgFiles.

Context (g : Globals) (w : World).

Lemma emits_copy_one (P : event -> Prop) (direction : string) (f : FileSpec) :
  P EvGetcwd -> (forall msg, P (EvLog DEBUG msg)) -> P EvGetuid ->
  (forall s, P (EvPopen (Shell s) shell_kwargs)) ->
  emits P (copy_one g w direction f).
Proof.
  intros Hc Hl Hu Hp. unfold copy_one.
  destruct (String.eqb direction "in"); [auto with emits|].
  destruct (String.eqb direction "out"); auto with emits.
Qed.

Lemma total_copy_one (direction : string) (f : FileSpec) :
  total (copy_one g w direction f).
Proof.
  unfold copy_one.
  destruct (String.eqb direction "in"); [auto with emits|].
  destruct (String.eqb direction "out"); auto with emits.
Qed.

Lemma emits_ensure_mnt (P : event -> Prop) :
  P EvGetcwd -> (forall msg, P (EvLog DEBUG msg)) -> (forall p, P (EvExists p)) ->
  P (EvPopen (Argv ["mkdir"; mnt g]) no_kwargs) ->
  emits P (ensure_mnt g w).
Proof.
  intros Hc Hl He Hp. unfold ensure_mnt. apply emits_bind; [auto with emits|].
  intros []; auto with emits.
Qed.



End CopyImgFiles.




(** ** Which exceptions come out *)

Section RaisesOnly.

Context (Q : exn -> Prop).

Lemma raises_ret {A : Type} (a : A) : raises_only Q (mret a : M A).
Proof. intros st e. discriminate. Qed.

Lemma raises_raise {A : Type} (e : exn) : Q e -> raises_only Q (raise e : M A).
Proof. intros He st e' [= <-]. exact He. Qed.

Lemma raises_emit (ev : event) : raises_only Q (emit ev).
Proof. intros st e. discriminate. Qed.

Lemma raises_ask {A : Type} (ev : event) (oracle : list event -> A) :
  raises_only Q (ask ev oracle).
Proof. intros st e. discriminate. Qed.

Lemma raises_bind {A B : Type} (m : M A) (f : A -> M B) :
  raises_only Q m -> (forall a, raises_only Q (f a)) -> raises_only Q (m ≫= f).
Proof.
  intros Hm Hf st e. rewrite bind_unfold. specialize (Hm st).
  destruct (m st) as [[a|e1|] st1]; simpl in *.
  - apply Hf.
  - intros [= <-]. auto.
  - discriminate.
Qed.

Lemma raises_try_finally {A : Type} (body : M A) (fin : M unit) :
  raises_only Q body -> raises_only Q fin -> raises_only Q (try_finally body fin).
Proof.
  intros Hb Hf st e. unfold try_finally. specialize (Hb st).
  destruct (body st) as [[a|e1|] st1]; simpl in *; [| |discriminate];
    specialize (Hf st1); destruct (fin st1) as [[[]|e2|] st2]; simpl in *;
    try discriminate; intros [= <-]; auto.
Qed.

Lemma raises_for_each {A : Type} (l : list A) (body : A -> M unit) :
  (forall x, raises_only Q (body x)) -> raises_only Q (for_each l body).
Proof.
  intros Hb. induction l as [|x xs IH]; simpl.
  - apply raises_ret.
  - apply raises_bind; auto.
Qed.

Lemma raises_from_os {A : Type} (r : os_result A) :
  (forall errno, Q (OSError errno)) -> raises_only Q (from_os r).
Proof. intros H. destruct r; [apply raises_ret | apply raises_raise, H]. Qed.

Context (w : World).

Lemma raises_run (cmd : command) (lvl : level) (check : bool) (kw : run_kwargs) :
  (forall errno, Q (OSError errno)) ->
  (forall rc, Q (CalledProcessError rc (prettyCmd cmd))) ->
  raises_only Q (run w cmd lvl check kw).
Proof.
  intros Ho Hc st e. rewrite run_unfold. simpl.
  destruct (w_popen w _ cmd kw) as [errno|output rc]; simpl.
  - intros [= <-]. apply Ho.
  - destruct (check && negb (rc =? 0)); [|discriminate].
    intros [= <-]. apply Hc.
Qed.

Lemma raises_read_int_line (path : string) :
  (forall errno, Q (OSError errno)) ->
  (forall line, Q (ValueError ("invalid literal for int() with base 10: " +:+ line))) ->
  raises_only Q (read_int_line w path).
Proof.
  intros Ho Hv. unfold read_int_line.
  apply raises_bind; [apply raises_ask|]. intros r.
  apply raises_bind; [apply raises_from_os, Ho|]. intros line.
  destruct (Py.int line); [apply raises_ret | apply raises_raise, Hv].
Qed.

Lemma raises_os_remove (path : string) :
  (forall errno, Q (OSError errno)) -> raises_only Q (os_remove w path).
Proof.
  intros Ho. unfold os_remove.
  apply raises_bind; [apply raises_ask|]. intros r. apply raises_from_os, Ho.
Qed.

Lemma raises_waitpid (fuel : nat) (pid : Z) : raises_only Q (waitpid w fuel pid).
Proof.
  intros st e He.
  destruct (waitpid_cases w fuel pid st) as [(n & _ & _ & _ & Hrun)|(_ & Hrun)];
    rewrite Hrun in He; discriminate.
Qed.

Lemma raises_mountImg {A : Type} (fuel : nat) (img mp : string) (body : string -> M A) :
  (forall errno, Q (OSError errno)) ->
  (forall rc c, Q (CalledProcessError rc c)) ->
  (forall line, Q (ValueError ("invalid literal for int() with base 10: " +:+ line))) ->
  raises_only Q (body mp) ->
  raises_only Q (mountImg w fuel img mp body).
Proof.
  intros Ho Hc Hv Hb. unfold mountImg.
  apply raises_bind; [apply raises_run; auto|]. intros _.
  apply raises_bind.
  - apply raises_try_finally.
    + unfold mount_scope. apply raises_bind; [apply raises_read_int_line; auto|].
      intros pid. apply raises_bind; [exact Hb|]. intros a. apply raises_ret.
    + unfold mount_cleanup. apply raises_bind; [apply raises_run; auto|].
      intros _. apply raises_os_remove, Ho.
  - intros r. apply raises_bind; [apply raises_waitpid|]. intros _. apply raises_ret.
Qed.

End RaisesOnly.

Lemma raises_ensure_mnt (Q : exn -> Prop) (g : Globals) (w : World) :
  (forall errno, Q (OSError errno)) ->
  (forall rc c, Q (CalledProcessError rc c)) ->
  raises_only Q (ensure_mnt g w).
Proof.
  intros Ho Hc. unfold ensure_mnt.
  apply raises_bind; [apply raises_ask|].
  intros []; [apply raises_ret | apply raises_run; auto].
Qed.

(** The message of [int] is not the message about the direction. *)
Lemma int_error_not_direction_error (line : string) :
  ValueError ("invalid literal for int() with base 10: " +:+ line) <> direction_error.
Proof. unfold direction_error. cbv [String.append]. discriminate. Qed.

(** A direction that is neither ['in'] nor ['out'] stops the loop at the
    first FileSpec, before anything is copied. *)
Lemma copy_loop_bad_direction (g : Globals) (w : World) (direction : string)
    (f : FileSpec) (files : list FileSpec) (st : State) :
  direction <> "in" -> direction <> "out" ->
  for_each (f :: files) (copy_one g w direction) st = (Raise direction_error, st).
Proof.
  intros Hin Hout. simpl. rewrite bind_unfold. unfold copy_one.
  apply String.eqb_neq in Hin, Hout. rewrite Hin, Hout. reflexivity.
Qed.

(** C9. The direction is looked at only inside the loop over the
    FileSpecs.  With an empty list a call behaves the same whatever the
    direction, never raises the error about the direction, and (where the
    commands succeed) returns.  With a list that is not empty and a
    direction that is neither ['in'] nor ['out'], the image is first
    mounted and the pid file read; then the error is raised before any
    copy, the cleanup of the mount runs, and the error comes out (unless
    the cleanup itself raises). *)
Theorem copyImgFiles_direction_checked_in_loop (g : Globals) (w : World)
    (fuel : nat) (img : string) :
  (forall direction st,
     copyImgFiles g w fuel img [] direction st = copyImgFiles g w fuel img [] "in" st) /\
  (forall direction st,
     fst (copyImgFiles g w fuel img [] direction st) <> Raise direction_error) /\
  (forall direction, fst (copyImgFiles here calm 5 img [] direction init) = Ret tt) /\
  (forall direction f files st st1 st2 st3 pid,
     direction <> "in" -> direction <> "out" ->
     ensure_mnt g w st = (Ret tt, st1) ->
     run w (mount_cmd img (mnt g)) DEBUG true no_kwargs st1 = (Ret tt, st2) ->
     read_int_line w "./guestmount.pid" st2 = (Ret pid, st3) ->
     copyImgFiles g w fuel img (f :: files) direction st =
       match mount_cleanup w (mnt g) st3 with
       | (Ret _, st4) => (Raise direction_error, st4)
       | (Raise e, st4) => (Raise e, st4)
       | (Diverge, st4) => (Diverge, st4)
       end).
Proof.
  split; [reflexivity|]. split; [|split].
  - intros direction st Hraise.
    assert (H : raises_only (fun e => e <> direction_error)
                  (copyImgFiles g w fuel img [] direction)).
    { unfold copyImgFiles. apply raises_bind.
      - apply raises_ensure_mnt; discriminate.
      - intros _. apply raises_mountImg; discriminate. }
    exact (H st _ Hraise eq_refl).
  - intros direction. vm_compute. reflexivity.
  - intros direction f files st st1 st2 st3 pid Hin Hout Hens Hrun Hread.
    unfold copyImgFiles. rewrite (bind_ret _ _ _ _ _ Hens).
    apply (mountImg_exceptional_exit w fuel img (mnt g) _ st1 st2 st3 st3 pid);
      [exact Hrun | exact Hread|].
    apply copy_loop_bad_direction; assumption.
Qed.

Lemma copyImgFiles_direction_checked_in_loop_witness :
  copyImgFiles here calm 5 "img" [ {| src := "a"; dst := "/etc" |} ] "sideways" init =
  (Raise direction_error,
   with_trace init
     [EvExists (mnt here);
      EvGetcwd;
      EvLog DEBUG (running_msg (mount_cmd "img" (mnt here)) "/work");
      EvPopen (mount_cmd "img" (mnt here)) no_kwargs;
      EvLog DEBUG "ok";
      EvReadline "./guestmount.pid";
      EvGetcwd;
      EvLog DEBUG (running_msg (unmount_cmd (mnt here)) "/work");
      EvPopen (unmount_cmd (mnt here)) no_kwargs;
      EvLog DEBUG "ok";
      EvRemove "./guestmount.pid"]).
Proof.
  destruct (copyImgFiles_direction_checked_in_loop here calm 5 "img")
    as (_ & _ & _ & H).
  rewrite (H "sideways" {| src := "a"; dst := "/etc" |} [] init
             (snd (ensure_mnt here calm init))
             (snd (run calm (mount_cmd "img" (mnt here)) DEBUG true no_kwargs
                     (snd (ensure_mnt here calm init))))
             (snd (read_int_line calm "./guestmount.pid"
                     (snd (run calm (mount_cmd "img" (mnt here)) DEBUG true no_kwargs
                             (snd (ensure_mnt here calm init))))))
             4242);
    [vm_compute; reflexivity | discriminate | discriminate
    | vm_compute; reflexivity..].
Defined.

(** ** Which subprocesses are started outside run *)

#[local] Hint Extern 1 (via_run _) => reflexivity : emits.

Section ViaRun.

Context (g : Globals) (w : World).

Lemma via_run_run (cmd : command) (lvl : level) (check : bool) (kw : run_kwargs) :
  emits via_run (run w cmd lvl check kw).
Proof. apply emits_run; auto with emits. Qed.

Lemma via_run_mountImg {A : Type} (fuel : nat) (img mp : string) (body : string -> M A) :
  emits via_run (body mp) -> emits via_run (mountImg w fuel img mp body).
Proof.
  intros Hb. unfold mountImg.
  apply emits_bind; [apply via_run_run|]. intros _.
  apply emits_bind.
  - apply emits_try_finally.
    + apply emits_mount_scope; [auto with emits | exact Hb].
    + unfold mount_cleanup. apply emits_bind; [apply via_run_run|].
      intros _. auto with emits.
  - intros r. apply emits_bind; [auto with emits|]. intros _. auto with emits.
Qed.

Lemma via_run_copyImgFiles (fuel : nat) (img : string) (files : list FileSpec)
    (direction : string) :
  emits via_run (copyImgFiles g w fuel img files direction).
Proof.
  unfold copyImgFiles. apply emits_bind.
  - apply emits_ensure_mnt; auto with emits.
  - intros _. apply via_run_mountImg, emits_for_each. intros f.
    apply emits_copy_one; auto with emits.
Qed.

Lemma via_run_toCpio_archive (fuel : nat) (from to : string) :
  emits via_run (toCpio_archive g w fuel from to).
Proof. unfold toCpio_archive. apply via_run_mountImg, via_run_run. Qed.

Lemma via_run_init_build : emits via_run (init_build g w).
Proof.
  unfold init_build.
  apply emits_bind.
  { apply emits_for_each. intros d. apply emits_bind; [auto with emits|].
    intros []; auto with emits. }
  intros _. apply emits_bind; [auto with emits|].
  intros _. apply emits_bind; [auto with emits|].
  intros _. apply emits_bind; [apply via_run_run|].
  intros _. apply emits_bind; [auto with emits|].
  intros _. apply emits_bind; [auto with emits|].
  intros patches. apply emits_bind; auto with emits.
Qed.

Lemma via_run_apply_patch (patch : string) : emits via_run (apply_patch g w patch).
Proof.
  unfold apply_patch. apply emits_bind; [auto with emits|].
  intros _. apply via_run_run.
Qed.

Lemma via_run_apply_patches (patches : list string) :
  emits via_run (apply_patches g w patches).
Proof.
  unfold apply_patches. apply emits_bind; [auto with emits|].
  intros []; apply emits_bind; auto with emits.
  intros _. apply emits_try_except; [|auto with emits].
  apply emits_for_each, via_run_apply_patch.
Qed.

Lemma emits_random_name (P : event -> Prop) (n : nat) :
  (forall k, P (EvRandBelow k)) -> emits P (random_name w n).
Proof.
  intros H. induction n as [|n IH]; simpl; [auto with emits|].
  apply emits_bind.
  - unfold random_choice. auto with emits.
  - intros c. apply emits_bind; [exact IH | auto with emits].
Qed.

Lemma via_run_setRunName (configPath : option string) (operation : string) :
  emits via_run (setRunName w configPath operation).
Proof.
  unfold setRunName. apply emits_bind; [unfold time_gmtime; auto with emits|].
  intros t. apply emits_bind; [apply emits_random_name; auto with emits|].
  intros r. auto with emits.
Qed.

(** After the archive step, [toCpio] looks up the distribution and, for
    ['fedora'] and ['br'], starts one shell outside [run]. *)
Lemma toCpio_after_archive (fuel : nat) (config : gmap string string)
    (from to : string) (st st1 : State) :
  toCpio_archive g w fuel from to st = (Ret tt, st1) ->
  toCpio g w fuel config from to st =
  match config !! "distro" with
  | None => (Raise (KeyError "distro"), st1)
  | Some distro =>
      if String.eqb distro "fedora"
      then (sp_call w (append_cmd g "fedora-initramfs-append.cpio" to);; mret tt) st1
      else if String.eqb distro "br"
      then (sp_call w (append_cmd g "br-initramfs-append.cpio" to);; mret tt) st1
      else (Ret tt, st1)
  end.
Proof.
  intros H. unfold toCpio. rewrite (bind_ret _ _ _ _ _ H).
  unfold dict_get. destruct (config !! "distro") as [distro|]; [|reflexivity].
  rewrite bind_unfold. simpl.
  destruct (String.eqb distro "fedora"); [reflexivity|].
  destruct (String.eqb distro "br"); reflexivity.
Qed.

Lemma sp_call_trace (cmd : string) (st : State) :
  trace (snd ((sp_call w cmd;; mret tt) st)) = trace st ++ [EvCall cmd].
Proof.
  unfold sp_call. rewrite !bind_unfold. simpl.
  destruct (w_call w (trace st) cmd); reflexivity.
Qed.

End ViaRun.

(** C3, as the code has it. Every subprocess started by [run] itself,
    [waitpid], [mountImg], [copyImgFiles], [applyOverlay], [oneTimeInit],
    [setRunName] and the archive step of [toCpio] is started by [run];
    so is every subprocess of [toCpio] when the distribution is neither
    ['fedora'] nor ['br']; for these two, [toCpio] ends by starting one
    shell with [subprocess.call], outside [run]. *)
Theorem only_toCpio_spawns_outside_run (g : Globals) (w : World) (fuel : nat) :
  (forall cmd lvl check kw, emits via_run (run w cmd lvl check kw)) /\
  (forall pid, emits via_run (waitpid w fuel pid)) /\
  (forall img mp (body : string -> M unit),
     emits via_run (body mp) -> emits via_run (mountImg w fuel img mp body)) /\
  (forall img files direction,
     emits via_run (copyImgFiles g w fuel img files direction)) /\
  (forall img overlay, emits via_run (applyOverlay g w fuel img overlay)) /\
  emits via_run (oneTimeInit g w) /\
  (forall configPath operation, emits via_run (setRunName w configPath operation)) /\
  (forall from to, emits via_run (toCpio_archive g w fuel from to)) /\
  (forall (config : gmap string string) from to,
     config !! "distro" <> Some "fedora" -> config !! "distro" <> Some "br" ->
     emits via_run (toCpio g w fuel config from to)) /\
  (forall (config : gmap string string) from to st st1 name,
     (config !! "distro" = Some "fedora" /\ name = "fedora-initramfs-append.cpio") \/
     (config !! "distro" = Some "br" /\ name = "br-initramfs-append.cpio") ->
     toCpio_archive g w fuel from to st = (Ret tt, st1) ->
     trace (snd (toCpio g w fuel config from to st)) =
       trace st1 ++ [EvCall (append_cmd g name to)]).
Proof.
  repeat split.
  - intros. apply via_run_run.
  - intros. auto with emits.
  - intros. apply via_run_mountImg. assumption.
  - intros. apply via_run_copyImgFiles.
  - intros. apply via_run_copyImgFiles.
  - unfold oneTimeInit. apply emits_bind; [apply via_run_init_build|].
    intros patches. apply via_run_apply_patches.
  - intros. apply via_run_setRunName.
  - intros. apply via_run_toCpio_archive.
  - intros config from to Hf Hb. unfold toCpio.
    apply emits_bind; [apply via_run_toCpio_archive|]. intros _.
    apply emits_bind_ret; [auto with emits|]. intros st0 d st0' Hget.
    assert (Hd : config !! "distro" = Some d).
    { unfold dict_get in Hget. destruct (config !! "distro"); [|discriminate].
      injection Hget as -> _. reflexivity. }
    destruct (String.eqb_spec d "fedora") as [->|_]; [contradiction|].
    destruct (String.eqb_spec d "br") as [->|_]; [contradiction|].
    auto with emits.
  - intros config from to st st1 name Hd Harch.
    rewrite (toCpio_after_archive g w fuel config from to st st1 Harch).
    destruct Hd as [[-> ->]|[-> ->]]; simpl; apply sp_call_trace.
Qed.

Lemma only_toCpio_spawns_outside_run_witness :
  emits via_run (toCpio here calm 5 ∅ "img" "out.cpio") /\
  emits via_run (mountImg calm 5 "img" "/mnt/x" (fun _ => mret tt)) /\
  trace (snd (toCpio here calm 5 {[ "distro" := "br" ]} "img" "out.cpio" init)) =
    trace (snd (toCpio_archive here calm 5 "img" "out.cpio" init))
      ++ [EvCall "cat /work/wlutil/br-initramfs-append.cpio >> out.cpio"].
Proof.
  destruct (only_toCpio_spawns_outside_run here calm 5)
    as (_ & _ & Hm & _ & _ & _ & _ & _ & Hc & Hd).
  split; [|split].
  - apply Hc; vm_compute; discriminate.
  - apply Hm. apply emits_ret.
  - apply (Hd {[ "distro" := "br" ]} "img" "out.cpio" init
              (snd (toCpio_archive here calm 5 "img" "out.cpio" init))
              "br-initramfs-append.cpio").
    + right. split; vm_compute; reflexivity.
    + vm_compute. reflexivity.
Defined.

(** C3, as it is written, fails: for the distribution ['fedora'],
    [toCpio] starts a shell that does not go through [run]. *)
Lemma toCpio_spawns_outside_run :
  ~ emits via_run (toCpio here calm 5 {[ "distro" := "fedora" ]} "img" "out.cpio").
Proof.
  intros H. destruct (H init) as (new & E & F).
  change (trace init ++ new) with new in E. subst new.
  rewrite Forall_forall in F.
  specialize (F (EvCall "cat /work/wlutil/fedora-initramfs-append.cpio >> out.cpio")).
  assert (Hfalse : via_run (EvCall "cat /work/wlutil/fedora-initramfs-append.cpio >> out.cpio"));
    [|discriminate Hfalse].
  apply F. apply list_elem_of_In. vm_compute.
  repeat (first [left; reflexivity | right]).
Qed.

(** ** oneTimeInit *)

Section OneTimeInit.

Context (g : Globals) (w : World).

Lemma for_each_app {A : Type} (l1 l2 : list A) (body : A -> M unit) (st : State) :
  for_each (l1 ++ l2) body st = (for_each l1 body;; for_each l2 body) st.
Proof.
  revert st. induction l1 as [|x xs IH]; intros st; simpl.
  - reflexivity.
  - rewrite !bind_unfold. destruct (body x st) as [[[]|e|] st1]; [|reflexivity..].
    rewrite IH, bind_unfold. reflexivity.
Qed.

Lemma total_apply_patch (patch : string) : total (apply_patch g w patch).
Proof.
  unfold apply_patch, log. apply total_bind; [apply total_emit|].
  intros _. apply total_run.
Qed.

(** What [oneTimeInit] does once the tree is found dirty. *)
Lemma apply_patches_dirty (patches : list string) (st : State) :
  w_is_dirty w (trace st) = Some true ->
  apply_patches g w patches st =
  (Ret tt, with_trace st (trace st ++ [EvIsDirty; EvLog WARNING dirty_warning;
                                        EvLogList WARNING patches])).
Proof.
  intros H. unfold apply_patches, repo_is_dirty, log, log_list.
  rewrite !bind_unfold. simpl. rewrite H. simpl. rewrite !bind_unfold. simpl.
  unfold with_trace, emit. simpl. assoc_r. reflexivity.
Qed.

(** What it does on a clean tree: the loop over the patches runs inside
    the [try], and whatever comes out of it is caught. *)
Lemma apply_patches_clean (patches : list string) (st : State) :
  w_is_dirty w (trace st) = Some false ->
  apply_patches g w patches st =
  match for_each patches (apply_patch g w)
          (with_trace st (trace st ++ [EvIsDirty; EvLog INFO applying_msg])) with
  | (Raise _, st') => (Ret tt, with_trace st' (trace st' ++ [EvLog ERROR patch_error]))
  | r => r
  end.
Proof.
  intros H. unfold apply_patches, repo_is_dirty, log.
  rewrite !bind_unfold. simpl. rewrite H. simpl. rewrite !bind_unfold. simpl.
  unfold try_except, with_trace, emit. simpl. assoc_r. simpl.
  destruct (for_each patches (apply_patch g w) _) as [[[]|e|] st']; reflexivity.
Qed.

Lemma apply_patches_clean_returns (patches : list string) (st : State) :
  w_is_dirty w (trace st) = Some false ->
  fst (apply_patches g w patches st) = Ret tt.
Proof.
  intros H. rewrite (apply_patches_clean patches st H).
  pose proof (total_for_each patches (apply_patch g w) total_apply_patch
                (with_trace st (trace st ++ [EvIsDirty; EvLog INFO applying_msg]))) as Ht.
  destruct (for_each patches (apply_patch g w) _) as [[[]|e|] st']; simpl in *;
    congruence.
Qed.

Lemma apply_patches_stops_at_failure (done rest : list string) (p : string)
    (st st2 st3 : State) (e : exn) :
  w_is_dirty w (trace st) = Some false ->
  for_each done (apply_patch g w)
    (with_trace st (trace st ++ [EvIsDirty; EvLog INFO applying_msg])) = (Ret tt, st2) ->
  apply_patch g w p st2 = (Raise e, st3) ->
  apply_patches g w (done ++ p :: rest) st =
  (Ret tt, with_trace st3 (trace st3 ++ [EvLog ERROR patch_error])).
Proof.
  intros H Hdone Hp. rewrite (apply_patches_clean _ st H).
  rewrite for_each_app, (bind_ret _ _ _ _ _ Hdone). simpl.
  rewrite (bind_raise _ _ _ _ _ Hp). reflexivity.
Qed.

End OneTimeInit.

(** C8. Once the first part of [oneTimeInit] has returned the patch list:
    on a dirty tree it logs two warnings, starts no command and returns;
    on a clean tree it returns whatever the patches do; and when the
    patches [done] have applied and the next one fails, it logs an error
    and returns right there, the patches after it not tried and the
    patches before it left applied. *)
Theorem oneTimeInit_never_aborts_on_patches (g : Globals) (w : World)
    (patches : list string) (st st1 : State) :
  init_build g w st = (Ret patches, st1) ->
  (w_is_dirty w (trace st1) = Some true ->
   oneTimeInit g w st =
     (Ret tt, with_trace st1 (trace st1 ++ [EvIsDirty; EvLog WARNING dirty_warning;
                                            EvLogList WARNING patches]))) /\
  (w_is_dirty w (trace st1) = Some false -> fst (oneTimeInit g w st) = Ret tt) /\
  (forall done p rest st2 st3 e,
     w_is_dirty w (trace st1) = Some false ->
     patches = done ++ p :: rest ->
     for_each done (apply_patch g w)
       (with_trace st1 (trace st1 ++ [EvIsDirty; EvLog INFO applying_msg]))
       = (Ret tt, st2) ->
     apply_patch g w p st2 = (Raise e, st3) ->
     oneTimeInit g w st =
       (Ret tt, with_trace st3 (trace st3 ++ [EvLog ERROR patch_error]))).
Proof.
  intros Hbuild. unfold oneTimeInit. rewrite (bind_ret _ _ _ _ _ Hbuild).
  split; [|split].
  - apply apply_patches_dirty.
  - apply apply_patches_clean_returns.
  - intros done p rest st2 st3 e Hclean -> Hdone Hp.
    apply (apply_patches_stops_at_failure g w done rest p st1 st2 st3 e Hclean Hdone Hp).
Qed.

Lemma oneTimeInit_never_aborts_on_patches_witness :
  (count is_popen (events_of (oneTimeInit here dirty_tree)) = 1%nat /\
   result_of (oneTimeInit here dirty_tree) = Ret tt) /\
  (result_of (oneTimeInit here clean_tree) = Ret tt /\
   count is_git_apply (events_of (oneTimeInit here clean_tree)) = 2%nat /\
   last (events_of (oneTimeInit here clean_tree)) = Some (EvLog ERROR patch_error)).
Proof.
  pose (pats := ["a.patch"; "b.patch"; "c.patch"]).
  destruct (oneTimeInit_never_aborts_on_patches here dirty_tree pats init
              (snd (init_build here dirty_tree init)))
    as (Hd & _ & _); [vm_compute; reflexivity|].
  destruct (oneTimeInit_never_aborts_on_patches here clean_tree pats init
              (snd (init_build here clean_tree init)))
    as (_ & Hc & Hf); [vm_compute; reflexivity|].
  split.
  - unfold events_of, result_of. rewrite Hd by (vm_compute; reflexivity).
    split; vm_compute; reflexivity.
  - split; [apply Hc; vm_compute; reflexivity|].
    unfold events_of.
    rewrite (Hf ["a.patch"] "b.patch" ["c.patch"]
               (snd (for_each ["a.patch"] (apply_patch here clean_tree)
                       (with_trace (snd (init_build here clean_tree init))
                          (trace (snd (init_build here clean_tree init))
                             ++ [EvIsDirty; EvLog INFO applying_msg]))))
               (snd (apply_patch here clean_tree "b.patch"
                       (snd (for_each ["a.patch"] (apply_patch here clean_tree)
                          (with_trace (snd (init_build here clean_tree init))
                             (trace (snd (init_build here clean_tree init))
                                ++ [EvIsDirty; EvLog INFO applying_msg]))))))
               (CalledProcessError 1 "git apply b.patch"));
      [split; vm_compute; reflexivity | vm_compute; reflexivity..].
Defined.

(** ** setRunName *)

Section Strings.

Lemma append_cons (c : ascii) (s t : string) : String c s +:+ t = String c (s +:+ t).
Proof. reflexivity. Qed.

Lemma length_append (s t : string) :
  String.length (s +:+ t) = (String.length s + String.length t)%nat.
Proof.
  induction s as [|c s IH]; [reflexivity|].
  rewrite append_cons. cbn [String.length]. rewrite IH. reflexivity.
Qed.

Lemma append_inj_l (p s t : string) : p +:+ s = p +:+ t -> s = t.
Proof.
  induction p as [|c p IH]; [intros H; exact H|].
  rewrite !append_cons. intros [= H]. apply IH, H.
Qed.

(** Two concatenations with tails of the same length agree part by part. *)
Lemma append_inj_length (a b c d : string) :
  a +:+ b = c +:+ d -> String.length b = String.length d -> a = c /\ b = d.
Proof.
  revert c. induction a as [|x a IH]; intros [|y c] H Hlen.
  - split; [reflexivity | exact H].
  - exfalso. apply (f_equal String.length) in H.
    change ("" +:+ b) with b in H.
    rewrite append_cons in H. cbn [String.length] in H.
    rewrite length_append in H. lia.
  - exfalso. apply (f_equal String.length) in H.
    change ("" +:+ d) with d in H.
    rewrite append_cons in H. cbn [String.length] in H.
    rewrite length_append in H. lia.
  - rewrite !append_cons in H.
    injection H as -> H. destruct (IH c H Hlen) as [-> ->]. auto.
Qed.

Lemma startswith_append (p s : string) : Py.startswith p (p +:+ s) = true.
Proof.
  induction p as [|c p IH]; [reflexivity|].
  rewrite append_cons. cbn [Py.startswith]. rewrite Ascii.eqb_refl. exact IH.
Qed.

Lemma get_in_chars (s : string) (k : nat) :
  (k < String.length s)%nat ->
  exists c, String.get k s = Some c /\ c ∈ chars s.
Proof.
  revert k. induction s as [|x s IH]; intros k Hk; cbn in Hk; [lia|].
  destruct k as [|k]; cbn.
  - exists x. split; [reflexivity | left].
  - destruct (IH k) as (c & Hc & Hin); [lia|].
    exists c. split; [exact Hc | right; exact Hin].
Qed.

Lemma choice_of_in (seq : string) (i : nat) :
  seq <> "" -> choice_of seq i ∈ chars seq.
Proof.
  intros Hne. unfold choice_of.
  destruct (get_in_chars seq (i mod String.length seq)) as (c & Hc & Hin).
  - apply Nat.mod_upper_bound. destruct seq; [contradiction | discriminate].
  - rewrite Hc. exact Hin.
Qed.

End Strings.

Section SetRunName.

Context (w : World).

Lemma drawn_name_length (h : list event) (n : nat) :
  String.length (drawn_name w h n) = n.
Proof.
  revert h. induction n as [|n IH]; intros h; [reflexivity|].
  cbn. f_equal. apply IH.
Qed.

Lemma drawn_name_chars (h : list event) (n : nat) :
  Forall (fun c => c ∈ chars alphabet) (chars (drawn_name w h n)).
Proof.
  revert h. induction n as [|n IH]; intros h; [constructor|].
  cbn [drawn_name chars]. constructor; [|apply IH].
  apply choice_of_in. discriminate.
Qed.

Lemma random_name_unfold (n : nat) (st : State) :
  random_name w n st =
  (Ret (drawn_name w (trace st) n),
   with_trace st (trace st ++ replicate n (EvRandBelow (String.length alphabet)))).
Proof.
  revert st. induction n as [|n IH]; intros st.
  - simpl. rewrite app_nil_r, with_trace_trace. reflexivity.
  - cbn [random_name]. unfold random_choice. rewrite !bind_unfold.
    cbn [ask fst snd]. rewrite ret_unfold, bind_unfold, IH, ret_unfold.
    unfold with_trace. cbn [trace runName replicate drawn_name]. assoc_r. reflexivity.
Qed.

Lemma setRunName_unfold (configPath : option string) (operation : string) (st : State) :
  setRunName w configPath operation st =
  (Ret tt, {| runName := run_name_at w (trace st) configPath operation;
              trace := trace st ++ setRunName_events |}).
Proof.
  unfold setRunName, time_gmtime. rewrite bind_unfold. unfold ask.
  cbv beta iota. rewrite bind_unfold, random_name_unfold.
  unfold with_trace, set_runName.
  cbn [trace runName].
  unfold run_name_at, setRunName_events. assoc_r. reflexivity.
Qed.

Lemma two_run_names_unfold (configPath : option string) (operation : string)
    (st : State) :
  two_run_names w configPath operation st =
  (Ret (run_name_at w (trace st) configPath operation,
        run_name_at w (trace st ++ setRunName_events) configPath operation),
   {| runName := run_name_at w (trace st ++ setRunName_events) configPath operation;
      trace := (trace st ++ setRunName_events) ++ setRunName_events |}).
Proof.
  unfold two_run_names. rewrite bind_unfold, setRunName_unfold.
  rewrite bind_unfold. cbn [getRunName runName].
  rewrite bind_unfold, setRunName_unfold. reflexivity.
Qed.

(** Two run names for the same configuration and operation are the same
    exactly when the time stamps and the random suffixes are. *)
Lemma run_name_at_eq (h1 h2 : list event) (configPath : option string)
    (operation : string) :
  run_name_at w h1 configPath operation = run_name_at w h2 configPath operation <->
  strftime_run (w_gmtime w h1) = strftime_run (w_gmtime w h2) /\
  drawn_name w (h1 ++ [EvGmtime]) 16 = drawn_name w (h2 ++ [EvGmtime]) 16.
Proof.
  unfold run_name_at. split.
  - intros H.
    apply append_inj_l, append_inj_l, append_inj_l, append_inj_l in H.
    apply append_inj_length in H.
    + destruct H as [Ht Hr]. split; [exact Ht|]. exact (append_inj_l "-" _ _ Hr).
    + rewrite !length_append, !drawn_name_length. reflexivity.
  - intros [-> ->]. reflexivity.
Qed.

End SetRunName.

(** C7, as the code has it. [setRunName] sets the run name to the config
    file's base name without its extension, the operation, the UTC time
    stamp and a suffix of 16 characters drawn from the capital letters
    and digits, joined by ['-'].  Two calls in a row for
    ["/cfg/foo.yaml"] and ["build"] give two names that both start with
    ["foo-build-"]; the two names are the same exactly when the clock
    gives the same time stamp and the generator the same 16 draws. *)
Theorem setRunName_names (w : World) (st : State) :
  (forall configPath operation,
     runName (snd (setRunName w configPath operation st)) =
       config_name configPath +:+ "-" +:+ operation +:+ "-" +:+
       strftime_run (w_gmtime w (trace st)) +:+ "-" +:+
       drawn_name w (trace st ++ [EvGmtime]) 16) /\
  (forall h, String.length (drawn_name w h 16) = 16%nat /\
             Forall (fun c => c ∈ chars alphabet) (chars (drawn_name w h 16))) /\
  config_name (Some "/cfg/foo.yaml") = "foo" /\
  let a := run_name_at w (trace st) (Some "/cfg/foo.yaml") "build" in
  let b := run_name_at w (trace st ++ setRunName_events) (Some "/cfg/foo.yaml") "build" in
  fst (two_run_names w (Some "/cfg/foo.yaml") "build" st) = Ret (a, b) /\
  Py.startswith "foo-build-" a = true /\
  Py.startswith "foo-build-" b = true /\
  (a = b <->
   strftime_run (w_gmtime w (trace st)) =
     strftime_run (w_gmtime w (trace st ++ setRunName_events)) /\
   drawn_name w (trace st ++ [EvGmtime]) 16 =
     drawn_name w ((trace st ++ setRunName_events) ++ [EvGmtime]) 16).
Proof.
  split; [|split; [|split]].
  - intros configPath operation. rewrite setRunName_unfold. reflexivity.
  - intros h. split; [apply drawn_name_length | apply drawn_name_chars].
  - reflexivity.
  - intros a b. split; [|split; [|split]].
    + rewrite two_run_names_unfold. reflexivity.
    + reflexivity.
    + reflexivity.
    + apply run_name_at_eq.
Qed.

(** C7, as it is written, fails: when the second call falls in the same
    second and the generator gives the same sixteen draws again, the two
    run names are the same. *)
Lemma two_run_names_can_coincide :
  result_of (two_run_names repeating (Some "/cfg/foo.yaml") "build") =
  Ret ("foo-build-2020-03-07--09-05-42-DKRY5CJQX4BIPW3A",
       "foo-build-2020-03-07--09-05-42-DKRY5CJQX4BIPW3A").
Proof. vm_compute. reflexivity. Qed.

Lemma setRunName_names_witness :
  exists a b,
    result_of (two_run_names calm (Some "/cfg/foo.yaml") "build") = Ret (a, b) /\
    Py.startswith "foo-build-" a = true /\ Py.startswith "foo-build-" b = true /\
    a <> b.
Proof.
  destruct (setRunName_names calm init) as (_ & _ & _ & Hres & Ha & Hb & Hiff).
  eexists _, _. split; [exact Hres|]. split; [exact Ha|]. split; [exact Hb|].
  intros E. apply Hiff in E as [_ E]. vm_compute in E. discriminate.
Defined.

(** ** The path of a file inside the mounted image *)

Section MountPath.

Lemma append_nil_r (s : string) : s +:+ "" = s.
Proof.
  induction s as [|c s IH]; [reflexivity|].
  rewrite append_cons, IH. reflexivity.
Qed.

Lemma append_assoc (s t u : string) : (s +:+ t) +:+ u = s +:+ t +:+ u.
Proof.
  induction s as [|c s IH]; [reflexivity|].
  rewrite !append_cons, IH. reflexivity.
Qed.

Lemma split_cons_sep (s : string) :
  Py.split "/" (String "/" s) = "" :: Py.split "/" s.
Proof. reflexivity. Qed.

Lemma split_cons_other (a : ascii) (s : string) :
  Ascii.eqb a "/" = false ->
  Py.split "/" (String a s) = glue (String a "") (Py.split "/" s).
Proof.
  intros H. cbn [Py.split]. rewrite H.
  destruct (Py.split "/" s); reflexivity.
Qed.

Lemma glue_glue (c d : string) (l : list string) :
  l <> [] -> glue c (glue d l) = glue (c +:+ d) l.
Proof.
  destruct l as [|x xs]; [contradiction|]. intros _. cbn [glue].
  rewrite append_assoc. reflexivity.
Qed.

Lemma split_not_nil (s : string) : Py.split "/" s <> [].
Proof.
  induction s as [|a s IH]; [discriminate|]. cbn [Py.split].
  destruct (Ascii.eqb a "/"); [discriminate|].
  destruct (Py.split "/" s); discriminate.
Qed.

(** Splitting a string that starts with a component without slash. *)
Lemma split_no_slash (c t : string) :
  no_slash c = true -> Py.split "/" (c +:+ t) = glue c (Py.split "/" t).
Proof.
  unfold no_slash. induction c as [|a c IH]; intros H.
  - change ("" +:+ t) with t. destruct (Py.split "/" t) eqn:E; [|reflexivity].
    exfalso. exact (split_not_nil t E).
  - cbn [chars forallb] in H. apply andb_prop in H as [Ha Hc].
    apply negb_true_iff in Ha.
    rewrite append_cons, (split_cons_other a _ Ha), (IH Hc).
    rewrite glue_glue by apply split_not_nil. reflexivity.
Qed.

Lemma is_name_no_slash (c : string) : is_name c = true -> no_slash c = true.
Proof. unfold is_name. intros H. apply andb_prop in H as [_ H]. exact H. Qed.

(** The components of slashed names followed by [t]: the last name is
    glued to what [t] starts with. *)
Lemma split_slashed (cs : list string) (c t : string) :
  Forall (fun x => is_name x = true) cs -> is_name c = true ->
  Py.split "/" (slashed (cs ++ [c]) +:+ t) = "" :: cs ++ glue c (Py.split "/" t).
Proof.
  intros Hcs Hc. induction Hcs as [|x cs Hx _ IH].
  - cbn [app slashed]. rewrite append_nil_r.
    change ("/" +:+ c) with (String "/" c). rewrite append_cons, split_cons_sep.
    rewrite (split_no_slash c t (is_name_no_slash c Hc)). reflexivity.
  - cbn [app slashed].
    change ("/" +:+ x +:+ slashed (cs ++ [c])) with (String "/" (x +:+ slashed (cs ++ [c]))).
    rewrite append_cons, split_cons_sep, append_assoc.
    rewrite (split_no_slash x _ (is_name_no_slash x Hx)), IH.
    cbn [glue]. rewrite append_nil_r. reflexivity.
Qed.

Lemma is_name_spec (c : string) :
  is_name c = true <->
  c <> "" /\ c <> "." /\ c <> ".." /\ no_slash c = true.
Proof.
  unfold is_name. rewrite !andb_true_iff, !negb_true_iff, !String.eqb_neq.
  tauto.
Qed.

Lemma chars_append (s t : string) : chars (s +:+ t) = chars s ++ chars t.
Proof.
  induction s as [|a s IH]; [reflexivity|].
  rewrite append_cons. cbn [chars]. rewrite IH. reflexivity.
Qed.

Lemma append_eq_nil (s t : string) : s +:+ t = "" -> s = "" /\ t = "".
Proof. destruct s; [intros H; split; [reflexivity | exact H] | discriminate]. Qed.


Lemma normpath_step_name (k : nat) (acc : list string) (c : string) :
  is_name c = true -> OsPath.normpath_step k acc c = acc ++ [c].
Proof.
  rewrite is_name_spec. intros (H0 & H1 & H2 & _).
  unfold OsPath.normpath_step.
  apply String.eqb_neq in H0, H1, H2. rewrite H0, H1, H2. reflexivity.
Qed.

Lemma normpath_fold_names (k : nat) (cs acc : list string) :
  Forall (fun x => is_name x = true) cs ->
  fold_left (OsPath.normpath_step k) cs acc = acc ++ cs.
Proof.
  intros H. revert acc. induction H as [|c cs Hc _ IH]; intros acc.
  - rewrite app_nil_r. reflexivity.
  - cbn [fold_left]. rewrite (normpath_step_name k acc c Hc), IH.
    rewrite <- app_assoc. reflexivity.
Qed.

Lemma normpath_fold_empties (k : nat) (es acc : list string) :
  Forall (fun x => x = "") es ->
  fold_left (OsPath.normpath_step k) es acc = acc.
Proof.
  intros H. revert acc. induction H as [|e es -> _ IH]; intros acc; [reflexivity|].
  cbn [fold_left]. apply IH.
Qed.

Lemma join_slashed (c : string) (cs : list string) :
  Py.join "/" (c :: cs) = c +:+ slashed cs.
Proof.
  revert c. induction cs as [|x cs IH]; intros c.
  - cbn [Py.join slashed]. rewrite append_nil_r. reflexivity.
  - change (Py.join "/" (c :: x :: cs)) with (c +:+ "/" +:+ Py.join "/" (x :: cs)).
    rewrite IH. reflexivity.
Qed.

Lemma abs_path_slashed (c : string) (cs : list string) :
  abs_path (c :: cs) = slashed (c :: cs).
Proof. unfold abs_path. rewrite join_slashed. reflexivity. Qed.

(** [normpath] of an absolute path whose first component is a name and
    whose components are names, possibly followed by empty ones. *)
Lemma normpath_names (c q : string) (names trailing : list string) :
  is_name c = true ->
  Py.split "/" ("/" +:+ c +:+ q) = "" :: names ++ trailing ->
  Forall (fun x => is_name x = true) names ->
  Forall (fun x => x = "") trailing ->
  OsPath.normpath ("/" +:+ c +:+ q) = abs_path names.
Proof.
  intros Hc Hsplit Hnames Htrail.
  apply is_name_spec in Hc as (Hc0 & _ & _ & Hcs).
  destruct c as [|a c]; [contradiction|].
  unfold no_slash in Hcs. cbn [chars forallb] in Hcs.
  apply andb_prop in Hcs as [Ha _]. apply negb_true_iff in Ha.
  unfold OsPath.normpath, OsPath.sep. rewrite Hsplit.
  change ("/" +:+ String a c +:+ q) with (String "/" (String a (c +:+ q))).
  cbn [String.eqb Py.startswith].
  rewrite Ascii.eqb_refl. rewrite (Ascii.eqb_sym "/" a), Ha.
  cbn [andb negb fold_left].
  change (OsPath.normpath_step 1 [] "") with (@nil string).
  rewrite fold_left_app, (normpath_fold_names 1 names [] Hnames).
  rewrite (normpath_fold_empties 1 trailing _ Htrail). cbn [app].
  reflexivity.
Qed.

Lemma slashed_head (c : string) (cs : list string) (t : string) :
  slashed (c :: cs) +:+ t = "/" +:+ c +:+ (slashed cs +:+ t).
Proof. cbn [slashed]. rewrite !append_assoc. reflexivity. Qed.

Lemma split_slashed_all (ds : list string) :
  Forall (fun x => is_name x = true) ds ->
  Py.split "/" (slashed ds) = match ds with [] => [""] | _ => "" :: ds end.
Proof.
  intros H. destruct ds as [|d ds] using rev_ind; [reflexivity|].
  apply Forall_app in H as [Hds Hd]. apply Forall_cons in Hd as [Hd _].
  rewrite <- (append_nil_r (slashed (ds ++ [d]))), (split_slashed ds d "" Hds Hd).
  cbn [Py.split glue]. rewrite append_nil_r.
  destruct ds; reflexivity.
Qed.

Lemma abs_path_slashed_ne (cs : list string) : cs <> [] -> abs_path cs = slashed cs.
Proof. destruct cs as [|c cs]; [contradiction|]. intros _. apply abs_path_slashed. Qed.

(** [normpath] of slashed names followed by [t], when gluing the last
    name to the components of [t] gives names, then empty components. *)
Lemma normpath_slashed (ms : list string) (m t : string) (rest trailing : list string) :
  Forall (fun x => is_name x = true) ms -> is_name m = true ->
  glue m (Py.split "/" t) = rest ++ trailing ->
  Forall (fun x => is_name x = true) rest ->
  Forall (fun x => x = "") trailing ->
  OsPath.normpath (slashed (ms ++ [m]) +:+ t) = abs_path (ms ++ rest).
Proof.
  intros Hms Hm Hglue Hrest Htrail.
  assert (Hall : Forall (fun x => is_name x = true) (ms ++ [m]))
    by (apply Forall_app_2; [exact Hms | constructor; [exact Hm | constructor]]).
  pose proof (split_slashed ms m t Hms Hm) as Hsplit.
  destruct (ms ++ [m]) as [|c cs] eqn:E; [destruct ms; discriminate|].
  apply Forall_cons in Hall as [Hc _].
  rewrite slashed_head in Hsplit |- *.
  apply (normpath_names c _ (ms ++ rest) trailing Hc).
  - rewrite Hsplit, Hglue, app_assoc. reflexivity.
  - apply Forall_app_2; assumption.
  - exact Htrail.
Qed.

(** A destination given by names after slashes lands under the mount
    point. *)
Lemma mount_path_absolute (ms ds : list string) :
  ms <> [] ->
  Forall (fun x => is_name x = true) ms -> Forall (fun x => is_name x = true) ds ->
  mount_path (abs_path ms) (abs_path ds) = abs_path (ms ++ ds).
Proof.
  intros Hne Hms Hds. unfold mount_path.
  rewrite (abs_path_slashed_ne ms Hne).
  destruct ms as [|m ms _] using rev_ind; [contradiction|].
  apply Forall_app in Hms as [Hms Hm]. apply Forall_cons in Hm as [Hm _].
  destruct ds as [|d ds].
  - rewrite app_nil_r.
    apply (normpath_slashed ms m (abs_path []) [m] [""]); auto.
    change (Py.split "/" (abs_path [])) with [""; ""].
    cbn [glue]. rewrite append_nil_r. reflexivity.
  - rewrite <- app_assoc. cbn [app].
    apply (normpath_slashed ms m (abs_path (d :: ds)) (m :: d :: ds) []); auto.
    rewrite abs_path_slashed, (split_slashed_all (d :: ds) Hds).
    cbn [glue]. rewrite append_nil_r, app_nil_r. reflexivity.
Qed.


End MountPath.




(** * Further properties *)

(** ** run *)

(** X1. When the process cannot be started, [run] raises the [OSError] of
    the spawn whether [check] is set or not, right after the line it logs
    about the command; nothing else is logged. *)
Theorem run_spawn_failure (w : World) (cmd : command) (lvl : level) (check : bool)
    (kw : run_kwargs) (st : State) (errno : Z) :
  w_popen w (run_spawn_history w cmd lvl kw (trace st)) cmd kw = SpawnError errno ->
  run w cmd lvl check kw st =
  (Raise (OSError errno),
   with_trace st (run_spawn_history w cmd lvl kw (trace st) ++ [EvPopen cmd kw])).
Proof. intros H. rewrite run_unfold. simpl. rewrite H. reflexivity. Qed.

Lemma run_spawn_failure_witness :
  run no_shell (Argv ["make"]) DEBUG false no_kwargs init =
  (Raise (OSError 2),
   with_trace init [EvGetcwd; EvLog DEBUG (running_msg (Argv ["make"]) "/work");
                    EvPopen (Argv ["make"]) no_kwargs]).
Proof. apply (run_spawn_failure no_shell (Argv ["make"]) DEBUG false no_kwargs init 2).
  reflexivity.
Defined.



(** ** waitpid *)

Lemma probe_history_app (pid : Z) (h : list event) (n : nat) :
  exists rounds, probe_history pid h n = h ++ rounds /\
    Forall (waitpid_event pid) rounds /\
    count is_kill rounds = n /\ count is_sleep rounds = n.
Proof.
  revert h. induction n as [|n IH]; intros h.
  - exists []. cbn [probe_history]. rewrite app_nil_r. repeat split. constructor.
  - cbn [probe_history].
    destruct (IH (h ++ [EvKill pid 0; EvSleep 250])) as (r & E & F & Ck & Cs).
    exists ([EvKill pid 0; EvSleep 250] ++ r). rewrite E. assoc_r.
    split; [reflexivity|]. split; [|split].
    + apply Forall_app_2; [|exact F].
      constructor; [left; reflexivity|]. constructor; [right; reflexivity|constructor].
    + rewrite count_app, Ck. reflexivity.
    + rewrite count_app, Cs. reflexivity.
Qed.

(** X3. [waitpid pid] does nothing but probe [pid] with signal 0 and sleep
    250 ms: it sends no other signal and touches no other process; and
    when it returns it has slept once less than it has probed. *)
Theorem waitpid_only_probes (w : World) (fuel : nat) (pid : Z) (st : State) :
  exists new,
    trace (snd (waitpid w fuel pid st)) = trace st ++ new /\
    Forall (waitpid_event pid) new /\
    (fst (waitpid w fuel pid st) = Ret tt ->
     count is_kill new = S (count is_sleep new)).
Proof.
  destruct (waitpid_cases w fuel pid st) as [(n & _ & _ & _ & Hrun)|(_ & Hrun)];
    rewrite Hrun; cbn [fst snd with_trace trace].
  - destruct (probe_history_app pid (trace st) n) as (r & E & F & Ck & Cs).
    exists (r ++ [EvKill pid 0]). rewrite E. assoc_r.
    split; [reflexivity|]. split.
    + apply Forall_app_2; [exact F|]. constructor; [left; reflexivity | constructor].
    + intros _. rewrite !count_app, Ck, Cs, !count_one. cbn. lia.
  - destruct (probe_history_app pid (trace st) fuel) as (r & E & F & _ & _).
    exists r. split; [exact E|]. split; [exact F | discriminate].
Qed.

Lemma waitpid_only_probes_witness :
  exists new,
    trace (snd (waitpid calm 5 42 init)) = new /\
    Forall (waitpid_event 42) new /\ count is_kill new = S (count is_sleep new).
Proof.
  destruct (waitpid_only_probes calm 5 42 init) as (new & E & F & C).
  exists new. split; [exact E|]. split; [exact F|]. apply C. reflexivity.
Defined.

(** The first probe that finds the process gone ends the wait. *)
Lemma waitpid_at_first_gone (w : World) (pid : Z) (st : State) (n fuel : nat) :
  (forall k, (k < n)%nat -> gone w pid (probe_history pid (trace st) k) = false) ->
  gone w pid (probe_history pid (trace st) n) = true ->
  (n < fuel)%nat ->
  waitpid w fuel pid st =
    (Ret tt, with_trace st (probe_history pid (trace st) n ++ [EvKill pid 0])).
Proof.
  intros Hbefore Hat Hfuel.
  destruct (waitpid_cases w fuel pid st)
    as [(m & Hm & Hmb & Hma & Hrun)|(Hnone & _)].
  - assert (m = n) as ->; [|exact Hrun].
    destruct (Nat.lt_trichotomy m n) as [Hlt|[Heq|Hgt]]; [|exact Heq|].
    + rewrite (Hbefore m Hlt) in Hma. discriminate.
    + rewrite (Hmb n Hgt) in Hat. discriminate.
  - rewrite (Hnone n Hfuel) in Hat. discriminate.
Qed.

(** [waitpid] starts no command and raises nothing. *)
Lemma waitpid_only_wait (w : World) (fuel : nat) (pid : Z) (st : State) :
  exists new,
    trace (snd (waitpid w fuel pid st)) = trace st ++ new /\
    Forall (fun e => is_popen e = false) new /\
    forall e, fst (waitpid w fuel pid st) <> Raise e.
Proof.
  destruct (emits_waitpid (fun e => is_popen e = false) w fuel pid
              eq_refl eq_refl st) as (new & E & F).
  exists new. split; [exact E|]. split; [exact F|].
  intros e He.
  destruct (waitpid_cases w fuel pid st) as [(n & _ & _ & _ & Hrun)|(_ & Hrun)];
    rewrite Hrun in He; discriminate.
Qed.

(** ** mountImg *)

(** X4. When the mount command exits with a nonzero code, [mountImg]
    raises its [CalledProcessError] at once: the body of the [with]
    statement does not run, the pid file is not read, and nothing is
    unmounted, removed or waited for. *)
Theorem mountImg_mount_failure {A : Type} (w : World) (fuel : nat) (img mp : string)
    (body : string -> M A) (st : State) (output : list string) (rc : Z) :
  w_popen w (run_spawn_history w (mount_cmd img mp) DEBUG no_kwargs (trace st))
    (mount_cmd img mp) no_kwargs = Exited output rc ->
  rc <> 0 ->
  mountImg w fuel img mp body st =
  (Raise (CalledProcessError rc (prettyCmd (mount_cmd img mp))),
   with_trace st
     (trace st
      ++ [EvGetcwd; EvLog DEBUG (running_msg (mount_cmd img mp) (w_getcwd w (trace st)));
          EvPopen (mount_cmd img mp) no_kwargs]
      ++ map (fun line => EvLog DEBUG (Py.strip line)) output)).
Proof.
  intros Hw Hrc. unfold mountImg. rewrite bind_unfold, run_unfold.
  cbv zeta. rewrite Hw. apply Z.eqb_neq in Hrc. rewrite Hrc.
  cbn [andb negb]. unfold run_spawn_history. cbn [kw_cwd no_kwargs].
  assoc_r. reflexivity.
Qed.

Lemma mountImg_mount_failure_witness :
  mountImg mount_fails 5 "img" "/mnt/x" (fun _ => mret tt) init =
  (Raise (CalledProcessError 1
            "guestmount --pid-file guestmount.pid -a img -m /dev/sda /mnt/x"),
   with_trace init
     [EvGetcwd; EvLog DEBUG (running_msg (mount_cmd "img" "/mnt/x") "/work");
      EvPopen (mount_cmd "img" "/mnt/x") no_kwargs; EvLog DEBUG "ok"]).
Proof.
  apply (mountImg_mount_failure mount_fails 5 "img" "/mnt/x" (fun _ => mret tt) init
           ["ok" +:+ String "010" ""] 1); [reflexivity | discriminate].
Defined.

(** X5. When the pid file cannot be read, or does not hold a number, the
    body of the [with] statement never runs, whatever it is; the image is
    unmounted and the pid file removed, then the error of the read comes
    out (or the error of the cleanup, if that fails too); no wait for the
    mount process is made. *)
Theorem mountImg_pid_file_failure {A : Type} (w : World) (fuel : nat)
    (img mp : string) (body : string -> M A) (st st1 st2 : State) (e : exn) :
  run w (mount_cmd img mp) DEBUG true no_kwargs st = (Ret tt, st1) ->
  read_int_line w "./guestmount.pid" st1 = (Raise e, st2) ->
  mountImg w fuel img mp body st =
  match mount_cleanup w mp st2 with
  | (Ret _, st3) => (Raise e, st3)
  | (Raise e', st3) => (Raise e', st3)
  | (Diverge, st3) => (Diverge, st3)
  end.
Proof.
  intros H1 H2. unfold mountImg.
  rewrite (bind_ret _ _ _ _ _ H1), bind_unfold.
  unfold try_finally, mount_scope. rewrite (bind_raise _ _ _ _ _ H2).
  destruct (mount_cleanup w mp st2) as [[[]|e'|] st3]; reflexivity.
Qed.

Lemma mountImg_pid_file_failure_witness :
  mountImg bad_pid_file 5 "img" "/mnt/x" (fun _ => mret tt) init =
  (Raise (ValueError "invalid literal for int() with base 10: no pid here"),
   with_trace init
     [EvGetcwd; EvLog DEBUG (running_msg (mount_cmd "img" "/mnt/x") "/work");
      EvPopen (mount_cmd "img" "/mnt/x") no_kwargs; EvLog DEBUG "ok";
      EvReadline "./guestmount.pid";
      EvGetcwd; EvLog DEBUG (running_msg (unmount_cmd "/mnt/x") "/work");
      EvPopen (unmount_cmd "/mnt/x") no_kwargs; EvLog DEBUG "ok";
      EvRemove "./guestmount.pid"]).
Proof.
  rewrite (mountImg_pid_file_failure bad_pid_file 5 "img" "/mnt/x" (fun _ => mret tt) init
             (snd (run bad_pid_file (mount_cmd "img" "/mnt/x") DEBUG true no_kwargs init))
             (snd (read_int_line bad_pid_file "./guestmount.pid"
                     (snd (run bad_pid_file (mount_cmd "img" "/mnt/x") DEBUG true
                             no_kwargs init))))
             (ValueError "invalid literal for int() with base 10: no pid here"));
    vm_compute; reflexivity.
Defined.

(** X6. When the unmount command exits with a nonzero code, its
    [CalledProcessError] is what comes out of [mountImg], in the place of
    the result or the exception of the body; the pid file is not removed
    and no wait for the mount process is made. *)
Theorem mountImg_unmount_failure {A : Type} (w : World) (fuel : nat)
    (img mp : string) (body : string -> M A) (st st1 st2 : State) (pid : Z)
    (output : list string) (rc : Z) :
  run w (mount_cmd img mp) DEBUG true no_kwargs st = (Ret tt, st1) ->
  read_int_line w "./guestmount.pid" st1 = (Ret pid, st2) ->
  fst (body mp st2) <> Diverge ->
  w_popen w (run_spawn_history w (unmount_cmd mp) DEBUG no_kwargs
               (trace (snd (body mp st2))))
    (unmount_cmd mp) no_kwargs = Exited output rc ->
  rc <> 0 ->
  mountImg w fuel img mp body st =
  (Raise (CalledProcessError rc (prettyCmd (unmount_cmd mp))),
   with_trace (snd (body mp st2))
     (trace (snd (body mp st2))
      ++ [EvGetcwd;
          EvLog DEBUG (running_msg (unmount_cmd mp)
                         (w_getcwd w (trace (snd (body mp st2)))));
          EvPopen (unmount_cmd mp) no_kwargs]
      ++ map (fun line => EvLog DEBUG (Py.strip line)) output)).
Proof.
  intros H1 H2 Hnd Hw Hrc. unfold mountImg.
  rewrite (bind_ret _ _ _ _ _ H1), bind_unfold.
  assert (Hclean : mount_cleanup w mp (snd (body mp st2)) =
    (Raise (CalledProcessError rc (prettyCmd (unmount_cmd mp))),
     with_trace (snd (body mp st2))
       (trace (snd (body mp st2))
        ++ [EvGetcwd;
            EvLog DEBUG (running_msg (unmount_cmd mp)
                           (w_getcwd w (trace (snd (body mp st2)))));
            EvPopen (unmount_cmd mp) no_kwargs]
        ++ map (fun line => EvLog DEBUG (Py.strip line)) output))).
  { unfold mount_cleanup. rewrite bind_unfold, run_unfold. cbv zeta.
    rewrite Hw. apply Z.eqb_neq in Hrc. rewrite Hrc. cbn [andb negb].
    unfold run_spawn_history. cbn [kw_cwd no_kwargs]. assoc_r. reflexivity. }
  unfold try_finally, mount_scope. rewrite (bind_ret _ _ _ _ _ H2), bind_unfold.
  destruct (body mp st2) as [[a|e|] st3]; cbn [fst snd] in *.
  - rewrite ret_unfold, Hclean. reflexivity.
  - rewrite Hclean. reflexivity.
  - contradiction.
Qed.

Lemma mountImg_unmount_failure_witness :
  mountImg unmount_fails 5 "img" "/mnt/x" (fun _ => raise (A:=unit) (KeyError "k")) init =
  (Raise (CalledProcessError 1 "guestunmount /mnt/x"),
   with_trace init
     [EvGetcwd; EvLog DEBUG (running_msg (mount_cmd "img" "/mnt/x") "/work");
      EvPopen (mount_cmd "img" "/mnt/x") no_kwargs; EvLog DEBUG "ok";
      EvReadline "./guestmount.pid";
      EvGetcwd; EvLog DEBUG (running_msg (unmount_cmd "/mnt/x") "/work");
      EvPopen (unmount_cmd "/mnt/x") no_kwargs; EvLog DEBUG "ok"]).
Proof.
  rewrite (mountImg_unmount_failure unmount_fails 5 "img" "/mnt/x"
             (fun _ => raise (A:=unit) (KeyError "k")) init
             (snd (run unmount_fails (mount_cmd "img" "/mnt/x") DEBUG true no_kwargs init))
             (snd (read_int_line unmount_fails "./guestmount.pid"
                     (snd (run unmount_fails (mount_cmd "img" "/mnt/x") DEBUG true
                             no_kwargs init))))
             77 ["ok" +:+ String "010" ""] 1);
    [vm_compute; reflexivity | vm_compute; reflexivity | vm_compute; reflexivity
    | discriminate | vm_compute; reflexivity | discriminate].
Defined.

(** X7. When the mount, the read of the pid file, the body and the
    cleanup all succeed, [mountImg] gives back what the body returned,
    after the probe of the mount process (the pid read from the pid file)
    that first finds it gone; as long as the probes find the process
    there, [mountImg] does not return. *)
Theorem mountImg_returns_after_wait {A : Type} (w : World) (fuel : nat)
    (img mp : string) (body : string -> M A) (st st1 st2 st3 st4 : State)
    (pid : Z) (a : A) :
  run w (mount_cmd img mp) DEBUG true no_kwargs st = (Ret tt, st1) ->
  read_int_line w "./guestmount.pid" st1 = (Ret pid, st2) ->
  body mp st2 = (Ret a, st3) ->
  mount_cleanup w mp st3 = (Ret tt, st4) ->
  (forall n,
     (forall k, (k < n)%nat -> gone w pid (probe_history pid (trace st4) k) = false) ->
     gone w pid (probe_history pid (trace st4) n) = true ->
     (n < fuel)%nat ->
     mountImg w fuel img mp body st =
       (Ret a, with_trace st4 (probe_history pid (trace st4) n ++ [EvKill pid 0]))) /\
  ((forall k, (k < fuel)%nat -> gone w pid (probe_history pid (trace st4) k) = false) ->
   fst (mountImg w fuel img mp body st) = Diverge).
Proof.
  intros H1 H2 H3 H4.
  rewrite (mountImg_normal_exit w fuel img mp body st st1 st2 st3 st4 pid a H1 H2 H3 H4).
  split.
  - intros n Hbefore Hat Hfuel.
    rewrite (waitpid_at_first_gone w pid st4 n fuel Hbefore Hat Hfuel). reflexivity.
  - intros Hnone.
    destruct (waitpid_cases w fuel pid st4) as [(m & Hm & _ & Hma & _)|(_ & Hrun)].
    + rewrite (Hnone m Hm) in Hma. discriminate.
    + rewrite Hrun. reflexivity.
Qed.

Lemma mountImg_returns_after_wait_witness :
  fst (mountImg calm 5 "img" "/mnt/x" (fun mp => mret (String.length mp)) init) = Ret 6%nat /\
  fst (mountImg calm 2 "img" "/mnt/x" (fun mp => mret (String.length mp)) init) = Diverge.
Proof.
  pose (st1 := snd (run calm (mount_cmd "img" "/mnt/x") DEBUG true no_kwargs init)).
  pose (st2 := snd (read_int_line calm "./guestmount.pid" st1)).
  pose (st4 := snd (mount_cleanup calm "/mnt/x" st2)).
  assert (H1 : run calm (mount_cmd "img" "/mnt/x") DEBUG true no_kwargs init = (Ret tt, st1))
    by (vm_compute; reflexivity).
  assert (H2 : read_int_line calm "./guestmount.pid" st1 = (Ret 4242, st2))
    by (vm_compute; reflexivity).
  assert (H3 : (fun mp => mret (String.length mp) : M nat) "/mnt/x" st2 = (Ret 6%nat, st2))
    by (vm_compute; reflexivity).
  assert (H4 : mount_cleanup calm "/mnt/x" st2 = (Ret tt, st4))
    by (vm_compute; reflexivity).
  split.
  - destruct (mountImg_returns_after_wait calm 5 "img" "/mnt/x"
                (fun mp => mret (String.length mp)) init st1 st2 st2 st4 4242 6%nat
                H1 H2 H3 H4) as [H _].
    rewrite (H 2%nat); [reflexivity | | reflexivity | lia].
    intros [|[|k]] Hk; [reflexivity | reflexivity | lia].
  - destruct (mountImg_returns_after_wait calm 2 "img" "/mnt/x"
                (fun mp => mret (String.length mp)) init st1 st2 st2 st4 4242 6%nat
                H1 H2 H3 H4) as [_ H].
    apply H. intros [|[|k]] Hk; [reflexivity | reflexivity | lia].
Defined.

(** ** toCpio *)

(** X8. [toCpio] looks at [config['distro']] only after the archive is
    made: when the archive step raises, that exception comes out whatever
    the configuration holds, and nothing is appended; when the archive
    step succeeds and the configuration has no ['distro'] key, [KeyError]
    is raised then, the image having been mounted, archived and unmounted. *)
Theorem toCpio_errors (g : Globals) (w : World) (fuel : nat)
    (config : gmap string string) (from to : string) (st st1 : State) :
  (forall e, toCpio_archive g w fuel from to st = (Raise e, st1) ->
             toCpio g w fuel config from to st = (Raise e, st1)) /\
  (toCpio_archive g w fuel from to st = (Ret tt, st1) ->
   config !! "distro" = None ->
   toCpio g w fuel config from to st = (Raise (KeyError "distro"), st1)).
Proof.
  split.
  - intros e H. unfold toCpio. apply (bind_raise _ _ _ _ _ H).
  - intros H Hnone. rewrite (toCpio_after_archive g w fuel config from to st st1 H).
    rewrite Hnone. reflexivity.
Qed.

Lemma toCpio_errors_witness :
  fst (toCpio here mount_fails 5 ∅ "img" "out.cpio" init) =
    Raise (CalledProcessError 1
             "guestmount --pid-file guestmount.pid -a img -m /dev/sda /mnt/disk-mount") /\
  fst (toCpio here calm 5 ∅ "img" "out.cpio" init) = Raise (KeyError "distro").
Proof.
  split.
  - destruct (toCpio_errors here mount_fails 5 ∅ "img" "out.cpio" init
                (snd (toCpio_archive here mount_fails 5 "img" "out.cpio" init)))
      as [H _].
    rewrite (H (CalledProcessError 1
                  "guestmount --pid-file guestmount.pid -a img -m /dev/sda /mnt/disk-mount"));
      [reflexivity | vm_compute; reflexivity].
  - destruct (toCpio_errors here calm 5 ∅ "img" "out.cpio" init
                (snd (toCpio_archive here calm 5 "img" "out.cpio" init)))
      as [_ H].
    rewrite H; [reflexivity | vm_compute; reflexivity | vm_compute; reflexivity].
Defined.

(** X9. After the archive step, [toCpio] appends the overlay archive of
    the distribution with one shell command for ['fedora'] and for ['br'],
    and returns whatever the exit code of that command: a failed append
    goes unnoticed.  For any other distribution it appends nothing. *)
Theorem toCpio_append_unchecked (g : Globals) (w : World) (fuel : nat)
    (config : gmap string string) (from to : string) (st st1 : State) :
  toCpio_archive g w fuel from to st = (Ret tt, st1) ->
  (forall name rc,
     (config !! "distro" = Some "fedora" /\ name = "fedora-initramfs-append.cpio") \/
     (config !! "distro" = Some "br" /\ name = "br-initramfs-append.cpio") ->
     w_call w (trace st1) (append_cmd g name to) = OsOk rc ->
     toCpio g w fuel config from to st =
       (Ret tt, with_trace st1 (trace st1 ++ [EvCall (append_cmd g name to)]))) /\
  (forall distro,
     config !! "distro" = Some distro -> distro <> "fedora" -> distro <> "br" ->
     toCpio g w fuel config from to st = (Ret tt, st1)).
Proof.
  intros H. rewrite (toCpio_after_archive g w fuel config from to st st1 H). split.
  - intros name rc Hd Hcall.
    assert (Hsp : (sp_call w (append_cmd g name to);; mret tt) st1 =
                  (Ret tt, with_trace st1 (trace st1 ++ [EvCall (append_cmd g name to)]))).
    { unfold sp_call. rewrite !bind_unfold. cbn [ask]. rewrite Hcall. reflexivity. }
    destruct Hd as [[-> ->]|[-> ->]]; cbn [String.eqb]; exact Hsp.
  - intros distro -> Hf Hb.
    apply String.eqb_neq in Hf, Hb. rewrite Hf, Hb. reflexivity.
Qed.

Lemma toCpio_append_unchecked_witness :
  fst (toCpio here append_fails 5 {[ "distro" := "fedora" ]} "img" "out.cpio" init)
    = Ret tt /\
  fst (toCpio here calm 5 {[ "distro" := "debian" ]} "img" "out.cpio" init) = Ret tt.
Proof.
  split.
  - destruct (toCpio_append_unchecked here append_fails 5 {[ "distro" := "fedora" ]}
                "img" "out.cpio" init
                (snd (toCpio_archive here append_fails 5 "img" "out.cpio" init)))
      as [H _]; [vm_compute; reflexivity|].
    rewrite (H "fedora-initramfs-append.cpio" 1); [reflexivity | | reflexivity].
    left. split; vm_compute; reflexivity.
  - destruct (toCpio_append_unchecked here calm 5 {[ "distro" := "debian" ]} "img"
                "out.cpio" init (snd (toCpio_archive here calm 5 "img" "out.cpio" init)))
      as [_ H]; [vm_compute; reflexivity|].
    rewrite (H "debian"); [reflexivity | vm_compute; reflexivity | discriminate..].
Defined.

(** ** copyImgFiles, applyOverlay *)

Lemma popen_cmds_app (t1 t2 : list event) :
  popen_cmds (t1 ++ t2) = popen_cmds t1 ++ popen_cmds t2.
Proof. unfold popen_cmds. apply omap_app. Qed.

Lemma popen_cmds_none (t : list event) :
  Forall (fun e => is_popen e = false) t -> popen_cmds t = [].
Proof.
  induction 1 as [|e t He _ IH]; [reflexivity|].
  destruct e; try discriminate; exact IH.
Qed.

(** [run] starts its command and no other. *)
Lemma run_cmds (w : World) (cmd : command) (lvl : level) (check : bool)
    (kw : run_kwargs) (st : State) :
  exists new,
    trace (snd (run w cmd lvl check kw st)) = trace st ++ new /\
    popen_cmds new = [cmd].
Proof.
  destruct (run_shape (fun e => is_popen e = false) w cmd lvl check kw st)
    as (pre & post & E & Fpre & Fpost); [reflexivity | reflexivity|].
  exists (pre ++ [EvPopen cmd kw] ++ post). split; [exact E|].
  rewrite !popen_cmds_app, (popen_cmds_none pre Fpre), (popen_cmds_none post Fpost).
  reflexivity.
Qed.

(** A loop whose body starts one command per element starts the commands
    of a front part of the list, in order; of the whole list when it
    returns, and of one element at least when it raises. *)
Lemma loop_cmds {A : Type} (body : A -> M unit) (cmd_of : A -> command)
    (l : list A) (st : State) :
  (forall x st0, exists new,
     trace (snd (body x st0)) = trace st0 ++ new /\ popen_cmds new = [cmd_of x]) ->
  (forall x, total (body x)) ->
  exists new k,
    trace (snd (for_each l body st)) = trace st ++ new /\
    popen_cmds new = map cmd_of (take k l) /\
    (k <= length l)%nat /\
    (fst (for_each l body st) = Ret tt -> k = length l) /\
    (forall e, fst (for_each l body st) = Raise e -> (0 < k)%nat).
Proof.
  intros Hbody Htot. revert st. induction l as [|x xs IH]; intros st.
  - exists [], 0%nat. cbn. rewrite app_nil_r. repeat split; [lia | discriminate].
  - cbn [for_each]. rewrite bind_unfold.
    destruct (Hbody x st) as (n1 & E1 & C1). specialize (Htot x st).
    destruct (body x st) as [[[]|e|] st1]; cbn [fst snd] in *.
    + destruct (IH st1) as (n2 & k & E2 & C2 & Hk & Hret & Hraise).
      exists (n1 ++ n2), (S k). rewrite E2, E1. assoc_r.
      split; [reflexivity|]. split; [|split; [|split]].
      * rewrite popen_cmds_app, C1, C2. reflexivity.
      * cbn. lia.
      * intros H. cbn. rewrite (Hret H). reflexivity.
      * intros e H. lia.
    + exists n1, 1%nat. split; [exact E1|]. split; [|split; [|split]].
      * rewrite C1. cbn. rewrite take_0. reflexivity.
      * cbn. lia.
      * discriminate.
      * intros e' _. lia.
    + contradiction.
Qed.

(** X10. The loop of [copyImgFiles] starts one [cp -a] command per
    FileSpec, in the order of the list, and no other command: into the
    image for ['in'], out of it for ['out'].  It stops at the first copy
    that fails: the commands started are those of a front part of the
    list, the whole list when the loop returns. *)
Theorem copy_loop_in_order (g : Globals) (w : World) (files : list FileSpec)
    (st : State) :
  (exists new k,
     trace (snd (for_each files (copy_one g w "in") st)) = trace st ++ new /\
     popen_cmds new = map (cp_in g) (take k files) /\
     (k <= length files)%nat /\
     (fst (for_each files (copy_one g w "in") st) = Ret tt -> k = length files) /\
     (forall e, fst (for_each files (copy_one g w "in") st) = Raise e -> (0 < k)%nat)) /\
  (exists new k,
     trace (snd (for_each files (copy_one g w "out") st)) = trace st ++ new /\
     popen_cmds new = map (cp_out g) (take k files) /\
     (k <= length files)%nat /\
     (fst (for_each files (copy_one g w "out") st) = Ret tt -> k = length files) /\
     (forall e, fst (for_each files (copy_one g w "out") st) = Raise e -> (0 < k)%nat)).
Proof.
  split.
  - apply loop_cmds; [|intros f; apply total_copy_one].
    intros f st0. apply run_cmds.
  - apply loop_cmds; [|intros f; apply total_copy_one].
    intros f st0. unfold copy_one. cbn [String.eqb Ascii.eqb Bool.eqb].
    rewrite bind_unfold. cbn [os_getuid ask].
    destruct (run_cmds w (cp_out g f) DEBUG true shell_kwargs
                (with_trace st0 (trace st0 ++ [EvGetuid]))) as (n & E & C).
    exists ([EvGetuid] ++ n). unfold cp_out, with_trace in *. cbn [trace] in E.
    rewrite E. assoc_r. split; [reflexivity|].
    rewrite popen_cmds_app, C. reflexivity.
Qed.

Lemma copy_loop_in_order_witness :
  let files := [ {| src := "a"; dst := "/a" |}; {| src := "b"; dst := "/b" |};
                 {| src := "c"; dst := "/c" |} ] in
  exists k, (0 < k)%nat /\
    popen_cmds (events_of (for_each files (copy_one here copy_b_fails "in"))) =
      map (cp_in here) (take k files).
Proof.
  intros files.
  destruct (copy_loop_in_order here copy_b_fails files init)
    as [(new & k & E & C & _ & _ & Hraise) _].
  exists k. split.
  - apply (Hraise (CalledProcessError 1 "cp -a b /mnt/disk-mount/b")).
    vm_compute. reflexivity.
  - unfold events_of. rewrite E. exact C.
Defined.

Lemma run_returns (w : World) (cmd : command) (lvl : level) (check : bool)
    (kw : run_kwargs) (st : State) :
  (forall h, exists out, w_popen w h cmd kw = Exited out 0) ->
  fst (run w cmd lvl check kw st) = Ret tt.
Proof.
  intros H. rewrite run_unfold. cbv zeta.
  destruct (H (run_spawn_history w cmd lvl kw (trace st))) as [out ->].
  cbn. rewrite andb_false_r. reflexivity.
Qed.

Lemma for_each_returns {A : Type} (body : A -> M unit) (l : list A) (st : State) :
  (forall x st0, fst (body x st0) = Ret tt) -> fst (for_each l body st) = Ret tt.
Proof.
  intros H. revert st. induction l as [|x xs IH]; intros st; [reflexivity|].
  cbn [for_each]. rewrite bind_unfold. specialize (H x st).
  destruct (body x st) as [[[]|e|] st1]; cbn in H; try discriminate. apply IH.
Qed.

Lemma copyImgFiles_commands_in (g : Globals) (w : World) (fuel : nat) (img : string)
    (files : list FileSpec) (st : State) :
  (forall h cmd kw, exists out, w_popen w h cmd kw = Exited out 0) ->
  (forall h, w_exists w h (mnt g) = true) ->
  (forall h, exists line pid,
     w_readline w h "./guestmount.pid" = OsOk line /\ Py.int line = Some pid) ->
  (forall h, w_remove w h "./guestmount.pid" = OsOk tt) ->
  exists new,
    trace (snd (copyImgFiles g w fuel img files "in" st)) = trace st ++ new /\
    popen_cmds new =
      mount_cmd img (mnt g) :: map (cp_in g) files ++ [unmount_cmd (mnt g)] /\
    forall e, fst (copyImgFiles g w fuel img files "in" st) <> Raise e.
Proof.
  intros Hpopen Hexists Hread Hremove.
  (* the mount point is there *)
  assert (Hens : ensure_mnt g w st = (Ret tt, with_trace st (trace st ++ [EvExists (mnt g)]))).
  { unfold ensure_mnt, os_path_exists. rewrite bind_unfold. cbn [ask].
    rewrite Hexists. reflexivity. }
  set (st1 := with_trace st (trace st ++ [EvExists (mnt g)])) in *.
  (* the mount *)
  destruct (run_cmds w (mount_cmd img (mnt g)) DEBUG true no_kwargs st1) as (n2 & E2 & C2).
  pose proof (run_returns w (mount_cmd img (mnt g)) DEBUG true no_kwargs st1
                (fun h => Hpopen h _ _)) as R2.
  destruct (run w (mount_cmd img (mnt g)) DEBUG true no_kwargs st1) as [r2 st2] eqn:Hrun.
  cbn [fst snd] in *. subst r2.
  (* the pid file *)
  destruct (Hread (trace st2)) as (line & pid & Hline & Hint).
  assert (Hpid : read_int_line w "./guestmount.pid" st2 =
                 (Ret pid, with_trace st2 (trace st2 ++ [EvReadline "./guestmount.pid"]))).
  { unfold read_int_line. rewrite !bind_unfold. cbn [ask]. rewrite Hline.
    cbn [from_os]. rewrite bind_unfold, ret_unfold, Hint. reflexivity. }
  set (st3 := with_trace st2 (trace st2 ++ [EvReadline "./guestmount.pid"])) in *.
  (* the copies *)
  destruct (loop_cmds (copy_one g w "in") (cp_in g) files st3
              (fun f st0 => run_cmds w (cp_in g f) DEBUG true shell_kwargs st0)
              (total_copy_one g w "in"))
    as (n4 & k & E4 & C4 & _ & Hk & _).
  pose proof (for_each_returns (copy_one g w "in") files st3
                (fun f st0 => run_returns w _ DEBUG true shell_kwargs st0
                                (fun h => Hpopen h _ _))) as R4.
  rewrite (Hk R4), firstn_all in C4.
  destruct (for_each files (copy_one g w "in") st3) as [r4 st4] eqn:Hloop.
  cbn [fst snd] in *. subst r4.
  (* the cleanup *)
  destruct (run_cmds w (unmount_cmd (mnt g)) DEBUG true no_kwargs st4) as (n5 & E5 & C5).
  pose proof (run_returns w (unmount_cmd (mnt g)) DEBUG true no_kwargs st4
                (fun h => Hpopen h _ _)) as R5.
  destruct (run w (unmount_cmd (mnt g)) DEBUG true no_kwargs st4) as [r5 st5] eqn:Hun.
  cbn [fst snd] in *. subst r5.
  assert (Hclean : mount_cleanup w (mnt g) st4 =
                   (Ret tt, with_trace st5 (trace st5 ++ [EvRemove "./guestmount.pid"]))).
  { unfold mount_cleanup. rewrite (bind_ret _ _ _ _ _ Hun).
    unfold os_remove. rewrite bind_unfold. cbn [ask]. rewrite Hremove. reflexivity. }
  set (st6 := with_trace st5 (trace st5 ++ [EvRemove "./guestmount.pid"])) in *.
  (* the wait *)
  destruct (waitpid_only_wait w fuel pid st6) as (n7 & E7 & F7 & Hnr).
  unfold copyImgFiles. rewrite (bind_ret _ _ _ _ _ Hens).
  rewrite (mountImg_normal_exit w fuel img (mnt g) _ st1 st2 st3 st4 st6 pid tt
             Hrun Hpid Hloop Hclean).
  exists ([EvExists (mnt g)] ++ n2 ++ [EvReadline "./guestmount.pid"] ++ n4 ++ n5
          ++ [EvRemove "./guestmount.pid"] ++ n7).
  split; [|split].
  - destruct (waitpid w fuel pid st6) as [[[]|e|] st7]; cbn [fst snd] in *;
      rewrite E7; subst st6 st3 st1; cbn [trace with_trace];
      rewrite E5, E4; cbn [trace with_trace]; rewrite E2; cbn [trace with_trace];
      assoc_r; reflexivity.
  - rewrite !popen_cmds_app, C2, C4, C5, (popen_cmds_none n7 F7). reflexivity.
  - intros e. destruct (waitpid w fuel pid st6) as [[[]|e'|] st7]; cbn [fst snd] in *;
      try discriminate. exfalso. exact (Hnr e' eq_refl).
Qed.

(** X11. Where the mount point is there, every command exits with code 0,
    the pid file holds a number and can be removed, one call of
    [copyImgFiles] with direction ['in'] starts exactly these commands, in
    this order: the mount, one copy for each FileSpec in the order of the
    list, the unmount; and it raises nothing. *)
Theorem copyImgFiles_commands (g : Globals) (w : World) (fuel : nat) (img : string)
    (files : list FileSpec) (st : State) :
  (forall h cmd kw, exists out, w_popen w h cmd kw = Exited out 0) ->
  (forall h, w_exists w h (mnt g) = true) ->
  (forall h, exists line pid,
     w_readline w h "./guestmount.pid" = OsOk line /\ Py.int line = Some pid) ->
  (forall h, w_remove w h "./guestmount.pid" = OsOk tt) ->
  exists new,
    trace (snd (copyImgFiles g w fuel img files "in" st)) = trace st ++ new /\
    popen_cmds new =
      mount_cmd img (mnt g) :: map (cp_in g) files ++ [unmount_cmd (mnt g)] /\
    forall e, fst (copyImgFiles g w fuel img files "in" st) <> Raise e.
Proof. apply copyImgFiles_commands_in. Qed.

Lemma copyImgFiles_commands_witness :
  let files := [ {| src := "a"; dst := "/etc" |}; {| src := "b/*"; dst := "/" |} ] in
  popen_cmds (events_of (copyImgFiles here calm 5 "img" files "in")) =
  [ mount_cmd "img" "/mnt/disk-mount";
    Shell "cp -a a /mnt/disk-mount/etc";
    Shell "cp -a b/* /mnt/disk-mount";
    unmount_cmd "/mnt/disk-mount" ].
Proof.
  intros files.
  destruct (copyImgFiles_commands here calm 5 "img" files init) as (new & E & C & _).
  - intros h cmd kw. exists ["ok" +:+ String "010" ""]. reflexivity.
  - intros h. reflexivity.
  - intros h. exists ("4242" +:+ String "010" ""), 4242. split; reflexivity.
  - intros h. reflexivity.
  - unfold events_of. rewrite E. exact C.
Defined.

(** X12. With direction ['in'], when the copies of the FileSpecs [done]
    have succeeded and the copy of the next one raises, the FileSpecs
    after it are not copied; the image is unmounted and the pid file
    removed, and the exception of the failed copy comes out (or that of
    the cleanup, if it fails too). *)
Theorem copyImgFiles_stops_at_failed_copy (g : Globals) (w : World) (fuel : nat)
    (img : string) (done rest : list FileSpec) (f : FileSpec)
    (st st1 st2 st3 st4 st5 : State) (pid : Z) (e : exn) :
  ensure_mnt g w st = (Ret tt, st1) ->
  run w (mount_cmd img (mnt g)) DEBUG true no_kwargs st1 = (Ret tt, st2) ->
  read_int_line w "./guestmount.pid" st2 = (Ret pid, st3) ->
  for_each done (copy_one g w "in") st3 = (Ret tt, st4) ->
  run w (cp_in g f) DEBUG true shell_kwargs st4 = (Raise e, st5) ->
  copyImgFiles g w fuel img (done ++ f :: rest) "in" st =
  match mount_cleanup w (mnt g) st5 with
  | (Ret _, st6) => (Raise e, st6)
  | (Raise e', st6) => (Raise e', st6)
  | (Diverge, st6) => (Diverge, st6)
  end.
Proof.
  intros Hens Hrun Hread Hdone Hcp.
  unfold copyImgFiles. rewrite (bind_ret _ _ _ _ _ Hens).
  apply (mountImg_exceptional_exit w fuel img (mnt g) _ st1 st2 st3 st5 pid e Hrun Hread).
  rewrite for_each_app, (bind_ret _ _ _ _ _ Hdone). cbn [for_each].
  apply bind_raise. exact Hcp.
Qed.

Lemma copyImgFiles_stops_at_failed_copy_witness :
  let files := [ {| src := "a"; dst := "/a" |}; {| src := "b"; dst := "/b" |};
                 {| src := "c"; dst := "/c" |} ] in
  fst (copyImgFiles here copy_b_fails 5 "img" files "in" init) =
    Raise (CalledProcessError 1 "cp -a b /mnt/disk-mount/b") /\
  popen_cmds (events_of (copyImgFiles here copy_b_fails 5 "img" files "in")) =
    [ mount_cmd "img" "/mnt/disk-mount"; Shell "cp -a a /mnt/disk-mount/a";
      Shell "cp -a b /mnt/disk-mount/b"; unmount_cmd "/mnt/disk-mount" ].
Proof.
  intros files.
  pose (st1 := snd (ensure_mnt here copy_b_fails init)).
  pose (st2 := snd (run copy_b_fails (mount_cmd "img" (mnt here)) DEBUG true no_kwargs st1)).
  pose (st3 := snd (read_int_line copy_b_fails "./guestmount.pid" st2)).
  pose (st4 := snd (for_each [ {| src := "a"; dst := "/a" |} ]
                      (copy_one here copy_b_fails "in") st3)).
  pose (st5 := snd (run copy_b_fails (cp_in here {| src := "b"; dst := "/b" |})
                      DEBUG true shell_kwargs st4)).
  assert (H : copyImgFiles here copy_b_fails 5 "img" files "in" init =
              match mount_cleanup copy_b_fails (mnt here) st5 with
              | (Ret _, st6) => (Raise (CalledProcessError 1 "cp -a b /mnt/disk-mount/b"), st6)
              | (Raise e', st6) => (Raise e', st6)
              | (Diverge, st6) => (Diverge, st6)
              end).
  { apply (copyImgFiles_stops_at_failed_copy here copy_b_fails 5 "img"
             [ {| src := "a"; dst := "/a" |} ] [ {| src := "c"; dst := "/c" |} ]
             {| src := "b"; dst := "/b" |} init st1 st2 st3 st4 st5 77
             (CalledProcessError 1 "cp -a b /mnt/disk-mount/b"));
      vm_compute; reflexivity. }
  unfold events_of. rewrite H. split; vm_compute; reflexivity.
Defined.

(** X13. [copyImgFiles] creates the mount point only when it is missing;
    when it is missing and [mkdir] exits with a nonzero code, the
    [CalledProcessError] of [mkdir] comes out and the image is never
    mounted. *)
Theorem copyImgFiles_mount_point (g : Globals) (w : World) (fuel : nat) (img : string)
    (files : list FileSpec) (direction : string) (st : State) :
  (w_exists w (trace st) (mnt g) = true ->
   ensure_mnt g w st = (Ret tt, with_trace st (trace st ++ [EvExists (mnt g)]))) /\
  (forall output rc,
     w_exists w (trace st) (mnt g) = false ->
     w_popen w (run_spawn_history w (Argv ["mkdir"; mnt g]) DEBUG no_kwargs
                  (trace st ++ [EvExists (mnt g)]))
       (Argv ["mkdir"; mnt g]) no_kwargs = Exited output rc ->
     rc <> 0 ->
     copyImgFiles g w fuel img files direction st =
     (Raise (CalledProcessError rc ("mkdir " +:+ mnt g)),
      with_trace st
        (trace st
         ++ [EvExists (mnt g); EvGetcwd;
             EvLog DEBUG (running_msg (Argv ["mkdir"; mnt g])
                            (w_getcwd w (trace st ++ [EvExists (mnt g)])));
             EvPopen (Argv ["mkdir"; mnt g]) no_kwargs]
         ++ map (fun line => EvLog DEBUG (Py.strip line)) output))).
Proof.
  split.
  - intros H. unfold ensure_mnt, os_path_exists. rewrite bind_unfold. cbn [ask].
    rewrite H. reflexivity.
  - intros output rc Hmissing Hw Hrc.
    unfold copyImgFiles. rewrite bind_unfold.
    unfold ensure_mnt, os_path_exists. rewrite bind_unfold. cbn [ask].
    rewrite Hmissing, run_unfold. cbv zeta. cbn [trace].
    rewrite Hw. apply Z.eqb_neq in Hrc. rewrite Hrc. cbn [andb negb].
    unfold run_spawn_history, with_trace. cbn [kw_cwd no_kwargs trace runName].
    assoc_r. reflexivity.
Qed.

Lemma copyImgFiles_mount_point_witness :
  ensure_mnt here calm init = (Ret tt, with_trace init [EvExists "/mnt/disk-mount"]) /\
  copyImgFiles here mkdir_fails 5 "img" [] "in" init =
  (Raise (CalledProcessError 1 "mkdir /mnt/disk-mount"),
   with_trace init
     [EvExists "/mnt/disk-mount"; EvGetcwd;
      EvLog DEBUG (running_msg (Argv ["mkdir"; "/mnt/disk-mount"]) "/work");
      EvPopen (Argv ["mkdir"; "/mnt/disk-mount"]) no_kwargs; EvLog DEBUG "ok"]).
Proof.
  split.
  - destruct (copyImgFiles_mount_point here calm 5 "img" [] "in" init) as [H _].
    apply H. reflexivity.
  - destruct (copyImgFiles_mount_point here mkdir_fails 5 "img" [] "in" init) as [_ H].
    apply (H ["ok" +:+ String "010" ""] 1); [reflexivity | reflexivity | discriminate].
Defined.

Lemma endswith_char_append (c : ascii) (s t : string) :
  t <> "" -> Py.endswith_char c (s +:+ t) = Py.endswith_char c t.
Proof.
  intros Ht. induction s as [|a s IH]; [reflexivity|].
  rewrite append_cons. cbn [Py.endswith_char].
  destruct (s +:+ t) eqn:E; [|exact IH].
  apply append_eq_nil in E as [_ E]. contradiction.
Qed.

Lemma endswith_no_slash (s : string) :
  no_slash s = true -> Py.endswith_char "/" s = false.
Proof.
  unfold no_slash. induction s as [|a s IH]; [reflexivity|].
  cbn [chars forallb]. intros H. apply andb_prop in H as [Ha Hs].
  apply negb_true_iff in Ha. cbn [Py.endswith_char].
  destruct s; [exact Ha | exact (IH Hs)].
Qed.

Lemma slashed_app (a b : list string) : slashed (a ++ b) = slashed a +:+ slashed b.
Proof.
  induction a as [|x a IH]; [reflexivity|].
  cbn [app slashed]. rewrite IH, !append_assoc. reflexivity.
Qed.

(** An absolute path made of names does not end with a slash. *)
Lemma abs_path_no_trailing_slash (rs : list string) :
  rs <> [] -> Forall (fun x => is_name x = true) rs ->
  Py.endswith_char "/" (abs_path rs) = false.
Proof.
  intros Hne Hrs. rewrite (abs_path_slashed_ne rs Hne).
  destruct rs as [|r rs _] using rev_ind; [contradiction|].
  apply Forall_app in Hrs as [_ Hr]. apply Forall_cons in Hr as [Hr _].
  pose proof Hr as Hr'. apply is_name_spec in Hr' as (Hr0 & _ & _ & Hrs).
  rewrite slashed_app. cbn [slashed]. rewrite append_nil_r.
  rewrite endswith_char_append by discriminate.
  change ("/" +:+ r) with (String "/" r). cbn [Py.endswith_char].
  destruct r; [contradiction|]. apply (endswith_no_slash _ Hrs).
Qed.

(** The mount point, for a working directory made of names. *)
Lemma mnt_of_root (g : Globals) (rs : list string) :
  root_dir g = abs_path rs -> rs <> [] -> Forall (fun x => is_name x = true) rs ->
  mnt g = root_dir g +:+ "/disk-mount" /\ mnt g = abs_path (rs ++ ["disk-mount"]).
Proof.
  intros Hroot Hne Hrs. unfold mnt, OsPath.join, OsPath.sep.
  change (Py.startswith "/" "disk-mount") with false. cbv iota.
  rewrite Hroot, (abs_path_no_trailing_slash rs Hne Hrs).
  change (String.eqb (abs_path rs) "") with false. cbn [orb]. split; [reflexivity|].
  rewrite (abs_path_slashed_ne rs Hne).
  rewrite (abs_path_slashed_ne (rs ++ ["disk-mount"])) by (destruct rs; discriminate).
  rewrite slashed_app. reflexivity.
Qed.

(** X14. For a working directory made of names, and an overlay directory
    given without a slash at its end, [applyOverlay] copies with the one
    command [cp -a <overlay>/* <root>/disk-mount], between the mount and
    the unmount of the image (where every command succeeds): the
    destination ['/'] is the mount point itself. *)
Theorem applyOverlay_command (g : Globals) (w : World) (fuel : nat)
    (img overlay : string) (rs : list string) (st : State) :
  root_dir g = abs_path rs -> rs <> [] -> Forall (fun x => is_name x = true) rs ->
  overlay <> "" -> Py.endswith_char "/" overlay = false ->
  (forall h cmd kw, exists out, w_popen w h cmd kw = Exited out 0) ->
  (forall h, w_exists w h (mnt g) = true) ->
  (forall h, exists line pid,
     w_readline w h "./guestmount.pid" = OsOk line /\ Py.int line = Some pid) ->
  (forall h, w_remove w h "./guestmount.pid" = OsOk tt) ->
  exists new,
    trace (snd (applyOverlay g w fuel img overlay st)) = trace st ++ new /\
    popen_cmds new =
      [ mount_cmd img (root_dir g +:+ "/disk-mount");
        Shell ("cp -a " +:+ overlay +:+ "/* " +:+ root_dir g +:+ "/disk-mount");
        unmount_cmd (root_dir g +:+ "/disk-mount") ].
Proof.
  intros Hroot Hne Hrs Hov Hslash Hpopen Hexists Hread Hremove.
  destruct (mnt_of_root g rs Hroot Hne Hrs) as [Hmnt Habs].
  destruct (copyImgFiles_commands_in g w fuel img
              [ {| src := OsPath.join overlay "*"; dst := "/" |} ] st
              Hpopen Hexists Hread Hremove) as (new & E & C & _).
  exists new. split; [exact E|]. rewrite C. cbn [map app].
  assert (Hcp : cp_in g {| src := OsPath.join overlay "*"; dst := "/" |} =
                Shell ("cp -a " +:+ overlay +:+ "/* " +:+ root_dir g +:+ "/disk-mount")).
  { unfold cp_in. cbn [src dst].
    assert (Hmp : mount_path (mnt g) "/" = mnt g).
    { rewrite Habs. change "/" with (abs_path []).
      rewrite mount_path_absolute; [rewrite app_nil_r; reflexivity | | | constructor].
      - destruct rs; discriminate.
      - apply Forall_app_2; [exact Hrs | repeat constructor]. }
    rewrite Hmp, Hmnt. unfold OsPath.join, OsPath.sep.
    change (Py.startswith "/" "*") with false. cbv iota.
    apply String.eqb_neq in Hov. rewrite Hov, Hslash. cbn [orb].
    rewrite !append_assoc. reflexivity. }
  rewrite Hcp, Hmnt. reflexivity.
Qed.

Lemma applyOverlay_command_witness :
  popen_cmds (events_of (applyOverlay here calm 5 "img" "/home/me/overlay")) =
  [ mount_cmd "img" "/mnt/disk-mount";
    Shell "cp -a /home/me/overlay/* /mnt/disk-mount";
    unmount_cmd "/mnt/disk-mount" ].
Proof.
  destruct (applyOverlay_command here calm 5 "img" "/home/me/overlay" ["mnt"] init)
    as (new & E & C).
  - reflexivity.
  - discriminate.
  - repeat constructor.
  - discriminate.
  - reflexivity.
  - intros h cmd kw. exists ["ok" +:+ String "010" ""]. reflexivity.
  - intros h. reflexivity.
  - intros h. exists ("4242" +:+ String "010" ""), 4242. split; reflexivity.
  - intros h. reflexivity.
  - unfold events_of. rewrite E. exact C.
Defined.

(** ** oneTimeInit *)

Section InitBuild.

Context (g : Globals) (w : World).

Lemma init_build_dirs :
  init_build g w =
  (make_dirs g w initramfs_dirs;;
   log INFO "Building busybox (used in initramfs)";;
   shutil_copy w (OsPath.join (wlutil_dir g) "busybox-config")
                 (OsPath.join (busybox_dir g) ".config");;
   run w (Argv ["make"; jlevel g]) DEBUG true
       {| kw_shell := false; kw_cwd := Some (busybox_dir g) |};;
   shutil_copy w (OsPath.join (busybox_dir g) "busybox")
                 (OsPath.join (initramfs_root g) "bin/");;
   patches ← path_glob w (board_dir g) "*.patch";
   git_Repo w (linux_dir g);;
   mret patches).
Proof. reflexivity. Qed.

Lemma mkdir_paths_app (t1 t2 : list event) :
  mkdir_paths (t1 ++ t2) = mkdir_paths t1 ++ mkdir_paths t2.
Proof. unfold mkdir_paths. apply omap_app. Qed.

(** One round of the loop over the directories. *)
Lemma make_dirs_cons (d : string) (dirs : list string) (st : State) :
  make_dirs g w (d :: dirs) st =
  let p := OsPath.join (initramfs_root g) d in
  if w_exists w (trace st) p
  then make_dirs g w dirs (with_trace st (trace st ++ [EvExists p]))
  else match w_mkdir w (trace st ++ [EvExists p]) p with
       | OsOk _ => make_dirs g w dirs (with_trace st (trace st ++ [EvExists p; EvMkdir p]))
       | OsErr errno =>
           (Raise (OSError errno), with_trace st (trace st ++ [EvExists p; EvMkdir p]))
       end.
Proof.
  unfold make_dirs. cbn [for_each]. rewrite !bind_unfold.
  unfold os_path_exists. cbn [ask]. cbv zeta.
  destruct (w_exists w (trace st) (OsPath.join (initramfs_root g) d)).
  - rewrite ret_unfold. reflexivity.
  - unfold path_mkdir. rewrite bind_unfold. cbn [ask trace runName].
    destruct (w_mkdir w _ (OsPath.join (initramfs_root g) d)) as [[]|errno];
      cbn [from_os]; unfold with_trace; assoc_r; reflexivity.
Qed.

(** When every directory is there, the loop only looks. *)
Lemma make_dirs_all_exist (dirs : list string) (st : State) :
  (forall h p, w_exists w h p = true) ->
  make_dirs g w dirs st =
  (Ret tt, with_trace st
             (trace st ++ map (fun d => EvExists (OsPath.join (initramfs_root g) d)) dirs)).
Proof.
  intros Hex. revert st. induction dirs as [|d dirs IH]; intros st.
  - cbn. rewrite app_nil_r, with_trace_trace. reflexivity.
  - rewrite make_dirs_cons. cbv zeta. rewrite Hex, IH.
    unfold with_trace. cbn [trace runName map]. assoc_r. reflexivity.
Qed.


End InitBuild.

Lemma mkdir_paths_none (t : list event) :
  Forall (fun e => is_mkdir e = false) t -> mkdir_paths t = [].
Proof.
  induction 1 as [|e t He _ IH]; [reflexivity|].
  destruct e; try discriminate; exact IH.
Qed.

(** [run] starts its command, and creates no directory. *)
Lemma run_cmds_no_mkdir (w : World) (cmd : command) (lvl : level) (check : bool)
    (kw : run_kwargs) (st : State) :
  exists new,
    trace (snd (run w cmd lvl check kw st)) = trace st ++ new /\
    popen_cmds new = [cmd] /\ mkdir_paths new = [].
Proof.
  destruct (run_shape (fun e => is_popen e = false /\ is_mkdir e = false)
              w cmd lvl check kw st)
    as (pre & post & E & Fpre & Fpost); [split; reflexivity | split; reflexivity|].
  exists (pre ++ [EvPopen cmd kw] ++ post). split; [exact E|].
  assert (Hp : forall t, Forall (fun e => is_popen e = false /\ is_mkdir e = false) t ->
                         popen_cmds t = [] /\ mkdir_paths t = []).
  { intros t Ft. split.
    - apply popen_cmds_none. eapply Forall_impl; [exact Ft|]. intros e [H _]; exact H.
    - apply mkdir_paths_none. eapply Forall_impl; [exact Ft|]. intros e [_ H]; exact H. }
  destruct (Hp pre Fpre) as [Hc1 Hm1]. destruct (Hp post Fpost) as [Hc2 Hm2].
  split.
  - rewrite !popen_cmds_app, Hc1, Hc2. reflexivity.
  - rewrite !mkdir_paths_app, Hm1, Hm2. reflexivity.
Qed.

Lemma shutil_copy_ok (w : World) (a b : string) (st : State) :
  w_copy w (trace st) a b = OsOk tt ->
  shutil_copy w a b st = (Ret tt, with_trace st (trace st ++ [EvCopy a b])).
Proof.
  intros H. unfold shutil_copy. rewrite bind_unfold. cbn [ask]. rewrite H. reflexivity.
Qed.

(** X15. Run again on a tree where every directory of the initramfs root
    is there (and the build configuration can be copied), the first part
    of [oneTimeInit] creates no directory and still starts the build of
    busybox: [make] is the one command it runs. *)
Theorem oneTimeInit_existing_dirs (g : Globals) (w : World) (st : State) :
  (forall h p, w_exists w h p = true) ->
  (forall h a b, w_copy w h a b = OsOk tt) ->
  exists new,
    trace (snd (init_build g w st)) = trace st ++ new /\
    mkdir_paths new = [] /\
    popen_cmds new = [Argv ["make"; jlevel g]].
Proof.
  intros Hex Hcopy. rewrite init_build_dirs.
  rewrite (bind_ret _ _ _ _ _ (make_dirs_all_exist g w initramfs_dirs st Hex)).
  set (st1 := with_trace st _).
  assert (E1 : exists n1, trace st1 = trace st ++ n1 /\ mkdir_paths n1 = [] /\
                          popen_cmds n1 = []).
  { eexists. split; [reflexivity|]. split; reflexivity. }
  destruct E1 as (n1 & E1 & M1 & C1). clearbody st1.
  rewrite bind_unfold. cbn [log emit].
  rewrite bind_unfold, shutil_copy_ok by apply Hcopy.
  unfold with_trace. cbn [trace runName].
  set (st2 := {| runName := runName st1; trace := _ |}).
  destruct (run_cmds_no_mkdir w (Argv ["make"; jlevel g]) DEBUG true
              {| kw_shell := false; kw_cwd := Some (busybox_dir g) |} st2)
    as (n3 & E3 & C3 & M3).
  rewrite bind_unfold.
  destruct (run w (Argv ["make"; jlevel g]) DEBUG true _ st2) as [[[]|e|] st3];
    cbn [fst snd] in E3.
  - set (rest := (shutil_copy w _ _;; _) : M (list string)).
    assert (Hrest : emits (fun e => is_popen e = false /\ is_mkdir e = false) rest).
    { unfold rest. apply emits_bind; [apply emits_shutil_copy; split; reflexivity|].
      intros _. apply emits_bind; [apply emits_path_glob; split; reflexivity|].
      intros patches. apply emits_bind; [apply emits_git_Repo; split; reflexivity|].
      intros _. apply emits_ret. }
    destruct (Hrest st3) as (n4 & E4 & F4).
    exists (n1 ++ [EvLog INFO "Building busybox (used in initramfs)";
                   EvCopy (OsPath.join (wlutil_dir g) "busybox-config")
                          (OsPath.join (busybox_dir g) ".config")] ++ n3 ++ n4).
    rewrite E4, E3. subst st2. cbn [trace]. rewrite E1. assoc_r.
    split; [reflexivity|].
    assert (popen_cmds n4 = [] /\ mkdir_paths n4 = []) as [C4 M4].
    { split; [apply popen_cmds_none | apply mkdir_paths_none];
        (eapply Forall_impl; [exact F4|]); intros e [H1 H2]; assumption. }
    split.
    + rewrite !mkdir_paths_app, M1, M3, M4. reflexivity.
    + rewrite !popen_cmds_app, C1, C3, C4. reflexivity.
  - exists (n1 ++ [EvLog INFO "Building busybox (used in initramfs)";
                   EvCopy (OsPath.join (wlutil_dir g) "busybox-config")
                          (OsPath.join (busybox_dir g) ".config")] ++ n3).
    cbn [snd]. rewrite E3. subst st2. cbn [trace]. rewrite E1. assoc_r.
    split; [reflexivity|]. split.
    + rewrite !mkdir_paths_app, M1, M3. reflexivity.
    + rewrite !popen_cmds_app, C1, C3. reflexivity.
  - exists (n1 ++ [EvLog INFO "Building busybox (used in initramfs)";
                   EvCopy (OsPath.join (wlutil_dir g) "busybox-config")
                          (OsPath.join (busybox_dir g) ".config")] ++ n3).
    cbn [snd]. rewrite E3. subst st2. cbn [trace]. rewrite E1. assoc_r.
    split; [reflexivity|]. split.
    + rewrite !mkdir_paths_app, M1, M3. reflexivity.
    + rewrite !popen_cmds_app, C1, C3. reflexivity.
Qed.

Lemma oneTimeInit_existing_dirs_witness :
  mkdir_paths (events_of (init_build here calm)) = [] /\
  popen_cmds (events_of (init_build here calm)) = [Argv ["make"; "-j8"]].
Proof.
  destruct (oneTimeInit_existing_dirs here calm init) as (new & E & M & C).
  - intros h p. reflexivity.
  - intros h a b. reflexivity.
  - unfold events_of. rewrite E. split; [exact M | exact C].
Defined.





(** X17. Failures before the patches abort [oneTimeInit]: when [make]
    exits with a nonzero code its [CalledProcessError] comes out, the
    busybox binary is not copied and the patches are neither listed nor
    applied; and when the dirty check of the repository fails, [GitError]
    comes out and no patch is applied. *)
Theorem oneTimeInit_aborts_before_patches (g : Globals) (w : World) (st st1 : State) :
  (forall output rc,
     make_dirs g w initramfs_dirs st = (Ret tt, st1) ->
     w_copy w (trace st1 ++ [EvLog INFO "Building busybox (used in initramfs)"])
       (OsPath.join (wlutil_dir g) "busybox-config")
       (OsPath.join (busybox_dir g) ".config") = OsOk tt ->
     w_popen w (make_history g (trace st1)) (Argv ["make"; jlevel g])
       {| kw_shell := false; kw_cwd := Some (busybox_dir g) |} = Exited output rc ->
     rc <> 0 ->
     oneTimeInit g w st =
     (Raise (CalledProcessError rc ("make " +:+ jlevel g)),
      with_trace st1
        (make_history g (trace st1)
         ++ [EvPopen (Argv ["make"; jlevel g])
               {| kw_shell := false; kw_cwd := Some (busybox_dir g) |}]
         ++ map (fun line => EvLog DEBUG (Py.strip line)) output))) /\
  (forall patches,
     init_build g w st = (Ret patches, st1) ->
     w_is_dirty w (trace st1) = None ->
     oneTimeInit g w st = (Raise GitError, with_trace st1 (trace st1 ++ [EvIsDirty]))).
Proof.
  split.
  - intros output rc Hdirs Hcopy Hw Hrc.
    unfold oneTimeInit. rewrite bind_unfold, init_build_dirs.
    rewrite (bind_ret _ _ _ _ _ Hdirs), bind_unfold. cbn [log emit].
    rewrite bind_unfold, shutil_copy_ok by exact Hcopy.
    rewrite bind_unfold, run_unfold. cbv zeta.
    unfold run_spawn_history, with_trace, make_history in *.
    cbn [kw_cwd trace runName] in *.
    revert Hw. assoc_r. cbn [app]. intros Hw. rewrite Hw.
    apply Z.eqb_neq in Hrc. rewrite Hrc. cbn [andb negb]. assoc_r. reflexivity.
  - intros patches Hbuild Hdirty. unfold oneTimeInit.
    rewrite (bind_ret _ _ _ _ _ Hbuild). unfold apply_patches, repo_is_dirty.
    rewrite !bind_unfold. cbn [ask]. rewrite Hdirty. reflexivity.
Qed.

Lemma oneTimeInit_aborts_before_patches_witness :
  fst (oneTimeInit here make_fails init) = Raise (CalledProcessError 1 "make -j8") /\
  popen_cmds (events_of (oneTimeInit here make_fails)) = [Argv ["make"; "-j8"]] /\
  fst (oneTimeInit here no_git init) = Raise GitError.
Proof.
  destruct (oneTimeInit_aborts_before_patches here make_fails init
              (snd (make_dirs here make_fails initramfs_dirs init))) as [Hmake _].
  destruct (oneTimeInit_aborts_before_patches here no_git init
              (snd (init_build here no_git init))) as [_ Hgit].
  unfold events_of.
  rewrite (Hmake ["ok" +:+ String "010" ""] 1);
    [|vm_compute; reflexivity | reflexivity | reflexivity | discriminate].
  rewrite (Hgit ["/work/boards/firechip/a.patch"; "/work/boards/firechip/b.patch"]);
    [|vm_compute; reflexivity | reflexivity].
  repeat split; vm_compute; reflexivity.
Defined.

Lemma apply_patch_cmds (g : Globals) (w : World) (patch : string) (st : State) :
  exists new,
    trace (snd (apply_patch g w patch st)) = trace st ++ new /\
    popen_cmds new = [git_apply patch].
Proof.
  unfold apply_patch. rewrite bind_unfold. cbn [log emit].
  destruct (run_cmds w (Argv ["git"; "apply"; patch]) DEBUG true
              {| kw_shell := false; kw_cwd := Some (linux_dir g) |}
              {| runName := runName st;
                 trace := trace st ++ [EvLog INFO ("Applying: " +:+ patch)] |})
    as (n & E & C).
  exists ([EvLog INFO ("Applying: " +:+ patch)] ++ n). cbn [trace] in E.
  rewrite E. assoc_r. split; [reflexivity|].
  rewrite popen_cmds_app, C. reflexivity.
Qed.

Lemma apply_patch_no_error_log (g : Globals) (w : World) (patches : list string) :
  emits (fun e => is_error_log e = false) (for_each patches (apply_patch g w)).
Proof.
  apply emits_for_each. intros patch. unfold apply_patch.
  apply emits_bind; [apply emits_log; reflexivity|]. intros _.
  apply emits_run; reflexivity.
Qed.

(** X18. On a clean tree [oneTimeInit] applies the patches with one
    [git apply] each, in the order in which they were listed, and no
    other command.  Either every patch has been applied and no error is
    logged, or the commands stop at the first patch that fails and the
    last thing logged is the error about the patches. *)
Theorem apply_patches_in_order (g : Globals) (w : World) (patches : list string)
    (st : State) :
  w_is_dirty w (trace st) = Some false ->
  exists new k,
    trace (snd (apply_patches g w patches st)) = trace st ++ new /\
    popen_cmds new = map git_apply (take k patches) /\
    ((k = length patches /\ count is_error_log new = 0%nat) \/
     ((0 < k <= length patches)%nat /\ last new = Some (EvLog ERROR patch_error))).
Proof.
  intros Hclean. rewrite (apply_patches_clean g w patches st Hclean).
  set (st0 := with_trace st (trace st ++ [EvIsDirty; EvLog INFO applying_msg])).
  destruct (loop_cmds (apply_patch g w) git_apply patches st0
              (apply_patch_cmds g w) (total_apply_patch g w))
    as (n & k & E & C & Hk & Hret & Hraise).
  destruct (apply_patch_no_error_log g w patches st0) as (n' & E' & F').
  assert (n' = n) as -> by (rewrite E in E'; exact (app_inv_head _ _ _ (eq_sym E'))).
  pose proof (total_for_each patches (apply_patch g w) (total_apply_patch g w) st0) as Hnd.
  destruct (for_each patches (apply_patch g w) st0) as [[[]|e|] st'];
    cbn [fst snd] in *; [| |contradiction].
  - exists ([EvIsDirty; EvLog INFO applying_msg] ++ n), k.
    rewrite E. subst st0. cbn [with_trace trace]. assoc_r.
    split; [reflexivity|]. split; [rewrite popen_cmds_app, C; reflexivity|].
    left. split; [apply Hret; reflexivity|].
    rewrite count_app, (count_none is_error_log n F'). reflexivity.
  - exists ([EvIsDirty; EvLog INFO applying_msg] ++ n ++ [EvLog ERROR patch_error]), k.
    cbn [with_trace trace]. rewrite E. subst st0. cbn [with_trace trace]. assoc_r.
    split; [reflexivity|]. split.
    + rewrite !popen_cmds_app, C, app_nil_r. reflexivity.
    + right. split; [split; [exact (Hraise e eq_refl) | exact Hk]|].
      rewrite !app_assoc. apply last_snoc.
Qed.

Lemma apply_patches_in_order_witness :
  exists k,
    popen_cmds (events_of (apply_patches here clean_tree ["a.patch"; "b.patch"; "c.patch"]))
      = map git_apply (take k ["a.patch"; "b.patch"; "c.patch"]) /\
    (0 < k <= 3)%nat.
Proof.
  destruct (apply_patches_in_order here clean_tree ["a.patch"; "b.patch"; "c.patch"] init)
    as (new & k & E & C & [[Hk Hcount]|[Hk Hlast]]); [reflexivity | |].
  - exists k. unfold events_of. rewrite E. split; [exact C|]. rewrite Hk. cbn. lia.
  - exists k. unfold events_of. rewrite E. split; [exact C | exact Hk].
Defined.

(** ** setRunName, getRunName *)

(** X19. [getRunName] gives the empty string before any [setRunName] and
    afterwards the name the last [setRunName] has set; it changes
    nothing.  One [setRunName] reads the clock once, then draws sixteen
    times. *)
Theorem getRunName_is_last_set (w : World) (cp1 cp2 : option string)
    (op1 op2 : string) (st : State) :
  getRunName init = (Ret "", init) /\
  getRunName st = (Ret (runName st), st) /\
  fst ((setRunName w cp1 op1;; getRunName) st) = Ret (run_name_at w (trace st) cp1 op1) /\
  fst ((setRunName w cp1 op1;; setRunName w cp2 op2;; getRunName) st) =
    Ret (run_name_at w (trace st ++ setRunName_events) cp2 op2) /\
  trace (snd (setRunName w cp1 op1 st)) =
    trace st ++ EvGmtime :: replicate 16 (EvRandBelow 36).
Proof.
  split; [reflexivity|]. split; [reflexivity|]. split; [|split].
  - rewrite bind_unfold, setRunName_unfold. reflexivity.
  - rewrite bind_unfold, setRunName_unfold, bind_unfold, setRunName_unfold. reflexivity.
  - rewrite setRunName_unfold. reflexivity.
Qed.

(** *** The name of the configuration in the run name *)

Lemma lacks_slash (s : string) : lacks "/" s = no_slash s.
Proof. reflexivity. Qed.

Lemma rfind_from_lacks (c : ascii) (s : string) (i best : Z) :
  lacks c s = true -> Py.rfind_from c s i best = best.
Proof.
  unfold lacks. revert i best. induction s as [|a s IH]; intros i best H; [reflexivity|].
  cbn [chars forallb] in H. apply andb_prop in H as [Ha Hs].
  apply negb_true_iff in Ha. cbn [Py.rfind_from]. rewrite Ha. apply IH, Hs.
Qed.

(** The last [c] of a string is the one after which no [c] comes. *)
Lemma rfind_from_last (c : ascii) (s t : string) (i best : Z) :
  lacks c t = true ->
  Py.rfind_from c (s +:+ String c t) i best = i + Z.of_nat (String.length s).
Proof.
  intros Ht. revert i best. induction s as [|a s IH]; intros i best.
  - change ("" +:+ String c t) with (String c t). cbn [Py.rfind_from String.length].
    rewrite Ascii.eqb_refl, (rfind_from_lacks c t _ _ Ht). lia.
  - rewrite append_cons. cbn [Py.rfind_from String.length]. rewrite IH. lia.
Qed.

Lemma substring_0_all (s : string) : String.substring 0 (String.length s) s = s.
Proof. induction s as [|a s IH]; [reflexivity|]. cbn. rewrite IH. reflexivity. Qed.

Lemma substring_skip (a b : string) (m : nat) :
  String.substring (String.length a) m (a +:+ b) = String.substring 0 m b.
Proof.
  induction a as [|x a IH]; [reflexivity|].
  rewrite append_cons. cbn [String.length String.substring]. exact IH.
Qed.

Lemma substring_prefix (a b : string) :
  String.substring 0 (String.length a) (a +:+ b) = a.
Proof.
  induction a as [|x a IH]; [destruct b; reflexivity|].
  rewrite append_cons. cbn [String.length String.substring]. rewrite IH. reflexivity.
Qed.

(** [basename] gives what follows the last slash. *)
Lemma basename_of_path (dir file : string) :
  no_slash file = true -> OsPath.basename (dir +:+ "/" +:+ file) = file.
Proof.
  intros Hf. unfold OsPath.basename, Py.rfind, Py.slice_from, OsPath.sep.
  change ("/" +:+ file) with (String "/" file).
  rewrite (rfind_from_last "/" dir file 0 (-1) Hf).
  replace (Z.to_nat (0 + Z.of_nat (String.length dir) + 1))
    with (String.length (dir +:+ "/")) by (rewrite length_append; cbn; lia).
  replace (dir +:+ String "/" file) with ((dir +:+ "/") +:+ file)
    by (rewrite append_assoc; reflexivity).
  rewrite substring_skip, length_append.
  replace (String.length (dir +:+ "/") + String.length file - String.length (dir +:+ "/"))%nat
    with (String.length file) by lia.
  apply substring_0_all.
Qed.

Lemma lacks_append (c : ascii) (s t : string) :
  lacks c (s +:+ t) = lacks c s && lacks c t.
Proof. unfold lacks. rewrite chars_append, forallb_app. reflexivity. Qed.

(** [splitext] cuts at the last dot of a file name, unless only dots
    come before it. *)
Lemma splitext_of_name (stem ext : string) :
  no_slash stem = true -> no_slash ext = true -> no_dot ext = true ->
  OsPath.all_dots stem = false ->
  OsPath.splitext_root (stem +:+ "." +:+ ext) = stem.
Proof.
  intros Hs He Hd Hstem. unfold OsPath.splitext_root, Py.rfind, OsPath.sep.
  assert (Hno : lacks "/" (stem +:+ "." +:+ ext) = true).
  { unfold lacks, no_slash in *. rewrite !chars_append, !forallb_app, Hs, He.
    reflexivity. }
  rewrite (rfind_from_lacks "/" _ 0 (-1) Hno).
  change ("." +:+ ext) with (String "." ext).
  rewrite (rfind_from_last "." stem ext 0 (-1) Hd). cbv zeta.
  replace (-1 <? 0 + Z.of_nat (String.length stem)) with true
    by (symmetry; apply Z.ltb_lt; lia).
  unfold Py.slice.
  replace (Z.to_nat (-1 + 1)) with 0%nat by reflexivity.
  replace (Z.to_nat (0 + Z.of_nat (String.length stem) - (-1 + 1)))
    with (String.length stem) by lia.
  replace (Z.to_nat 0) with 0%nat by reflexivity.
  replace (Z.to_nat (0 + Z.of_nat (String.length stem) - 0))
    with (String.length stem) by lia.
  rewrite substring_prefix, Hstem. reflexivity.
Qed.

Lemma splitext_no_dot (file : string) :
  no_dot file = true -> OsPath.splitext_root file = file.
Proof.
  intros Hd. unfold OsPath.splitext_root, Py.rfind.
  rewrite (rfind_from_lacks "." file 0 (-1) Hd). cbv zeta.
  destruct (Py.rfind_from OsPath.sep file 0 (-1) <? -1) eqn:E; [|reflexivity].
  exfalso. apply Z.ltb_lt in E.
  assert (Hge : forall s i best, -1 <= best -> 0 <= i ->
                                 -1 <= Py.rfind_from OsPath.sep s i best).
  { induction s as [|a s IH]; intros i best Hb Hi; [exact Hb|].
    cbn [Py.rfind_from]. apply IH; [destruct (Ascii.eqb a OsPath.sep); lia | lia]. }
  specialize (Hge file 0 (-1)). lia.
Qed.

Lemma append_front4 (a b c d x : string) :
  a +:+ b +:+ c +:+ d +:+ x = (a +:+ b +:+ c +:+ d) +:+ x.
Proof. rewrite !append_assoc. reflexivity. Qed.

(** X20. The run name starts with the name of the configuration file,
    without its directories and without its last extension; with no
    configuration path, or an empty one, it starts with the dash. *)
Theorem run_name_starts_with_config (w : World) (h : list event) (operation : string) :
  (forall dir stem ext,
     no_slash stem = true -> no_slash ext = true -> no_dot ext = true ->
     OsPath.all_dots stem = false ->
     config_name (Some (dir +:+ "/" +:+ stem +:+ "." +:+ ext)) = stem /\
     Py.startswith (stem +:+ "-" +:+ operation +:+ "-")
       (run_name_at w h (Some (dir +:+ "/" +:+ stem +:+ "." +:+ ext)) operation) = true) /\
  (forall dir file,
     no_slash file = true -> no_dot file = true ->
     config_name (Some (dir +:+ "/" +:+ file)) = file) /\
  config_name None = "" /\ config_name (Some "") = "" /\
  Py.startswith ("-" +:+ operation +:+ "-") (run_name_at w h None operation) = true.
Proof.
  assert (Hcfg : forall dir rest,
            config_name (Some (dir +:+ "/" +:+ rest)) =
            OsPath.splitext_root (OsPath.basename (dir +:+ "/" +:+ rest))).
  { intros dir rest. unfold config_name.
    destruct (dir +:+ "/" +:+ rest) eqn:E; [|reflexivity].
    apply append_eq_nil in E as [_ E]. discriminate. }
  split; [|split; [|split; [|split]]].
  - intros dir stem ext Hs He Hd Hstem.
    assert (Hname : config_name (Some (dir +:+ "/" +:+ stem +:+ "." +:+ ext)) = stem).
    { rewrite Hcfg, basename_of_path.
      - apply splitext_of_name; assumption.
      - unfold no_slash in *. rewrite !chars_append, !forallb_app, Hs, He.
        reflexivity. }
    split; [exact Hname|].
    unfold run_name_at. rewrite Hname, append_front4. apply startswith_append.
  - intros dir file Hs Hd. rewrite Hcfg, (basename_of_path dir file Hs).
    apply splitext_no_dot, Hd.
  - reflexivity.
  - reflexivity.
  - unfold run_name_at. cbn [config_name]. rewrite append_front4.
    change ("" +:+ "-" +:+ operation +:+ "-") with ("-" +:+ operation +:+ "-").
    apply startswith_append.
Qed.

Lemma run_name_starts_with_config_witness :
  config_name (Some "/home/me/cfgs/br-base.tar.json") = "br-base.tar" /\
  config_name (Some "/home/me/cfgs/Makefile") = "Makefile".
Proof.
  destruct (run_name_starts_with_config calm [] "build") as (H1 & H2 & _).
  split.
  - apply (H1 "/home/me/cfgs" "br-base.tar" "json"); reflexivity.
  - apply (H2 "/home/me/cfgs" "Makefile"); reflexivity.
Defined.

(** ** genRunScript, convertInitramfsConfig *)

Lemma file_write_twice (p a b : string) (d : Disk) :
  file_write p b (file_write p a d) =
  {| files := <[p := (default "" (files d !! p) +:+ a) +:+ b]> (files d);
     locked := locked d |}.
Proof.
  unfold file_write. cbn [files locked].
  rewrite lookup_insert_eq, insert_insert_eq. reflexivity.
Qed.

Lemma genRunScript_unfold (g : Globals) (command : string) (d : Disk) :
  commandScript g ∉ locked d ->
  genRunScript g command d =
  (Ret (commandScript g),
   {| files := <[commandScript g := run_script command]> (files d);
      locked := locked d |}).
Proof.
  intros Hfree. unfold genRunScript, open_w.
  rewrite bool_decide_eq_false_2 by exact Hfree.
  unfold file_write. cbn [files locked].
  rewrite !lookup_insert_eq, !insert_insert_eq. cbn [default].
  unfold run_script, id.
  change ("" +:+ "#!/bin/bash" +:+ newline) with ("#!/bin/bash" +:+ newline).
  rewrite !append_assoc. reflexivity.
Qed.

Lemma split_not_nil_any (sep : ascii) (s : string) : Py.split sep s <> [].
Proof.
  induction s as [|a s IH]; [discriminate|]. cbn [Py.split].
  destruct (Ascii.eqb a sep); [discriminate|].
  destruct (Py.split sep s); discriminate.
Qed.

(** A line without the separator in it, then the separator: one component. *)
Lemma split_line (sep : ascii) (c t : string) :
  lacks sep c = true -> Py.split sep (c +:+ String sep t) = c :: Py.split sep t.
Proof.
  unfold lacks. induction c as [|a c IH]; intros H.
  - change ("" +:+ String sep t) with (String sep t). cbn [Py.split].
    rewrite Ascii.eqb_refl. reflexivity.
  - cbn [chars forallb] in H. apply andb_prop in H as [Ha Hc].
    apply negb_true_iff in Ha. rewrite append_cons. cbn [Py.split].
    rewrite Ha, (IH Hc). reflexivity.
Qed.

(** X21. [genRunScript] answers the fixed path of the command script and
    leaves in that file the shebang line, the command and [poweroff],
    whatever the file held before, so that the last call wins; no other
    file changes.  When the command has no line break in it, it is the
    second of the three lines.  When the file cannot be opened, the
    [OSError] comes out and the disk is as before. *)
Theorem genRunScript_writes_script (g : Globals) (command : string) (d : Disk) :
  (commandScript g ∉ locked d ->
   fst (genRunScript g command d) = Ret (commandScript g) /\
   files (snd (genRunScript g command d)) !! commandScript g = Some (run_script command) /\
   (forall p, p <> commandScript g ->
      files (snd (genRunScript g command d)) !! p = files d !! p) /\
   (forall earlier,
      snd (genRunScript g command (snd (genRunScript g earlier d))) =
      snd (genRunScript g command d))) /\
  (lacks "010" command = true ->
   Py.split "010" (run_script command) = ["#!/bin/bash"; command; "poweroff"; ""]) /\
  (commandScript g ∈ locked d ->
   genRunScript g command d = (Raise (OSError EACCES), d)).
Proof.
  split; [|split].
  - intros Hfree. rewrite (genRunScript_unfold g command d Hfree). cbn [fst snd files].
    split; [reflexivity|]. split; [apply lookup_insert_eq|]. split.
    + intros p Hp. apply lookup_insert_ne. congruence.
    + intros earlier. rewrite (genRunScript_unfold g earlier d Hfree). cbn [snd].
      rewrite genRunScript_unfold by exact Hfree. cbn [snd files locked].
      rewrite insert_insert_eq. reflexivity.
  - intros Hc. unfold run_script, newline.
    change ("#!/bin/bash" +:+ String "010" "" +:+ command +:+ String "010" ""
            +:+ "poweroff" +:+ String "010" "")
      with ("#!/bin/bash" +:+ String "010" (command +:+ String "010"
              ("poweroff" +:+ String "010" ""))).
    rewrite (split_line "010" "#!/bin/bash") by reflexivity.
    rewrite (split_line "010" command) by exact Hc.
    rewrite (split_line "010" "poweroff") by reflexivity.
    reflexivity.
  - intros Hlocked. unfold genRunScript, open_w.
    rewrite bool_decide_eq_true_2 by exact Hlocked. reflexivity.
Qed.

Lemma genRunScript_writes_script_witness :
  fst (genRunScript here "echo hi" some_disk) = Ret "/work/wlutil/_command.sh" /\
  files (snd (genRunScript here "echo hi" some_disk)) !! "/work/wlutil/_command.sh"
    = Some (run_script "echo hi") /\
  Py.split "010" (run_script "echo hi") = ["#!/bin/bash"; "echo hi"; "poweroff"; ""].
Proof.
  destruct (genRunScript_writes_script here "echo hi" some_disk) as (H1 & H2 & _).
  destruct H1 as (Hr & Hf & _); [vm_compute; discriminate|].
  split; [exact Hr|]. split; [exact Hf|]. apply H2. reflexivity.
Defined.

Lemma convertInitramfsConfig_unfold (cfgPath cpioPath : string) (d : Disk) :
  cfgPath ∉ locked d ->
  convertInitramfsConfig cfgPath cpioPath d =
  (Ret tt,
   {| files := <[cfgPath := default "" (files d !! cfgPath) +:+ initramfs_lines cpioPath]>
                 (files d);
      locked := locked d |}).
Proof.
  intros Hfree. unfold convertInitramfsConfig, open_at.
  rewrite bool_decide_eq_false_2 by exact Hfree.
  unfold file_write. cbn [files locked].
  rewrite !lookup_insert_eq, !insert_insert_eq. cbn [default].
  unfold initramfs_lines, id. rewrite !append_assoc. reflexivity.
Qed.

(** X22. [convertInitramfsConfig] appends its two lines to the
    configuration file: what the file held stays in front of them (a
    missing file is created), and no other file changes.  It is not
    idempotent: a second call appends the two lines again, after those of
    the first.  When the file cannot be opened, the [OSError] comes out
    and the disk is as before. *)
Theorem convertInitramfsConfig_appends (cfgPath cpioPath : string) (d : Disk) :
  (cfgPath ∉ locked d ->
   fst (convertInitramfsConfig cfgPath cpioPath d) = Ret tt /\
   files (snd (convertInitramfsConfig cfgPath cpioPath d)) !! cfgPath =
     Some (default "" (files d !! cfgPath) +:+ initramfs_lines cpioPath) /\
   (forall p, p <> cfgPath ->
      files (snd (convertInitramfsConfig cfgPath cpioPath d)) !! p = files d !! p) /\
   (forall cpio2,
      files (snd (convertInitramfsConfig cfgPath cpio2
                    (snd (convertInitramfsConfig cfgPath cpioPath d)))) !! cfgPath =
      Some (default "" (files d !! cfgPath) +:+ initramfs_lines cpioPath
            +:+ initramfs_lines cpio2))) /\
  (cfgPath ∈ locked d ->
   convertInitramfsConfig cfgPath cpioPath d = (Raise (OSError EACCES), d)).
Proof.
  split.
  - intros Hfree. rewrite (convertInitramfsConfig_unfold cfgPath cpioPath d Hfree).
    cbn [fst snd files]. split; [reflexivity|]. split; [apply lookup_insert_eq|]. split.
    + intros p Hp. apply lookup_insert_ne. congruence.
    + intros cpio2. rewrite convertInitramfsConfig_unfold by exact Hfree.
      cbn [snd files]. rewrite !lookup_insert_eq. cbn [default]. unfold id.
      rewrite ?append_assoc. reflexivity.
  - intros Hlocked. unfold convertInitramfsConfig, open_at.
    rewrite bool_decide_eq_true_2 by exact Hlocked. reflexivity.
Qed.

Lemma convertInitramfsConfig_appends_witness :
  files (snd (convertInitramfsConfig "linux.cfg" "/x/initramfs.cpio" some_disk))
    !! "linux.cfg" =
    Some ("CONFIG_SMP=y" +:+ newline +:+ initramfs_lines "/x/initramfs.cpio") /\
  convertInitramfsConfig "/ro/linux.cfg" "/x/initramfs.cpio" some_disk =
    (Raise (OSError EACCES), some_disk).
Proof.
  destruct (convertInitramfsConfig_appends "linux.cfg" "/x/initramfs.cpio" some_disk)
    as [H _].
  destruct (convertInitramfsConfig_appends "/ro/linux.cfg" "/x/initramfs.cpio" some_disk)
    as [_ H'].
  split.
  - destruct H as (_ & Hf & _); [vm_compute; discriminate|]. exact Hf.
  - apply H'. vm_compute. reflexivity.
Defined.

(** ** initLogging *)

Section InitLogging.

Lemma removeHandler_keeps (h : Handler) (hs : list Handler) :
  Forall (fun x => h_id x <> h_id h) hs -> removeHandler h hs = hs.
Proof.
  unfold removeHandler. induction 1 as [|x hs Hx _ IH]; [reflexivity|].
  rewrite filter_cons_True by exact Hx. rewrite IH. reflexivity.
Qed.

Lemma removeHandler_below (n : nat) (h : Handler) (hs : list Handler) :
  Forall (fun x => (h_id x < n)%nat) hs ->
  Forall (fun x => (h_id x < n)%nat) (removeHandler h hs).
Proof.
  unfold removeHandler. induction 1 as [|x hs Hx _ IH]; [constructor|].
  destruct (decide (h_id x <> h_id h)) as [Hne|He].
  - rewrite filter_cons_True by exact Hne. constructor; assumption.
  - rewrite filter_cons_False by exact He. exact IH.
Qed.

Lemma remove_opt_below (n : nat) (o : option Handler) (hs : list Handler) :
  Forall (fun x => (h_id x < n)%nat) hs ->
  Forall (fun x => (h_id x < n)%nat) (remove_opt o hs).
Proof. destruct o; [apply removeHandler_below | intros H; exact H]. Qed.

Lemma remove_opt_app (o : option Handler) (a b : list Handler) :
  remove_opt o (a ++ b) = remove_opt o a ++ remove_opt o b.
Proof. destruct o; [apply filter_app | reflexivity]. Qed.

Lemma addHandler_new (h : Handler) (hs : list Handler) :
  Forall (fun x => h_id x <> h_id h) hs -> addHandler h hs = hs ++ [h].
Proof.
  intros H. unfold addHandler. rewrite bool_decide_eq_false_2; [reflexivity|].
  intros Hex. apply Exists_exists in Hex as (x & Hin & Hx).
  rewrite Forall_forall in H. exact (H x Hin Hx).
Qed.

Lemma below_differs (n k : nat) (hs : list Handler) :
  (n <= k)%nat -> Forall (fun x => (h_id x < n)%nat) hs ->
  Forall (fun x => h_id x <> k) hs.
Proof. intros Hk H. eapply Forall_impl; [exact H|]. intros x Hx. cbn in *. lia. Qed.

(** A handler that is not the one removed stays. *)
Lemma remove_opt_other (o : option Handler) (h : Handler) :
  (forall x, o = Some x -> h_id h <> h_id x) -> remove_opt o [h] = [h].
Proof.
  intros H. destruct o as [x|]; [|reflexivity].
  apply removeHandler_keeps. constructor; [exact (H x eq_refl) | constructor].
Qed.

(** X23. Called on a logging state whose handler identities are in use
    as recorded, [initLogging] takes the module's earlier file and console
    handlers off the root logger and puts one new file handler (for
    [<log_dir>/<run name>.log], every level, with the module's format) and
    one new console handler (every level when [verbose], from INFO
    otherwise) at its end: the handlers of others stay as they were, and
    repeated calls do not pile handlers up.  When the log file cannot be
    opened, the [OSError] comes out with the old file handler already
    taken off and the console handler still in place. *)
Theorem initLogging_replaces_handlers (g : Globals) (open_log : string -> os_result unit)
    (verbose : bool) (name : string) (l : Logging) :
  ids_below l ->
  let logPath := OsPath.join (log_dir g) (name +:+ ".log") in
  let fh := {| h_id := next_id l; h_sink := ToFile logPath;
               h_level := None; h_format := Some log_format |} in
  let ch := {| h_id := S (next_id l); h_sink := ToStdout;
               h_level := if verbose then None else Some INFO; h_format := None |} in
  let l' := snd (initLogging g open_log verbose name l) in
  (open_log logPath = OsOk tt ->
   fst (initLogging g open_log verbose name l) = Ret tt /\
   root_handlers l' = foreign l ++ [fh; ch] /\
   fileHandler l' = Some fh /\ consoleHandler l' = Some ch /\
   root_level l' = None /\
   foreign l' = foreign l /\ ids_below l') /\
  (forall errno,
     open_log logPath = OsErr errno ->
     fst (initLogging g open_log verbose name l) = Raise (OSError errno) /\
     root_handlers l' = remove_opt (fileHandler l) (root_handlers l) /\
     fileHandler l' = fileHandler l /\ consoleHandler l' = consoleHandler l).
Proof.
  intros (Hroot & Hfile & Hcons) logPath fh ch l'.
  set (n := next_id l) in *.
  assert (H1 : Forall (fun x => (h_id x < n)%nat)
                 (remove_opt (fileHandler l) (root_handlers l)))
    by (apply remove_opt_below, Hroot).
  assert (Hf : Forall (fun x => (h_id x < n)%nat) (foreign l))
    by (apply remove_opt_below, H1).
  split.
  - intros Hopen. subst l'. unfold initLogging. fold logPath. rewrite Hopen.
    fold n fh ch. cbn [fst snd root_handlers fileHandler consoleHandler root_level next_id].
    assert (E2 : addHandler fh (remove_opt (fileHandler l) (root_handlers l)) =
                 remove_opt (fileHandler l) (root_handlers l) ++ [fh])
      by (apply addHandler_new, (below_differs n n); [lia | exact H1]).
    rewrite E2, remove_opt_app.
    assert (E3 : remove_opt (consoleHandler l) [fh] = [fh]).
    { apply remove_opt_other. intros x Hx. specialize (Hcons x Hx). cbn. lia. }
    rewrite E3. fold (foreign l).
    assert (E4 : addHandler ch (foreign l ++ [fh]) = (foreign l ++ [fh]) ++ [ch]).
    { apply addHandler_new, Forall_app_2.
      - apply (below_differs n (S n)); [lia | exact Hf].
      - constructor; [cbn; lia | constructor]. }
    rewrite E4, <- app_assoc. cbn [app].
    split; [reflexivity|]. split; [reflexivity|]. split; [reflexivity|].
    split; [reflexivity|]. split; [reflexivity|]. split.
    + unfold foreign at 1.
      cbn [root_handlers fileHandler consoleHandler].
      rewrite (remove_opt_app (Some fh)).
      assert (K1 : remove_opt (Some fh) (foreign l) = foreign l).
      { apply removeHandler_keeps, (below_differs n n); [lia | exact Hf]. }
      assert (K2 : remove_opt (Some fh) [fh; ch] = [ch]).
      { cbn [remove_opt]. unfold removeHandler.
        rewrite filter_cons_False by (cbn; lia).
        rewrite filter_cons_True by (cbn; lia). reflexivity. }
      rewrite K1, K2, (remove_opt_app (Some ch)).
      assert (K3 : remove_opt (Some ch) (foreign l) = foreign l).
      { apply removeHandler_keeps, (below_differs n (S n)); [lia | exact Hf]. }
      assert (K4 : remove_opt (Some ch) [ch] = []).
      { cbn [remove_opt]. unfold removeHandler.
        rewrite filter_cons_False by (cbn; lia). reflexivity. }
      rewrite K3, K4, app_nil_r. reflexivity.
    + unfold ids_below. cbn [root_handlers fileHandler consoleHandler next_id].
      split; [|split].
      * apply Forall_app_2.
        -- eapply Forall_impl; [exact Hf|]. intros x Hx. cbn in *. lia.
        -- constructor; [cbn; lia|]. constructor; [cbn; lia | constructor].
      * intros h [= <-]. cbn. lia.
      * intros h [= <-]. cbn. lia.
  - intros errno Hopen. subst l'. unfold initLogging. fold logPath. rewrite Hopen.
    cbn [fst snd root_handlers fileHandler consoleHandler]. repeat split.
Qed.

End InitLogging.

Lemma initLogging_replaces_handlers_witness :
  let l1 := snd (initLogging here logs_open false "r1" no_logging) in
  let l2 := snd (initLogging here logs_open true "r2" l1) in
  length (root_handlers l1) = 2%nat /\ length (root_handlers l2) = 2%nat /\
  map h_sink (root_handlers l2) = [ToFile "/mnt/logs/r2.log"; ToStdout] /\
  map h_sink (root_handlers (snd (initLogging here logs_closed true "r2" l1))) = [ToStdout].
Proof.
  intros l1 l2.
  assert (I0 : ids_below no_logging).
  { split; [constructor|]. split; intros h; discriminate. }
  destruct (initLogging_replaces_handlers here logs_open false "r1" no_logging I0)
    as [H1 _].
  destruct (H1 eq_refl) as (_ & R1 & _ & _ & _ & _ & I1).
  destruct (initLogging_replaces_handlers here logs_open true "r2" l1 I1) as [H2 _].
  destruct (H2 eq_refl) as (_ & R2 & _ & _ & _ & _ & _).
  destruct (initLogging_replaces_handlers here logs_closed true "r2" l1 I1) as [_ H3].
  destruct (H3 2 eq_refl) as (_ & R3 & _ & _).
  fold l1 in R1. fold l2 in R2.
  split; [rewrite R1; reflexivity|]. split; [rewrite R2; reflexivity|].
  split; [rewrite R2; reflexivity|]. rewrite R3. reflexivity.
Defined.
